(** * KPI main service: scoring, entry lifecycle, batch generation, statistics

    A shallow embedding of [src/modules/kpi_entry/kpi_entry.services.ts]
    (class [KpiEntryService]) together with the helpers it calls
    ([lib/filters.ts], [MemberService], [KpiTemplateService]) and the
    Mongoose schemas that constrain what is stored, and of the two monthly
    jobs of [configs/cron.ts] that call it.

    Modelling conventions.
    - A JavaScript [number] is an exact rational ([Q]); [NaN] and the
      infinities are outside the model, and where a coercion can produce
      [NaN] the result is an [option Q] with [None] for [NaN].
    - Months, years and counters, which the service only ever uses as
      integers, are [Z] or [nat].
    - The document store is threaded explicitly: every service operation is
      a function from the store to the store after the call paired with
      either the exception thrown or the value returned.
    - Ids handed to the store are well-formed ObjectId strings, so no lookup
      fails on the conversion of an id.
    - [new Date()] is an argument ([now]) of the operations that read it. *)

From Stdlib Require Import ZArith QArith Qround Lqa String Sorted.
From stdpp Require Import base option list gmap strings.

Open Scope Z_scope.

Set Warnings "-abstract-large-number".
Set Warnings "-register-all".

(** * JavaScript primitives the service relies on *)

Module Js.

(** A raw KPI value: [number | string | boolean]. *)
Inductive Value :=
| VNumber (n : Q)
| VString (s : string)
| VBoolean (b : bool).

(** The result of [typeof] on such a value. *)
Inductive TypeTag := TNumber | TString | TBoolean.

Definition typeof (v : Value) : TypeTag :=
  match v with
  | VNumber _ => TNumber
  | VString _ => TString
  | VBoolean _ => TBoolean
  end.

(** [xs.sort(compareFn)]: the sort is stable, an element [a] is placed before
    [b] unless [compareFn(a, b) > 0], so for a consistent comparator the
    result is the one computed here by insertion from the right. (For a
    comparator that is not consistent the engine's order is
    implementation-defined; no statement below depends on that case.) *)
Fixpoint sort_insert {A} (compareFn : A → A → Q) (x : A) (l : list A) : list A :=
  match l with
  | [] => [x]
  | y :: l' =>
      if Qle_bool (compareFn x y) 0 then x :: l
      else y :: sort_insert compareFn x l'
  end.

Definition Array_sort {A} (compareFn : A → A → Q) (l : list A) : list A :=
  foldr (sort_insert compareFn) [] l.

(** [Math.round]: nearest integer, ties towards +infinity. *)
Definition Math_round (x : Q) : Z := Qfloor (x + (1 # 2)).

(** [Math.ceil(a / b)] for integers [a >= 0], [b > 0]. *)
Definition ceil_div (a b : Z) : Z := (a + b - 1) / b.

(** [s.startsWith(p)] *)
Definition startsWith (s p : string) : bool := String.prefix p s.

(** [s.replace(pat, rep)] with a string pattern: the first occurrence only. *)
Definition replace (s pat rep : string) : string :=
  match String.index 0 pat s with
  | Some i =>
      String.append (String.substring 0 i s)
        (String.append rep
           (String.substring (i + String.length pat)
              (String.length s - (i + String.length pat)) s))
  | None => s
  end.

(** A point in time, by its local calendar fields; the order on instants is
    the lexicographic order on the fields (the service runs in one zone with
    a fixed offset). *)
Record Date := mkDate {
  getFullYear : Z;
  getMonth : Z;      (* 0 .. 11 *)
  getDate : Z;       (* 1 .. 31 *)
  msOfDay : Z        (* milliseconds since local midnight *)
}.

Definition Date_leb (a b : Date) : bool :=
  if getFullYear a <? getFullYear b then true
  else if getFullYear b <? getFullYear a then false
  else if getMonth a <? getMonth b then true
  else if getMonth b <? getMonth a then false
  else if getDate a <? getDate b then true
  else if getDate b <? getDate a then false
  else msOfDay a <=? msOfDay b.

Definition isLeapYear (y : Z) : bool :=
  ((y mod 4 =? 0) && negb (y mod 100 =? 0)) || (y mod 400 =? 0).

Definition daysInMonth (y monthIndex : Z) : Z :=
  if monthIndex =? 1 then (if isLeapYear y then 29 else 28)
  else if (monthIndex =? 3) || (monthIndex =? 5) || (monthIndex =? 8)
          || (monthIndex =? 10) then 30
  else 31.

(** The [Date] constructor maps a year 0..99 to 1900..1999 and carries a
    month index outside 0..11 into the year. *)
Definition constructorYear (y : Z) : Z :=
  if (0 <=? y) && (y <=? 99) then 1900 + y else y.

(** [new Date(y, monthIndex, 1)]: local midnight opening that month. *)
Definition firstOfMonth (y monthIndex : Z) : Date :=
  mkDate (constructorYear y + monthIndex / 12) (monthIndex mod 12) 1 0.

(** [new Date(y, monthIndex, 0)]: day 0 of a month is the last day of the
    month before it, at local midnight. *)
Definition dayZeroOfMonth (y monthIndex : Z) : Date :=
  let y' := constructorYear y + (monthIndex - 1) / 12 in
  let m' := (monthIndex - 1) mod 12 in
  mkDate y' m' (daysInMonth y' m') 0.

End Js.

(** * Data model *)

(** [ScoringRule.value]: [number | string]. *)
Inductive RuleValue :=
| RNumber (n : Q)
| RString (s : string).

Module ScoringRule.
Record t := mk {
  min : option Q;
  max : option Q;
  value : option RuleValue;
  score : Q
}.
End ScoringRule.

Inductive KpiType := quantitative | percentage | binary | qualitative | score.

Module TemplateItem.
Record t := mk {
  name : string;
  maxMarks : Q;
  kpiType : KpiType;
  isDynamic : bool;
  scoringRules : list ScoringRule.t
}.
End TemplateItem.

Module KpiTemplate.
Record t := mk {
  _id : string;
  departmentSlug : string;
  role : string;
  template : list TemplateItem.t
}.
End KpiTemplate.

(** A submitted value, as [updateKpiEntryValues] receives it from the request
    body ([score], [comments] and [isByPassed] are optional there). *)
Module ValueInput.
Record t := mk {
  name : string;
  value : Js.Value;
  score : option Q;
  comments : option string;
  isByPassed : option bool
}.
End ValueInput.

(** A stored value: the input with its score filled in. *)
Module ValueEntry.
Record t := mk {
  name : string;
  value : Js.Value;
  score : Q;
  comments : option string;
  isByPassed : option bool
}.
End ValueEntry.

Inductive EntryStatus := created | initiated | generated.

#[global] Instance EntryStatus_eq_dec : EqDecision EntryStatus.
Proof. solve_decision. Defined.

Module KpiEntry.
Record t := mk {
  _id : nat;
  kpiTemplateId : string;
  values : list ValueEntry.t;
  totalScore : Q;
  status : EntryStatus;
  createdBy : string;
  createdFor : string;
  jurisdiction : list string;
  kpirefs : option string;
  month : Z;
  year : Z;
  createdAt : Js.Date
}.
End KpiEntry.

(** The two metadata fields the service reads; either may be absent (the
    member schema requires [metadata] itself). *)
Module Metadata.
Record t := mk {
  kpirefs : option (list string);
  jurisdiction : option (list string)
}.
End Metadata.

Module Member.
Record t := mk {
  userId : string;
  departmentSlug : string;
  role : string;
  metadata : Metadata.t
}.
End Member.

(** The one change record of an audit-log document that the service writes. *)
Module KpiAuditLog.
Record t := mk {
  userId : string;
  action : string;
  field : string;
  templateId : string;
  month : Z;
  year : Z;
  entriesCount : nat;
  membersCount : option nat
}.
End KpiAuditLog.

(** [APIError]: the HTTP status and the title (the free-text [MESSAGE] is not
    modelled). *)
Record APIError := mkAPIError { STATUS : Z; TITLE : string }.

Module HttpErrorStatusCode.
(** Modelled from the spec: the enum [HttpErrorStatusCode]
    ([types/errors/errors.types]) is not among the sources; its member
    [FORBIDDEN] carries the HTTP code of the spec's [Forbidden] kind. *)
Definition FORBIDDEN : Z := 403.
(** Modelled from the spec: likewise [NOT_FOUND], the HTTP code of the
    spec's [NotFound] kind (the service also writes it as the literal 404). *)
Definition NOT_FOUND : Z := 404.
End HttpErrorStatusCode.

(** The spec's error kinds, read off the HTTP status of the [APIError]: the
    service throws 404, 409, 403 and 400 and nothing else. *)
Definition NotFound (e : APIError) : Prop := STATUS e = 404.
Definition Conflict (e : APIError) : Prop := STATUS e = 409.
Definition Forbidden (e : APIError) : Prop := STATUS e = 403.
Definition ValidationError (e : APIError) : Prop := STATUS e = 400.

(** What an operation can throw: an [APIError] of the service, or the
    validation error Mongoose raises when a document breaks its schema. *)
Inductive Exception :=
| Api (e : APIError)
| MongooseValidationError.

(** * The document store and the effect of an operation on it *)

Record Db := mkDb {
  tbl_kpi_templates : list KpiTemplate.t;
  tbl_members : list Member.t;
  tbl_kpi_entries : list KpiEntry.t;
  tbl_kpi_audit_logs : list KpiAuditLog.t;
  nextObjectId : nat
}.

(** An operation runs against the store and ends in the store it leaves
    behind together with the exception thrown or the value returned. *)
Definition M (A : Type) : Type := Db → Db * (Exception + A).

#[global] Instance M_ret : MRet M := λ A x db, (db, inr x).

#[global] Instance M_bind : MBind M := λ A B f m db,
  match m db with
  | (db', inr x) => f x db'
  | (db', inl e) => (db', inl e)
  end.

Definition throw {A} (e : APIError) : M A := λ db, (db, inl (Api e)).

Definition read {A} (f : Db → A) : M A := λ db, (db, inr (f db)).

(** A synchronous helper that may throw, run inside an operation. *)
Definition liftE {A} (r : APIError + A) : M A := λ db,
  match r with
  | inl e => (db, inl (Api e))
  | inr x => (db, inr x)
  end.

Definition nonEmpty (s : string) : bool := negb (String.eqb s "").

(** ** KpiEntryModel *)

(** A document handed to [insertMany]: an entry before the store gives it its
    [_id] and its [createdAt] timestamp. *)
Module NewKpiEntry.
Record t := mk {
  kpiTemplateId : string;
  values : list ValueEntry.t;
  totalScore : Q;
  status : EntryStatus;
  createdBy : string;
  createdFor : string;
  jurisdiction : list string;
  kpirefs : option string;
  month : Z;
  year : Z
}.
End NewKpiEntry.

Module KpiEntryModel.

Definition find (p : KpiEntry.t → bool) : M (list KpiEntry.t) :=
  read (λ db, List.filter p (tbl_kpi_entries db)).

Definition findById (id : nat) : M (option KpiEntry.t) :=
  read (λ db, List.find (λ e, Nat.eqb (KpiEntry._id e) id) (tbl_kpi_entries db)).

(** The schema's validators: required strings are non-empty, [month] lies in
    1..12 and [year] is at least 2020. *)
Definition valid (d : NewKpiEntry.t) : bool :=
  nonEmpty (NewKpiEntry.kpiTemplateId d)
  && nonEmpty (NewKpiEntry.createdBy d)
  && nonEmpty (NewKpiEntry.createdFor d)
  && (1 <=? NewKpiEntry.month d) && (NewKpiEntry.month d <=? 12)
  && (2020 <=? NewKpiEntry.year d).

Definition store (now : Js.Date) (id : nat) (d : NewKpiEntry.t) : KpiEntry.t :=
  KpiEntry.mk id (NewKpiEntry.kpiTemplateId d) (NewKpiEntry.values d)
    (NewKpiEntry.totalScore d) (NewKpiEntry.status d) (NewKpiEntry.createdBy d)
    (NewKpiEntry.createdFor d) (NewKpiEntry.jurisdiction d)
    (NewKpiEntry.kpirefs d) (NewKpiEntry.month d) (NewKpiEntry.year d) now.

Fixpoint storeAll (now : Js.Date) (id : nat) (ds : list NewKpiEntry.t)
  : list KpiEntry.t :=
  match ds with
  | [] => []
  | d :: ds' => store now id d :: storeAll now (S id) ds'
  end.

(** [insertMany]: every document is validated before any is written; the
    written documents get fresh ids and the current time as [createdAt]. *)
Definition insertMany (now : Js.Date) (ds : list NewKpiEntry.t)
  : M (list KpiEntry.t) := λ db,
  if forallb valid ds then
    let docs := storeAll now (nextObjectId db) ds in
    (mkDb (tbl_kpi_templates db) (tbl_members db)
          (tbl_kpi_entries db ++ docs) (tbl_kpi_audit_logs db)
          (nextObjectId db + length ds)%nat,
     inr docs)
  else (db, inl MongooseValidationError).

Fixpoint updateFirst (id : nat) (f : KpiEntry.t → KpiEntry.t)
  (es : list KpiEntry.t) : list KpiEntry.t * option KpiEntry.t :=
  match es with
  | [] => ([], None)
  | e :: es' =>
      if Nat.eqb (KpiEntry._id e) id then (f e :: es', Some (f e))
      else let '(es'', r) := updateFirst id f es' in (e :: es'', r)
  end.

(** [findByIdAndUpdate(id, update, { new: true })]: the first document with
    that id is updated in place and returned; none is [null]. Update
    validators are off by default, so the call does not throw. *)
Definition findByIdAndUpdate (id : nat) (f : KpiEntry.t → KpiEntry.t)
  : M (option KpiEntry.t) := λ db,
  let '(es, r) := updateFirst id f (tbl_kpi_entries db) in
  (mkDb (tbl_kpi_templates db) (tbl_members db) es (tbl_kpi_audit_logs db)
        (nextObjectId db),
   inr r).

End KpiEntryModel.

(** ** Paged listings *)

(** The object the listing operations return. [page] and [limit] are
    positive integers, as the handlers pass them for a well-formed query. *)
Module Paginated.
Record t (A : Type) := mk {
  docs : list A;
  total : nat;
  page : positive;
  limit : positive;
  totalPages : Z;
  hasNextPage : bool;
  hasPreviousPage : bool
}.
Arguments mk {A}.
Arguments docs {A}.
Arguments total {A}.
Arguments page {A}.
Arguments limit {A}.
Arguments totalPages {A}.
Arguments hasNextPage {A}.
Arguments hasPreviousPage {A}.
End Paginated.

(** [query.skip((page - 1) * limit).limit(limit)] on the matching documents
    in store order. *)
Definition skipLimit {A} (page limit : positive) (matching : list A) : list A :=
  take (Pos.to_nat limit)
    (drop ((Pos.to_nat page - 1) * Pos.to_nat limit)%nat matching).

(** ** Values of type [any] *)

(** A value of type [any], as a member's [metadata] and its fields are. *)
Module Any.

Inductive t :=
| undefined
| null
| boolean (b : bool)
| number (n : Q)
| str (s : string)
| array (items : list t)
| object (fields : gmap string t).

(** Truthiness, as [if (v)], [v && ...] and [v || ...] read it. *)
Definition truthy (v : t) : bool :=
  match v with
  | undefined | null => false
  | boolean b => b
  | number n => negb (Qeq_bool n 0)
  | str s => nonEmpty s
  | array _ | object _ => true
  end.

(** [Array.isArray(v)] *)
Definition isArray (v : t) : bool :=
  match v with array _ => true | _ => false end.

(** [v[key]] for one of the keys the service reads (none of them is
    [length] or an index): reading a property of [undefined] or [null]
    throws a [TypeError], which is [None]; a key that is not there reads as
    [undefined]. *)
Definition get (v : t) (key : string) : option t :=
  match v with
  | undefined | null => None
  | object fields => Some (default undefined (fields !! key))
  | _ => Some undefined
  end.

(** [v.length === 0] for a truthy [v]. *)
Definition lengthIsZero (v : t) : bool :=
  match v with
  | array items => (length items =? 0)%nat
  | str s => (String.length s =? 0)%nat
  | object fields =>
      match fields !! "length" with
      | Some (number n) => Qeq_bool n 0
      | _ => false
      end
  | _ => false
  end.

(** The elements of an array ([[]] for anything else). *)
Definition items (v : t) : list t :=
  match v with array items => items | _ => [] end.

(** [a || b] *)
Definition or (a b : t) : t := if truthy a then a else b.

End Any.

(** A member document with its metadata as it is stored (of which the
    batch generator and the statistics read [kpirefs] and [jurisdiction]
    only). *)
Module MemberDocument.
Record t := mk {
  userId : string;
  departmentSlug : string;
  role : string;
  metadata : Any.t
}.
End MemberDocument.

(** ** KpiTemplateService, MemberService, KpiAuditLogService, lib/filters *)

Module KpiTemplateService.
Definition getKpiTemplate (id : string) : M (option KpiTemplate.t) :=
  read (λ db, List.find (λ t, String.eqb (KpiTemplate._id t) id)
                (tbl_kpi_templates db)).

(** [getKpiTemplates({page, limit, search, departmentSlug, role})]. A filter
    is added only for a non-empty string; [search] is given as the test its
    case-insensitive regular expression performs on a template's name (the
    name is not modelled), [None] standing for the empty search string. *)
Definition getKpiTemplates (page limit : positive)
  (search : option (KpiTemplate.t → bool)) (departmentSlug role : string)
  : M (Paginated.t KpiTemplate.t) :=
  read (λ db,
    let query (t : KpiTemplate.t) :=
      match search with Some nameMatches => nameMatches t | None => true end
      && (if nonEmpty departmentSlug
          then String.eqb (KpiTemplate.departmentSlug t) departmentSlug else true)
      && (if nonEmpty role then String.eqb (KpiTemplate.role t) role else true) in
    let matching := List.filter query (tbl_kpi_templates db) in
    let kpiTemplates := skipLimit page limit matching in
    let total := length matching in
    Paginated.mk kpiTemplates total page limit
      (Js.ceil_div (Z.of_nat total) (Z.pos limit))
      (Z.pos page <? Js.ceil_div (Z.of_nat total) (Z.pos limit))
      (1 <? Z.pos page)).

End KpiTemplateService.

Module MemberService.

(** [getMembers({department, role, page, limit})]: a filter is applied only
    for a non-empty string; the page is cut out of the matching documents.
    Only [docs] of the result is modelled. User ids are well-formed ObjectId
    strings, so the lookup of the user document does not throw. *)
Definition getMembers (department role : option string) (page limit : nat)
  : M (list Member.t) :=
  read (λ db,
    let matches (m : Member.t) :=
      match department with
      | Some d => if nonEmpty d then String.eqb (Member.departmentSlug m) d else true
      | None => true
      end &&
      match role with
      | Some r => if nonEmpty r then String.eqb (Member.role m) r else true
      | None => true
      end in
    take limit (drop ((page - 1) * limit)%nat (List.filter matches (tbl_members db)))).

(** [getMemberByUserId]: the member document of that user, if any. The
    function returns an object in either case (the member's fields spread
    into it), so a caller sees [role] and [departmentSlug] undefined when
    there is no document: this is [None] here. *)
Definition getMemberByUserId (id : string) : M (option Member.t) :=
  read (λ db, List.find (λ m, String.eqb (Member.userId m) id) (tbl_members db)).

(** The roles that carry no reference. *)
Definition isOfficerRole (role : string) : bool :=
  String.eqb role "nodalOfficer-sdm" || String.eqb role "nodalOfficer-tehsildar"
  || String.eqb role "nodalOfficer-patwari" || String.eqb role "nodalOfficer-ri".

(** The common shape of the cases ['ri'], ['tehsildar'] and ['patwari'] of
    [validateAndAdaptMetadata], which differ in two places: [withTehsil]
    says whether the case copies [tehsil] and puts it at the head of the
    jurisdiction; [key] is the field that holds the references. *)
Definition adaptReferences (withTehsil : bool) (key : string) (metadata : Any.t)
  (adaptedMetadata : gmap string Any.t) : option (gmap string Any.t) :=
  adapted1 ←
    (if withTehsil then
       tehsil ← Any.get metadata "tehsil";
       Some (if Any.truthy tehsil then <["tehsil" := tehsil]> adaptedMetadata
             else adaptedMetadata)
     else Some adaptedMetadata);
  field ← Any.get metadata key;
  let adapted2 :=
    if Any.truthy field && Any.isArray field then
      <["isMultipleKPIRef" := Any.boolean (1 <? length (Any.items field))%nat]>
        (<["kpirefs" := field]> (<[key := field]> adapted1))
    else adapted1 in
  let tehsil := default Any.undefined (adapted2 !! "tehsil") in
  let kpirefs := Any.items (default Any.undefined (adapted2 !! "kpirefs")) in
  Some (if withTehsil && Any.truthy tehsil && (0 <? length kpirefs)%nat
        then <["jurisdiction" := Any.array (tehsil :: kpirefs)]> adapted2
        else if (0 <? length kpirefs)%nat
        then <["jurisdiction" := Any.array kpirefs]> adapted2
        else adapted2).

(** [validateAndAdaptMetadata(role, metadata)]; [None] is the [TypeError] of
    reading a property of [null] or [undefined]. *)
Definition validateAndAdaptMetadata (role : string) (metadata : Any.t)
  : option Any.t :=
  let adaptedMetadata : gmap string Any.t :=
    <["isMultipleKPIRef" := Any.boolean false]>
      (<["kpirefs" := Any.array []]> ∅) in
  Any.object <$>
    (if String.eqb role "ri" then
       adaptReferences true "ri-circle" metadata adaptedMetadata
     else if String.eqb role "tehsildar" then
       adaptReferences false "courts" metadata adaptedMetadata
     else if String.eqb role "patwari" then
       adaptReferences true "halka" metadata adaptedMetadata
     else if String.eqb role "sdm" || isOfficerRole role then
       Some (<["isMultipleKPIRef" := Any.boolean false]>
               (<["kpirefs" := Any.array []]> adaptedMetadata))
     else
       kpirefs ← Any.get metadata "kpirefs";
       isMultipleKPIRef ← Any.get metadata "isMultipleKPIRef";
       jurisdiction ← Any.get metadata "jurisdiction";
       let adapted1 :=
         <["isMultipleKPIRef" := Any.or isMultipleKPIRef (Any.boolean false)]>
           (<["kpirefs" := Any.or kpirefs (Any.array [])]> adaptedMetadata) in
       Some (if Any.truthy jurisdiction
             then <["jurisdiction" := jurisdiction]> adapted1 else adapted1)).

(** What [validateRoleMetadata] returns. *)
Module RoleValidation.
Record t := mk { isValid : bool; errors : list string }.
End RoleValidation.

(** The two checks of one field in [validateRoleMetadata]. *)
Definition fieldErrors (key role : string) (metadata : Any.t)
  : option (list string) :=
  field ← Any.get metadata key;
  Some ((if Any.truthy field && negb (Any.isArray field)
         then [String.append key " must be an array"] else [])
        ++ (if Any.truthy field && Any.lengthIsZero field
            then [String.append key
                    (String.append " cannot be empty for "
                       (String.append role " role"))]
            else [])).

(** [validateRoleMetadata(role, metadata)]; [None] is a [TypeError]. *)
Definition validateRoleMetadata (role : string) (metadata : Any.t)
  : option RoleValidation.t :=
  errors ←
    (if String.eqb role "ri" then fieldErrors "ri-circle" role metadata
     else if String.eqb role "tehsildar" then fieldErrors "courts" role metadata
     else if String.eqb role "patwari" then fieldErrors "halka" role metadata
     else if String.eqb role "sdm" || isOfficerRole role
             || String.eqb role "collector-raipur" then Some []
     else Some [String.append "Unknown role: " role]);
  Some (RoleValidation.mk (length errors =? 0)%nat errors).

End MemberService.

Module KpiAuditLogService.
(** [KpiAuditLogService.create]: [new KpiAuditLogModel(data).save()]. The
    callers in [KpiEntryService] do not await it, so what it may throw never
    reaches them; the record is appended at the point of the call, and the
    validators of the audit-log schema are not modelled. *)
Definition create (l : KpiAuditLog.t) : M unit := λ db,
  (mkDb (tbl_kpi_templates db) (tbl_members db) (tbl_kpi_entries db)
        (tbl_kpi_audit_logs db ++ [l]) (nextObjectId db),
   inr tt).
End KpiAuditLogService.

Definition filterExcludedMembers (members : list Member.t) : list Member.t :=
  List.filter
    (λ member,
       negb (Js.startsWith (Member.role member) "nodalOfficer-")
       && negb (String.eqb (Member.departmentSlug member) "collector-office"))
    members.

(** The role-specific field [hasMultipleKpiRefs] and [getMemberKpiRefs] fall
    back to when the metadata has no [kpirefs] array. *)
Definition fallbackField (role : string) : option string :=
  if String.eqb role "RI" then Some "ri-circle"
  else if String.eqb role "tehsildar" then Some "courts"
  else if String.eqb role "patwari" then Some "halka"
  else None.

Definition hasMultipleKpiRefs (member : MemberDocument.t) : bool :=
  let metadata := MemberDocument.metadata member in
  if negb (Any.truthy metadata) then false
  else
    let kpirefs := default Any.undefined (Any.get metadata "kpirefs") in
    if Any.isArray kpirefs then (1 <? length (Any.items kpirefs))%nat
    else
      match fallbackField (MemberDocument.role member) with
      | Some key =>
          let field := default Any.undefined (Any.get metadata key) in
          Any.isArray field && (1 <? length (Any.items field))%nat
      | None => false
      end.

Definition getMemberKpiRefs (member : MemberDocument.t) : list Any.t :=
  let metadata := MemberDocument.metadata member in
  if negb (Any.truthy metadata) then []
  else
    let kpirefs := default Any.undefined (Any.get metadata "kpirefs") in
    if Any.isArray kpirefs then Any.items kpirefs
    else
      match fallbackField (MemberDocument.role member) with
      | Some key =>
          let field := default Any.undefined (Any.get metadata key) in
          if Any.isArray field then Any.items field else []
      | None => []
      end.

Definition getMemberJurisdictions (member : MemberDocument.t) : list Any.t :=
  getMemberKpiRefs member.

(** ** Results of the batch generator and of the statistics aggregator *)

(** What [generateDefaultKpiEntries] returns (without its message). *)
Module GenerateResult.
Record t := mk {
  entriesCount : nat;
  membersCount : nat;
  templateId : string;
  month : Z;
  year : Z;
  entries : list KpiEntry.t
}.
End GenerateResult.

(** A ranking row's status: the entry's, or ['no-entry']. *)
Inductive RowStatus :=
| of_entry (s : EntryStatus)
| no_entry.

#[global] Instance RowStatus_eq_dec : EqDecision RowStatus.
Proof. solve_decision. Defined.

(** One element of [rankings]. [memberName] and [memberEmail], copied from
    the user collection, are not modelled. *)
Module Ranking.
Record t := mk {
  memberId : string;
  memberDepartment : string;
  memberRole : string;
  ranking : nat;
  totalScore : Q;
  hasEntry : bool;
  entryId : option nat;
  status : RowStatus;
  kpiref : string;
  jurisdiction : list string
}.

Definition setRanking (n : nat) (r : t) : t :=
  mk (memberId r) (memberDepartment r) (memberRole r) n (totalScore r)
     (hasEntry r) (entryId r) (status r) (kpiref r) (jurisdiction r).
End Ranking.

Module Statistics.
Record t := mk {
  totalRankings : nat;
  rankingsWithEntries : nat;
  rankingsWithoutEntries : nat;
  averageScore : Q;
  highestScore : Q;
  lowestScore : Q;
  completionRate : option Z     (* [None]: NaN, when there is no row *)
}.
End Statistics.

(** The part of the returned object the ranking rules are about: the rows,
    the summary and the resolved period (which the service returns formatted
    as a month name and a year). *)
Module StatisticsResult.
Record t := mk {
  rankings : list Ranking.t;
  statistics : Statistics.t;
  monthNum : Z;
  yearNum : Z
}.
End StatisticsResult.

(** * KpiEntryService *)

Section KpiEntryService.

(** JavaScript's conversion of a string to a number ([None] is [NaN]). The
    service reaches it only when a percentage rule carries a string
    threshold, which [rule.value as number] lets through unchanged. *)
Variable StringToNumber : string → option Q.

(** ** The Scoring Evaluator *)

(** [rule.value as number] where it is used arithmetically. *)
Definition valueAsNumber (rule : ScoringRule.t) : option Q :=
  match ScoringRule.value rule with
  | Some (RNumber n) => Some n
  | Some (RString s) => StringToNumber s
  | None => None
  end.

(** [(a, b) => (b.value as number) - (a.value as number)]; a [NaN]
    difference counts as 0 for [sort]. *)
Definition byValueDescending (a b : ScoringRule.t) : Q :=
  match valueAsNumber b, valueAsNumber a with
  | Some y, Some x => y - x
  | _, _ => 0
  end.

(** [value >= (rule.value as number)] *)
Definition reaches (value : Q) (rule : ScoringRule.t) : bool :=
  match valueAsNumber rule with
  | Some t => Qle_bool t value
  | None => false
  end.

(** [value === rule.value] for a raw value against a rule's value. *)
Definition strictEquals (value : Js.Value) (rv : RuleValue) : bool :=
  match value, rv with
  | Js.VNumber a, RNumber b => Qeq_bool a b
  | Js.VString a, RString b => String.eqb a b
  | _, _ => false
  end.

(** The closing loop of [calculateScore]: one pass over the rules in
    declared order; a rule with both [min] and [max] is tried as a range and
    nothing else, any other rule with a [value] as an exact match. *)
Fixpoint matchRules (value : Js.Value) (scoringRules : list ScoringRule.t) : Q :=
  match scoringRules with
  | [] => 0
  | rule :: rest =>
      match ScoringRule.min rule, ScoringRule.max rule with
      | Some lo, Some hi =>
          match value with
          | Js.VNumber v =>
              if Qle_bool lo v && Qle_bool v hi then ScoringRule.score rule
              else matchRules value rest
          | _ => matchRules value rest
          end
      | _, _ =>
          match ScoringRule.value rule with
          | Some rv =>
              if strictEquals value rv then ScoringRule.score rule
              else matchRules value rest
          | None => matchRules value rest
          end
      end
  end.

Definition hasValue (rule : ScoringRule.t) : bool :=
  match ScoringRule.value rule with Some _ => true | None => false end.

Definition calculateScore (value : Js.Value) (scoringRules : list ScoringRule.t)
  (kpiType : KpiType) : Q :=
  match kpiType, value with
  | score, Js.VNumber v => v
  | percentage, Js.VNumber v =>
      let sortedRules :=
        Js.Array_sort byValueDescending (List.filter hasValue scoringRules) in
      match List.find (reaches v) sortedRules with
      | Some rule => ScoringRule.score rule
      | None => 0
      end
  | _, _ => matchRules value scoringRules
  end.

(** ** Validation of a submission *)

Definition validateRequiredValues (values : list ValueInput.t)
  (templateItems : list TemplateItem.t) : APIError + unit :=
  let providedKpiNames := map ValueInput.name values in
  let missingNonDynamicKpis :=
    map TemplateItem.name
      (List.filter
         (λ item, negb (TemplateItem.isDynamic item)
                  && negb (existsb (String.eqb (TemplateItem.name item))
                             providedKpiNames))
         templateItems) in
  if (0 <? length missingNonDynamicKpis)%nat
  then inl (mkAPIError 400 "Missing required values")
  else inr tt.

(** The body of the loop of [validateAndCalculateScores] for one submitted
    value: [None] when no template item carries its name (the value is
    skipped), otherwise the stored value with its score. *)
Definition scoreOne (templateItems : list TemplateItem.t) (value : ValueInput.t)
  : APIError + option ValueEntry.t :=
  match List.find (λ item, String.eqb (TemplateItem.name item) (ValueInput.name value))
          templateItems with
  | None => inr None
  | Some templateItem =>
      let stored (s : Q) :=
        ValueEntry.mk (ValueInput.name value) (ValueInput.value value) s
          (ValueInput.comments value) (ValueInput.isByPassed value) in
      match ValueInput.isByPassed value with
      | Some true =>
          match ValueInput.score value with
          | None => inl (mkAPIError 400 "Missing score field")
          | Some s => inr (Some (stored s))
          end
      | _ =>
          let checked : APIError + unit :=
            match TemplateItem.kpiType templateItem with
            | quantitative | percentage | score =>
                match Js.typeof (ValueInput.value value) with
                | Js.TNumber => inr tt
                | _ => inl (mkAPIError 400 "Invalid value type")
                end
            | binary =>
                match Js.typeof (ValueInput.value value) with
                | Js.TBoolean => inr tt
                | _ => inl (mkAPIError 400 "Invalid value type")
                end
            | qualitative => inr tt
            end in
          match checked with
          | inl e => inl e
          | inr _ =>
              inr (Some (stored
                (calculateScore (ValueInput.value value)
                   (TemplateItem.scoringRules templateItem)
                   (TemplateItem.kpiType templateItem))))
          end
      end
  end.

Fixpoint scoreAll (templateItems : list TemplateItem.t) (values : list ValueInput.t)
  : APIError + list ValueEntry.t :=
  match values with
  | [] => inr []
  | value :: rest =>
      match scoreOne templateItems value with
      | inl e => inl e
      | inr o =>
          match scoreAll templateItems rest with
          | inl e => inl e
          | inr validatedValues =>
              inr (match o with
                   | Some v => v :: validatedValues
                   | None => validatedValues
                   end)
          end
      end
  end.

Definition validateAndCalculateScores (values : list ValueInput.t)
  (templateItems : list TemplateItem.t) : APIError + list ValueEntry.t :=
  match validateRequiredValues values templateItems with
  | inl e => inl e
  | inr _ => scoreAll templateItems values
  end.

(** ** The Entry Lifecycle Manager *)

Definition validateNodalOfficerPermission (userRole userDepartment : string)
  (entry : KpiEntry.t) : M bool :=
  if String.eqb userDepartment "collector-office" then mret true
  else if negb (Js.startsWith userRole "nodalOfficer-") then mret false
  else
    let targetRole := Js.replace userRole "nodalOfficer-" "" in
    member ← MemberService.getMemberByUserId (KpiEntry.createdFor entry);
    match member with
    | None => mret false
    | Some m => mret (String.eqb (Member.role m) targetRole)
    end.

Definition sumScores (validatedValues : list ValueEntry.t) : Q :=
  foldl (λ sum value, sum + ValueEntry.score value)%Q 0%Q validatedValues.

(** [updateKpiEntryValues]. The checks come in the order of the source:
    entry found, not finalized, in its own month; then the permission check,
    which runs only under [if (userRole && userDepartment)]; then the
    template and the validation; the write is the last step. *)
Definition updateKpiEntryValues (now : Js.Date) (entryId : nat)
  (values : list ValueInput.t) (updatedBy : string) : M (option KpiEntry.t) :=
  found ← KpiEntryModel.findById entryId;
  match found with
  | None => throw (mkAPIError 404 "KPI Entry Not Found")
  | Some entry =>
      if bool_decide (KpiEntry.status entry = generated)
      then throw (mkAPIError 400 "Entry Already Generated")
      else if negb (Js.getMonth now + 1 =? KpiEntry.month entry)
              || negb (Js.getFullYear now =? KpiEntry.year entry)
      then throw (mkAPIError 400 "Update Period Expired")
      else
        existingNodalOfficer ← MemberService.getMemberByUserId updatedBy;
        let userRole := Member.role <$> existingNodalOfficer in
        let userDepartment := Member.departmentSlug <$> existingNodalOfficer in
        _ ← match userRole, userDepartment return M unit with
            | Some r, Some d =>
                if nonEmpty r && nonEmpty d then
                  hasPermission ← validateNodalOfficerPermission r d entry;
                  if negb hasPermission
                  then throw (mkAPIError HttpErrorStatusCode.FORBIDDEN
                                "Permission Denied")
                  else mret tt
                else mret tt
            | _, _ => mret tt
            end;
        template ← KpiTemplateService.getKpiTemplate (KpiEntry.kpiTemplateId entry);
        match template with
        | None => throw (mkAPIError 404 "KPI Template Not Found")
        | Some template =>
            validatedValues ←
              liftE (validateAndCalculateScores values (KpiTemplate.template template));
            let totalScore := sumScores validatedValues in
            KpiEntryModel.findByIdAndUpdate entryId
              (λ e, KpiEntry.mk (KpiEntry._id e) (KpiEntry.kpiTemplateId e)
                      validatedValues totalScore initiated
                      (KpiEntry.createdBy e) (KpiEntry.createdFor e)
                      (KpiEntry.jurisdiction e) (KpiEntry.kpirefs e)
                      (KpiEntry.month e) (KpiEntry.year e) (KpiEntry.createdAt e))
        end
  end.

(** ** The Batch Generator *)

(** [member.metadata?.kpirefs || []] *)
Definition kpirefsOf (member : Member.t) : list string :=
  default [] (Metadata.kpirefs (Member.metadata member)).

(** [member.metadata.jurisdiction || []] *)
Definition jurisdictionOf (member : Member.t) : list string :=
  default [] (Metadata.jurisdiction (Member.metadata member)).

(** The body of the loop over [filteredMembers]: what one member adds to
    [entriesToCreate]. *)
Definition defaultEntriesFor (templateId : string) (month year : Z)
  (generatedBy : string) (member : Member.t) : list NewKpiEntry.t :=
  let kpirefs := kpirefsOf member in
  let entry (kpiref : option string) :=
    NewKpiEntry.mk templateId [] 0%Q created generatedBy (Member.userId member)
      (jurisdictionOf member) kpiref month year in
  if (length kpirefs =? 0)%nat then [entry None]
  else map (λ kpiref, entry (Some kpiref)) kpirefs.

(** The query of the duplicate check: the entries of the template and the
    period, created for one of the members, whose creation time lies between
    [startDate = new Date(year, month - 1, 1)] and
    [endDate = new Date(year, month, 0)]. *)
Definition existingEntriesQuery (templateId : string) (month year : Z)
  (filteredMembers : list Member.t) (e : KpiEntry.t) : bool :=
  let startDate := Js.firstOfMonth year (month - 1) in
  let endDate := Js.dayZeroOfMonth year month in
  String.eqb (KpiEntry.kpiTemplateId e) templateId
  && (KpiEntry.month e =? month)
  && (KpiEntry.year e =? year)
  && existsb (String.eqb (KpiEntry.createdFor e))
       (map Member.userId filteredMembers)
  && Js.Date_leb startDate (KpiEntry.createdAt e)
  && Js.Date_leb (KpiEntry.createdAt e) endDate.

Definition generateDefaultKpiEntries (now : Js.Date) (templateId : string)
  (month year : Z) (generatedBy : string) : M GenerateResult.t :=
  template ← KpiTemplateService.getKpiTemplate templateId;
  match template with
  | None => throw (mkAPIError 404 "KPI Template Not Found")
  | Some template =>
      allMembers ← MemberService.getMembers
        (Some (KpiTemplate.departmentSlug template))
        (Some (KpiTemplate.role template)) 1 10000;
      let filteredMembers := filterExcludedMembers allMembers in
      existingEntries ← KpiEntryModel.find
        (existingEntriesQuery templateId month year filteredMembers);
      if (0 <? length existingEntries)%nat
      then throw (mkAPIError 409 "Entries Already Exist")
      else
        let entriesToCreate :=
          flat_map (defaultEntriesFor templateId month year generatedBy)
            filteredMembers in
        createdEntries ← KpiEntryModel.insertMany now entriesToCreate;
        _ ← KpiAuditLogService.create
              (KpiAuditLog.mk generatedBy "create" "default_entries_generated"
                 templateId month year (length createdEntries)
                 (Some (length filteredMembers)));
        mret (GenerateResult.mk (length createdEntries) (length filteredMembers)
                templateId month year createdEntries)
  end.

Definition setStatus (s : EntryStatus) (e : KpiEntry.t) : KpiEntry.t :=
  KpiEntry.mk (KpiEntry._id e) (KpiEntry.kpiTemplateId e) (KpiEntry.values e)
    (KpiEntry.totalScore e) s (KpiEntry.createdBy e) (KpiEntry.createdFor e)
    (KpiEntry.jurisdiction e) (KpiEntry.kpirefs e) (KpiEntry.month e)
    (KpiEntry.year e) (KpiEntry.createdAt e).

(** [Promise.all] over one [findByIdAndUpdate] per selected entry; the
    updates touch different documents, so their order does not matter. *)
Fixpoint updateEach (entries : list KpiEntry.t) : M unit :=
  match entries with
  | [] => mret tt
  | entry :: rest =>
      _ ← KpiEntryModel.findByIdAndUpdate (KpiEntry._id entry) (setStatus generated);
      updateEach rest
  end.

(** [generateFinalReports]; of the returned object only [entriesCount] is
    modelled, the rest echoes the arguments. *)
Definition generateFinalReports (templateId : string) (month year : Z)
  (generatedBy : string) : M nat :=
  entries ← KpiEntryModel.find
    (λ e, String.eqb (KpiEntry.kpiTemplateId e) templateId
          && (KpiEntry.month e =? month)
          && (KpiEntry.year e =? year)
          && (bool_decide (KpiEntry.status e = created)
              || bool_decide (KpiEntry.status e = initiated)));
  if (length entries =? 0)%nat
  then throw (mkAPIError HttpErrorStatusCode.NOT_FOUND "No Entries Found")
  else
    _ ← updateEach entries;
    _ ← KpiAuditLogService.create
          (KpiAuditLog.mk generatedBy "generate_report" "final_reports_generated"
             templateId month year (length entries) None);
    mret (length entries).

(** ** The Statistics Aggregator *)

(** Resolution of the requested period. [month] and [year] are the numeric
    values of the query strings when these are present and non-empty. *)
Definition resolvePeriod (currentMonth currentYear : Z) (month year : option Z)
  : Z * Z :=
  let '(monthNum, yearNum) :=
    match month with
    | Some monthValue =>
        if monthValue <? 0 then
          let monthsToSubtract := Z.abs monthValue in
          let totalMonths := currentMonth - monthsToSubtract in
          if totalMonths <=? 0 then
            let yearsToSubtract := Js.ceil_div (Z.abs totalMonths) 12 in
            let monthNum := 12 + Z.rem totalMonths 12 in
            (if monthNum =? 0 then 12 else monthNum, currentYear - yearsToSubtract)
          else (totalMonths, currentYear)
        else (monthValue, default currentYear year)
    | None => (currentMonth, default currentYear year)
    end in
  match year with
  | Some yearValue =>
      if yearValue <? 0 then (monthNum, currentYear + yearValue)
      else (monthNum, yearValue)
  | None => (monthNum, yearNum)
  end.

(** [entry.totalScore || 0] *)
Definition orZero (x : Q) : Q := if Qeq_bool x 0 then 0%Q else x.

(** The row built for a member (and one of its references) from the entry
    found for it, if any. *)
Definition rankingRow (member : Member.t) (kpiref : string)
  (entry : option KpiEntry.t) : Ranking.t :=
  match entry with
  | Some entry =>
      let counted :=
        bool_decide (KpiEntry.status entry = initiated)
        || bool_decide (KpiEntry.status entry = generated) in
      Ranking.mk (Member.userId member) (Member.departmentSlug member)
        (Member.role member) 0
        (if counted then orZero (KpiEntry.totalScore entry) else 0%Q)
        counted (Some (KpiEntry._id entry)) (of_entry (KpiEntry.status entry))
        kpiref (KpiEntry.jurisdiction entry)
  | None =>
      Ranking.mk (Member.userId member) (Member.departmentSlug member)
        (Member.role member) 0 0%Q false None no_entry kpiref []
  end.

(** [entriesMap]: member id to (reference or undefined) to entry; a later
    entry replaces an earlier one under the same keys. *)
Definition buildEntriesMap (kpiEntries : list KpiEntry.t)
  : gmap string (gmap (option string) KpiEntry.t) :=
  foldl (λ entriesMap entry,
           let memberId := KpiEntry.createdFor entry in
           <[memberId := <[KpiEntry.kpirefs entry := entry]>
                           (default ∅ (entriesMap !! memberId))]> entriesMap)
        ∅ kpiEntries.

Definition buildRankings (filteredMembers : list Member.t)
  (kpiEntries : list KpiEntry.t) : list Ranking.t :=
  let entriesMap := buildEntriesMap kpiEntries in
  flat_map
    (λ member,
       let memberKpirefs := kpirefsOf member in
       let memberEntriesMap := default ∅ (entriesMap !! Member.userId member) in
       if (length memberKpirefs =? 0)%nat then
         let memberEntries :=
           List.filter (λ entry, String.eqb (KpiEntry.createdFor entry)
                                   (Member.userId member)) kpiEntries in
         [rankingRow member "no-kpiref" (head memberEntries)]
       else
         map (λ kpiref, rankingRow member kpiref (memberEntriesMap !! Some kpiref))
           memberKpirefs)
    filteredMembers.

Definition isGenerated (r : Ranking.t) : bool :=
  bool_decide (Ranking.status r = of_entry generated).

(** [statusPriority[status] || 0] *)
Definition statusPriority (s : RowStatus) : Z :=
  match s with
  | of_entry generated => 4
  | of_entry initiated => 3
  | of_entry created => 2
  | no_entry => 1
  end.

(** The comparator of the current-month sort: status priority first, then
    total score, both descending. *)
Definition byStatusThenScore (a b : Ranking.t) : Q :=
  let aPriority := statusPriority (Ranking.status a) in
  let bPriority := statusPriority (Ranking.status b) in
  if negb (aPriority =? bPriority) then inject_Z (bPriority - aPriority)
  else (Ranking.totalScore b - Ranking.totalScore a)%Q.

(** The [forEach] of the current-month branch, with its [rankingCounter]. *)
Fixpoint assignGenerated (rankingCounter : nat) (rankings : list Ranking.t)
  : list Ranking.t :=
  match rankings with
  | [] => []
  | ranking :: rest =>
      if isGenerated ranking
      then Ranking.setRanking rankingCounter ranking
             :: assignGenerated (S rankingCounter) rest
      else Ranking.setRanking 0 ranking :: assignGenerated rankingCounter rest
  end.

(** The rows are objects shared between [rankings] and [generatedRankings]:
    a row is identified by its position in [rankings], [generatedRankings]
    is a list of such positions, and writing [ranking] through one of them
    changes the row that [rankings] holds. *)
Definition scoreAt (rankings : list Ranking.t) (ref : nat) : Q :=
  from_option Ranking.totalScore 0%Q (rankings !! ref).

Definition generatedRefs (rankings : list Ranking.t) : list nat :=
  List.filter (λ ref, from_option isGenerated false (rankings !! ref))
    (seq 0 (length rankings)).

(** [generatedRankings.forEach((ranking, index) => ranking.ranking = index + 1)] *)
Fixpoint assignByIndex (index : nat) (refs : list nat) (rankings : list Ranking.t)
  : list Ranking.t :=
  match refs with
  | [] => rankings
  | ref :: rest =>
      assignByIndex (S index) rest
        (alter (Ranking.setRanking (index + 1)) ref rankings)
  end.

Definition rankRows (isCurrentMonth : bool) (rankings : list Ranking.t)
  : list Ranking.t :=
  if isCurrentMonth then
    assignGenerated 1 (Js.Array_sort byStatusThenScore rankings)
  else
    let generatedRankings :=
      Js.Array_sort (λ a b, scoreAt rankings b - scoreAt rankings a)%Q
        (generatedRefs rankings) in
    map (λ ranking, if isGenerated ranking then ranking
                    else Ranking.setRanking 0 ranking)
      (assignByIndex 0 generatedRankings rankings).

(** The mean computed before the summary is assembled (the [averageScore]
    constant of the function). *)
Definition meanScore (rankings : list Ranking.t) : Q :=
  let withEntries := List.filter Ranking.hasEntry rankings in
  if (0 <? length withEntries)%nat
  then (foldl (λ sum r, sum + Ranking.totalScore r) 0 withEntries
        / inject_Z (Z.of_nat (length withEntries)))%Q
  else 0%Q.

Definition summarize (rankings : list Ranking.t) : Statistics.t :=
  let totalRankings := length rankings in
  let rankingsWithEntries := length (List.filter Ranking.hasEntry rankings) in
  let rankingsWithoutEntries := (totalRankings - rankingsWithEntries)%nat in
  let averageScore := meanScore rankings in
  let highestScore :=
    match rankings with
    | r :: _ => Ranking.totalScore r
    | [] => 0%Q
    end in
  let lowestScore :=
    if (0 <? rankingsWithEntries)%nat
    then from_option (λ r, orZero (Ranking.totalScore r)) 0%Q
           (last (List.filter Ranking.hasEntry rankings))
    else 0%Q in
  Statistics.mk totalRankings rankingsWithEntries rankingsWithoutEntries
    (inject_Z (Js.Math_round (averageScore * 100)) / 100)%Q
    highestScore lowestScore
    (if (totalRankings =? 0)%nat then None
     else Some (Js.Math_round
                  (inject_Z (Z.of_nat rankingsWithEntries)
                   / inject_Z (Z.of_nat totalRankings) * 100)%Q)).

(** [kpiEntriesQuery]: the entries of the resolved period, of one template
    when a template id is given. *)
Definition kpiEntriesQuery (monthNum yearNum : Z) (templateId : option string)
  (e : KpiEntry.t) : bool :=
  (KpiEntry.month e =? monthNum)
  && (KpiEntry.year e =? yearNum)
  && match templateId with
     | Some t => if nonEmpty t then String.eqb (KpiEntry.kpiTemplateId e) t
                 else true
     | None => true
     end.

(** The statistics request. [page] and [limit] only feed the [pagination]
    block of the returned object (the rows are never cut into pages), and
    the second directory lookup only feeds [availableFilters]; neither is
    modelled, nor are the echoed filter names. *)
Definition getKpiEntriesStatisticsByDepartmentAndRoleWithMonthAndYear
  (now : Js.Date) (templateId department role : option string)
  (month year : option Z) : M StatisticsResult.t :=
  let currentMonth := Js.getMonth now + 1 in
  let currentYear := Js.getFullYear now in
  let '(monthNum, yearNum) := resolvePeriod currentMonth currentYear month year in
  members ← MemberService.getMembers department role 1 10000;
  let filteredMembers := filterExcludedMembers members in
  kpiEntries ← KpiEntryModel.find (kpiEntriesQuery monthNum yearNum templateId);
  if (length kpiEntries =? 0)%nat
  then throw (mkAPIError 404 "No KPI Entries Found")
  else
    let generatedEntries :=
      List.filter (λ entry, bool_decide (KpiEntry.status entry = generated))
        kpiEntries in
    if match month with Some monthValue => monthValue <? 0 | None => false end
       && (length generatedEntries =? 0)%nat
    then throw (mkAPIError 404 "No Generated Reports Found")
    else
      let isCurrentMonth := (monthNum =? currentMonth) && (yearNum =? currentYear) in
      let rankings := rankRows isCurrentMonth (buildRankings filteredMembers kpiEntries) in
      mret (StatisticsResult.mk rankings (summarize rankings) monthNum yearNum).

(** ** The listings of entries *)

(** The string a status is stored as. *)
Definition statusName (s : EntryStatus) : string :=
  match s with
  | created => "created"
  | initiated => "initiated"
  | generated => "generated"
  end.

(** [.sort({ createdAt: -1 })]: newest first. The engine leaves the order of
    documents of one creation time open; they are kept in store order here,
    and no statement depends on it. *)
Definition byNewestFirst (a b : KpiEntry.t) : Q :=
  if Js.Date_leb (KpiEntry.createdAt a) (KpiEntry.createdAt b)
  then if Js.Date_leb (KpiEntry.createdAt b) (KpiEntry.createdAt a) then 0%Q
       else 1%Q
  else (-1)%Q.

(** One condition of a query object, set only for a truthy argument: a
    non-empty string, a number other than 0. *)
Definition whenGiven {A} (truthy : A → bool) (argument : option A)
  (test : A → bool) : bool :=
  match argument with
  | Some a => if truthy a then test a else true
  | None => true
  end.

(** [getKpiEntriesByUser(userId, month, year, templateId, jurisdiction,
    status, page, limit)]. A condition on the array field [jurisdiction]
    holds when the array contains the value. *)
Definition getKpiEntriesByUser (userId : option string) (month year : option Z)
  (templateId jurisdiction status : option string) (page limit : positive)
  : M (Paginated.t KpiEntry.t) :=
  read (λ db,
    let filter (e : KpiEntry.t) :=
      whenGiven nonEmpty status (String.eqb (statusName (KpiEntry.status e)))
      && whenGiven nonEmpty userId (String.eqb (KpiEntry.createdFor e))
      && whenGiven nonEmpty jurisdiction
           (λ j, existsb (String.eqb j) (KpiEntry.jurisdiction e))
      && whenGiven (λ m, negb (m =? 0)) month (Z.eqb (KpiEntry.month e))
      && whenGiven (λ y, negb (y =? 0)) year (Z.eqb (KpiEntry.year e))
      && whenGiven nonEmpty templateId (String.eqb (KpiEntry.kpiTemplateId e)) in
    let matching := List.filter filter (tbl_kpi_entries db) in
    let entries := skipLimit page limit (Js.Array_sort byNewestFirst matching) in
    let total := length matching in
    Paginated.mk entries total page limit
      (Js.ceil_div (Z.of_nat total) (Z.pos limit))
      (Z.pos page <? Js.ceil_div (Z.of_nat total) (Z.pos limit))
      (1 <? Z.pos page)).

(** [getKpiEntries(filter, page, limit)]; the filter is the test it
    performs on a document. *)
Definition getKpiEntries (filter : KpiEntry.t → bool) (page limit : positive)
  : M (Paginated.t KpiEntry.t) :=
  read (λ db,
    let matching := List.filter filter (tbl_kpi_entries db) in
    let kpiEntries := skipLimit page limit matching in
    let total := length matching in
    Paginated.mk kpiEntries total page limit
      (Js.ceil_div (Z.of_nat total) (Z.pos limit))
      (Z.pos page <? Js.ceil_div (Z.of_nat total) (Z.pos limit))
      (1 <? Z.pos page)).

End KpiEntryService.

(** * The scheduled jobs ([configs/cron.ts]) *)

(** [try { await operation } catch (error) { logger.error(...) }]: whatever
    the operation throws is logged and dropped. *)
Definition attempt {A} (operation : M A) : M unit := λ db,
  match operation db with
  | (db', _) => (db', inr tt)
  end.

(** [for (const template of templates.docs) { try { ... } catch { ... } }] *)
Fixpoint forEachTemplate (body : KpiTemplate.t → M unit)
  (templates : list KpiTemplate.t) : M unit :=
  match templates with
  | [] => mret tt
  | template :: rest => _ ← body template; forEachTemplate body rest
  end.

(** The job of the 2nd of every month, 2:00: default entries of the current
    month for every template (the first 1000). The run is short against the
    calendar: [now] is the time of the whole run. A generation takes its
    default ['system'] for [generatedBy]. *)
Definition monthlyEntriesJob (now : Js.Date) : M unit :=
  attempt (
    let month := Js.getMonth now + 1 in
    let year := Js.getFullYear now in
    templates ← KpiTemplateService.getKpiTemplates 1 1000 None "" "";
    if (length (Paginated.docs templates) =? 0)%nat then mret tt
    else
      forEachTemplate
        (λ template,
           attempt (generateDefaultKpiEntries now (KpiTemplate._id template)
                      month year "system"))
        (Paginated.docs templates)).

(** The job of the 1st of every month, 1:00: final reports of the month
    before for every template (the first 1000). *)
Definition monthlyReportsJob (now : Js.Date) : M unit :=
  attempt (
    let month := Js.getMonth now in
    let year := Js.getFullYear now in
    let '(targetMonth, targetYear) :=
      if month =? 0 then (12, year - 1) else (month, year) in
    templates ← KpiTemplateService.getKpiTemplates 1 1000 None "" "";
    if (length (Paginated.docs templates) =? 0)%nat then mret tt
    else
      forEachTemplate
        (λ template,
           attempt (generateFinalReports (KpiTemplate._id template)
                      targetMonth targetYear "system"))
        (Paginated.docs templates)).

(** * Vocabulary of the statements *)

(** ** Sorting and scoring *)

(** [a] may stand before [b] in the result of [sort]: the comparator does
    not ask for them to be swapped. *)
Definition before {A} (compareFn : A → A → Q) (a b : A) : Prop :=
  (compareFn a b <= 0)%Q.

(** The numeric threshold a rule carries, if it carries one. *)
Definition threshold (rule : ScoringRule.t) : option Q :=
  match ScoringRule.value rule with
  | Some (RNumber t) => Some t
  | _ => None
  end.

(** Every value carried by a rule of the list is a number. *)
Definition numericThresholds (rules : list ScoringRule.t) : Prop :=
  ∀ rule s, In rule rules → ScoringRule.value rule ≠ Some (RString s).

Definition hasThreshold (t : Q) (rule : ScoringRule.t) : bool :=
  match threshold rule with
  | Some t' => Qeq_bool t' t
  | None => false
  end.

(** The rules of the worked example. *)
Definition rule90_75_50 : list ScoringRule.t :=
  [ ScoringRule.mk None None (Some (RNumber 90)) 10;
    ScoringRule.mk None None (Some (RNumber 75)) 7;
    ScoringRule.mk None None (Some (RNumber 50)) 4 ].

(** When a rule of the closing loop of [calculateScore] accepts a raw value:
    a rule with both bounds is a range rule and accepts a number within
    them; any other rule accepts a value strictly equal to its own. *)
Definition ruleMatches (value : Js.Value) (rule : ScoringRule.t) : bool :=
  match ScoringRule.min rule, ScoringRule.max rule with
  | Some lo, Some hi =>
      match value with
      | Js.VNumber v => Qle_bool lo v && Qle_bool v hi
      | _ => false
      end
  | _, _ =>
      match ScoringRule.value rule with
      | Some rv => strictEquals value rv
      | None => false
      end
  end.






(** A string-to-number conversion for the concrete runs: no rule there
    carries a string threshold, so any conversion gives the same result. *)
Definition noStringThreshold : string → option Q := λ _, None.

(** ** Entry lifecycle *)

(** The permission rule of the lifecycle manager, for an actor that has a
    member document: the actor belongs to the administrative department, or
    its role is the supervising-officer prefix followed by the role of the
    entry's subject member. *)
Definition supervises (db : Db) (actor : Member.t) (entry : KpiEntry.t) : Prop :=
  Member.departmentSlug actor = "collector-office"
  ∨ ∃ subject,
      List.find (λ m, String.eqb (Member.userId m) (KpiEntry.createdFor entry))
        (tbl_members db) = Some subject
      ∧ Member.role actor = String.append "nodalOfficer-" (Member.role subject).

(** The errors a submission can end in: entry not found, entry finalized,
    period expired, permission denied, template missing, and the three
    errors of the validation (required value missing, value of the wrong
    type, bypassed value without a score). *)
Definition validationErrors : list APIError :=
  [ mkAPIError 400 "Missing required values";
    mkAPIError 400 "Invalid value type";
    mkAPIError 400 "Missing score field" ].

Definition updateErrors : list APIError :=
  [ mkAPIError 404 "KPI Entry Not Found";
    mkAPIError 400 "Entry Already Generated";
    mkAPIError 400 "Update Period Expired";
    mkAPIError 403 "Permission Denied";
    mkAPIError 404 "KPI Template Not Found" ] ++ validationErrors.

(** The entry is in its own reporting period at [now]. *)
Definition inOwnPeriod (now : Js.Date) (entry : KpiEntry.t) : Prop :=
  Js.getMonth now + 1 = KpiEntry.month entry
  ∧ Js.getFullYear now = KpiEntry.year entry.

(** ** A small district, for the concrete runs *)

(** 2 November 2026, 10:00. *)
Definition nov2 : Js.Date := Js.mkDate 2026 10 2 36000000.

Definition collectionTemplate : KpiTemplate.t :=
  KpiTemplate.mk "66aa00000000000000000001" "revenue" "patwari"
    [ TemplateItem.mk "collection" 10 percentage false rule90_75_50 ].

(** A patwari with two halkas, one with none, their supervising officer and
    a member of the collector's office. *)
Definition patwariAB : Member.t :=
  Member.mk "650000000000000000000001" "revenue" "patwari"
    (Metadata.mk (Some ["A"; "B"]) (Some ["T"; "A"; "B"])).
Definition patwariNone : Member.t :=
  Member.mk "650000000000000000000002" "revenue" "patwari"
    (Metadata.mk (Some []) None).
Definition nodalOfficer : Member.t :=
  Member.mk "650000000000000000000003" "revenue" "nodalOfficer-patwari"
    (Metadata.mk (Some []) None).
Definition collector : Member.t :=
  Member.mk "650000000000000000000004" "collector-office" "collector-raipur"
    (Metadata.mk (Some []) None).

(** A signed-in user without a member document. *)
Definition outsiderId : string := "650000000000000000000009".

Definition entryOf (id : nat) (member : Member.t) (kpiref : option string)
  (status : EntryStatus) (totalScore : Q) (month year : Z) : KpiEntry.t :=
  KpiEntry.mk id "66aa00000000000000000001" [] totalScore status "system"
    (Member.userId member) (jurisdictionOf member) kpiref month year
    (Js.mkDate year (month - 1) 2 7200000).

Definition district (entries : list KpiEntry.t) : Db :=
  mkDb [collectionTemplate] [patwariAB; patwariNone; nodalOfficer; collector]
    entries [] 100.

Definition collection (v : Q) : ValueInput.t :=
  ValueInput.mk "collection" (Js.VNumber v) None None None.

(** ** Batch generation *)

(** The documents [getMembers] returns for a department and a role, read off
    the store (the call changes nothing). *)
Definition membersOf (db : Db) (department role : option string) : list Member.t :=
  match MemberService.getMembers department role 1 10000 db with
  | (_, inr docs) => docs
  | (_, inl _) => []
  end.

(** The members a generation for [template] provisions: those of its
    department and role (the page of at most 10000 documents that the
    service asks the directory for), without the excluded ones. *)
Definition eligibleMembers (db : Db) (template : KpiTemplate.t) : list Member.t :=
  filterExcludedMembers
    (membersOf db (Some (KpiTemplate.departmentSlug template))
       (Some (KpiTemplate.role template))).

(** The (member, reference) pairs one member fans out to: one pair without a
    reference when the member has none, otherwise one pair per reference. *)
Definition fanOut (member : Member.t) : list (string * option string) :=
  match kpirefsOf member with
  | [] => [(Member.userId member, None)]
  | refs => map (λ kpiref, (Member.userId member, Some kpiref)) refs
  end.

Definition tagOf (e : KpiEntry.t) : string * option string :=
  (KpiEntry.createdFor e, KpiEntry.kpirefs e).

(** [now] lies in the interval of creation times that the duplicate check of
    [generateDefaultKpiEntries] reads for the period: from local midnight
    opening the month to local midnight opening its last day. *)
Definition inCreationWindow (now : Js.Date) (month year : Z) : Prop :=
  Js.Date_leb (Js.firstOfMonth year (month - 1)) now = true
  ∧ Js.Date_leb now (Js.dayZeroOfMonth year month) = true.

(** A template of a department and role that has no member. *)
Definition sdmTemplate : KpiTemplate.t :=
  KpiTemplate.mk "66aa00000000000000000002" "revenue" "sdm"
    [ TemplateItem.mk "disposal" 10 percentage false rule90_75_50 ].

Definition districtWithSdmTemplate : Db :=
  mkDb [collectionTemplate; sdmTemplate]
    [patwariAB; patwariNone; nodalOfficer; collector] [] [] 100.

(** ** Statistics *)

(** The period a statistics request resolves to at [now], and the entries
    the request loads for it. *)
Definition resolvedPeriod (now : Js.Date) (month year : option Z) : Z * Z :=
  resolvePeriod (Js.getMonth now + 1) (Js.getFullYear now) month year.

Definition periodEntries (db : Db) (now : Js.Date) (templateId : option string)
  (month year : option Z) : list KpiEntry.t :=
  List.filter
    (kpiEntriesQuery (fst (resolvedPeriod now month year))
       (snd (resolvedPeriod now month year)) templateId)
    (tbl_kpi_entries db).

(** A period strictly earlier than the month of [now]. *)
Definition strictlyPast (now : Js.Date) (period : Z * Z) : Prop :=
  snd period < Js.getFullYear now
  ∨ (snd period = Js.getFullYear now ∧ fst period < Js.getMonth now + 1).

(** The rows the aggregator builds before it ranks them. *)
Definition unrankedRows (db : Db) (now : Js.Date) (templateId department role : option string)
  (month year : option Z) : list Ranking.t :=
  buildRankings (filterExcludedMembers (membersOf db department role))
    (periodEntries db now templateId month year).

(** The request is for the month of [now]. *)
Definition isCurrentPeriod (now : Js.Date) (period : Z * Z) : bool :=
  (fst period =? Js.getMonth now + 1) && (snd period =? Js.getFullYear now).

(** The order of the current-month listing: a higher status priority first,
    and within one priority the higher total score first. *)
Definition rankedAbove (a b : Ranking.t) : Prop :=
  statusPriority (Ranking.status b) < statusPriority (Ranking.status a)
  ∨ (statusPriority (Ranking.status a) = statusPriority (Ranking.status b)
     ∧ (Ranking.totalScore b <= Ranking.totalScore a)%Q).

(** The rows of a listing that are ranked: those with status [generated]. *)
Definition generatedRows (rows : list Ranking.t) : list Ranking.t :=
  List.filter isGenerated rows.

(** Two listings that differ at most in the ranks they carry. *)
Definition sameRowsUpToRank (rows rows' : list Ranking.t) : Prop :=
  map (Ranking.setRanking 0) rows = map (Ranking.setRanking 0) rows'.








(** ** Three months of the district *)


(** November 2026, in progress: two submissions received, one entry still
    untouched. *)
Definition novemberInProgress : Db :=
  district
    [ entryOf 1 patwariAB (Some "A") initiated 7 11 2026;
      entryOf 2 patwariAB (Some "B") created 0 11 2026;
      entryOf 3 patwariNone None initiated 4 11 2026 ].

(** October 2026, never finalized. *)
Definition octoberOpen : Db :=
  district [ entryOf 1 patwariAB (Some "A") initiated 7 10 2026 ].

(** ** Submissions and their validation *)

(** The permission stage of [updateKpiEntryValues] lets the actor through:
    an actor whose member document carries a role and a department
    supervises the entry (an actor without such a document is not checked). *)
Definition mayUpdate (db : Db) (updatedBy : string) (entry : KpiEntry.t) : Prop :=
  ∀ actor,
    List.find (λ m, String.eqb (Member.userId m) updatedBy) (tbl_members db)
    = Some actor →
    Member.role actor ≠ "" → Member.departmentSlug actor ≠ "" →
    supervises db actor entry.

(** The entry as an accepted submission leaves it. *)
Definition scoredEntry (entry : KpiEntry.t) (validatedValues : list ValueEntry.t)
  : KpiEntry.t :=
  KpiEntry.mk (KpiEntry._id entry) (KpiEntry.kpiTemplateId entry) validatedValues
    (sumScores validatedValues) initiated (KpiEntry.createdBy entry)
    (KpiEntry.createdFor entry) (KpiEntry.jurisdiction entry)
    (KpiEntry.kpirefs entry) (KpiEntry.month entry) (KpiEntry.year entry)
    (KpiEntry.createdAt entry).

(** A higher threshold never carries a lower score, and no score is
    negative. *)
Definition risingScores (rules : list ScoringRule.t) : Prop :=
  (∀ r1 r2 t1 t2,
     In r1 rules → In r2 rules →
     threshold r1 = Some t1 → threshold r2 = Some t2 →
     (t1 <= t2)%Q → (ScoringRule.score r1 <= ScoringRule.score r2)%Q)
  ∧ ∀ r, In r rules → (0 <= ScoringRule.score r)%Q.

(** The raw value has the type the kind of the item asks for. *)
Definition typeAccepted (kpiType : KpiType) (value : Js.Value) : Prop :=
  match kpiType with
  | quantitative | percentage | score => Js.typeof value = Js.TNumber
  | binary => Js.typeof value = Js.TBoolean
  | qualitative => True
  end.

(** The stored value [v] is the submitted value [input], scored against the
    template item [item]: the submitted score for a bypassed value, the
    computed one otherwise. *)
Definition scoredFrom (StringToNumber : string → option Q)
  (item : TemplateItem.t) (input : ValueInput.t) (v : ValueEntry.t) : Prop :=
  ValueEntry.name v = ValueInput.name input
  ∧ ValueEntry.value v = ValueInput.value input
  ∧ ValueEntry.comments v = ValueInput.comments input
  ∧ ValueEntry.isByPassed v = ValueInput.isByPassed input
  ∧ if bool_decide (ValueInput.isByPassed input = Some true)
    then ValueInput.score input = Some (ValueEntry.score v)
    else typeAccepted (TemplateItem.kpiType item) (ValueInput.value input)
         ∧ ValueEntry.score v
           = calculateScore StringToNumber (ValueInput.value input)
               (TemplateItem.scoringRules item) (TemplateItem.kpiType item).

(** The template item a submitted name refers to: the first of that name. *)
Definition itemNamed (templateItems : list TemplateItem.t) (name : string)
  : option TemplateItem.t :=
  List.find (λ item, String.eqb (TemplateItem.name item) name) templateItems.

(** ** The store and the life of an entry *)

(** No two stored entries share an [_id] (the store's primary key). *)
Definition uniqueIds (db : Db) : Prop :=
  List.NoDup (map KpiEntry._id (tbl_kpi_entries db)).

(** The entry belongs to the template and the reporting period. *)
Definition ofTemplateAndPeriod (templateId : string) (month year : Z)
  (e : KpiEntry.t) : bool :=
  String.eqb (KpiEntry.kpiTemplateId e) templateId
  && (KpiEntry.month e =? month) && (KpiEntry.year e =? year).

(** The entry is not finalized yet. *)
Definition isOpen (e : KpiEntry.t) : bool :=
  bool_decide (KpiEntry.status e = created)
  || bool_decide (KpiEntry.status e = initiated).

(** An entry after the finalization of a template and period: locked when it
    belongs to them, untouched otherwise. *)
Definition finalized (templateId : string) (month year : Z) (e : KpiEntry.t)
  : KpiEntry.t :=
  if ofTemplateAndPeriod templateId month year e then setStatus generated e else e.

(** The bounds the entry schema sets on the period. *)
Definition withinSchema (month year : Z) : Prop :=
  1 <= month <= 12 ∧ 2020 <= year.



(** The stages of an entry's life, in order. *)
Definition stage (s : EntryStatus) : nat :=
  match s with
  | created => 0
  | initiated => 1
  | generated => 2
  end.

(** [e'] is the entry [e] at the same or a later stage: the same document
    for the same member, reference, template and period. *)
Definition laterStageOf (e e' : KpiEntry.t) : Prop :=
  KpiEntry._id e' = KpiEntry._id e
  ∧ KpiEntry.kpiTemplateId e' = KpiEntry.kpiTemplateId e
  ∧ KpiEntry.createdFor e' = KpiEntry.createdFor e
  ∧ KpiEntry.kpirefs e' = KpiEntry.kpirefs e
  ∧ KpiEntry.month e' = KpiEntry.month e
  ∧ KpiEntry.year e' = KpiEntry.year e
  ∧ KpiEntry.createdAt e' = KpiEntry.createdAt e
  ∧ (stage (KpiEntry.status e) <= stage (KpiEntry.status e'))%nat.

(** From [db] to [db'] no entry is lost or moved back: every entry is still
    there, in place, at the same or a later stage, and what is new comes
    after, at the first stage. *)
Definition advances (db db' : Db) : Prop :=
  ∃ kept new,
    tbl_kpi_entries db' = kept ++ new
    ∧ Forall2 laterStageOf (tbl_kpi_entries db) kept
    ∧ ∀ e, In e new → KpiEntry.status e = created.

(** ** The rows of a listing *)

(** The entry a row shows for a member reference: the last loaded entry that
    carries the member and the reference. *)
Definition entryOfReference (kpiEntries : list KpiEntry.t) (member : Member.t)
  (kpiref : string) : option KpiEntry.t :=
  last (List.filter
          (λ e, String.eqb (KpiEntry.createdFor e) (Member.userId member)
                && bool_decide (KpiEntry.kpirefs e = Some kpiref))
          kpiEntries).

(** The entry the single row of a member without references shows: the
    first loaded entry of the member, whatever its reference. *)
Definition firstEntryOf (kpiEntries : list KpiEntry.t) (member : Member.t)
  : option KpiEntry.t :=
  head (List.filter
          (λ e, String.eqb (KpiEntry.createdFor e) (Member.userId member))
          kpiEntries).

(** The rows of one member. *)
Definition rowsOf (kpiEntries : list KpiEntry.t) (member : Member.t)
  : list Ranking.t :=
  match kpirefsOf member with
  | [] => [rankingRow member "no-kpiref" (firstEntryOf kpiEntries member)]
  | kpirefs =>
      map (λ kpiref,
             rankingRow member kpiref (entryOfReference kpiEntries member kpiref))
        kpirefs
  end.

(** The member is one the batch generator and the statistics leave out. *)
Definition excluded (role departmentSlug : string) : Prop :=
  Js.startsWith role "nodalOfficer-" = true ∨ departmentSlug = "collector-office".

(** The members a statistics request lists. *)
Definition listedMembers (db : Db) (department role : option string)
  : list Member.t :=
  filterExcludedMembers (membersOf db department role).

(** ** Pages *)

(** The documents a listing operation returns on a page. *)
Definition pageOf {A} (listing : positive → M (Paginated.t A)) (db : Db)
  (page : positive) : list A :=
  match listing page db with
  | (_, inr r) => Paginated.docs r
  | (_, inl _) => []
  end.

(** The pages 1, 2, ..., n. *)
Definition pagesUpTo (n : Z) : list positive :=
  map Pos.of_nat (seq 1 (Z.to_nat n)).

(** [a] was created no earlier than [b]. *)
Definition noOlderThan (a b : KpiEntry.t) : Prop :=
  Js.Date_leb (KpiEntry.createdAt b) (KpiEntry.createdAt a) = true.

(** ** The scheduled jobs *)

(** The templates a scheduled job works through: the first 1000 of the
    store. *)
Definition scheduledTemplates (db : Db) : list KpiTemplate.t :=
  take 1000 (tbl_kpi_templates db).

(** An entry after the finalization of a period for a list of templates. *)
Definition finalizedFor (templates : list KpiTemplate.t) (month year : Z)
  (e : KpiEntry.t) : KpiEntry.t :=
  if existsb (λ t, ofTemplateAndPeriod (KpiTemplate._id t) month year e) templates
  then setStatus generated e else e.

(** A generation for the template and period would store nothing: the
    template is missing, or the duplicate check finds an entry, or a document
    to create breaks the schema, or no member is eligible. *)
Definition settled (templateId : string) (month year : Z) (generatedBy : string)
  (db : Db) : Prop :=
  match List.find (λ t, String.eqb (KpiTemplate._id t) templateId)
          (tbl_kpi_templates db) with
  | None => True
  | Some template =>
      let members := eligibleMembers db template in
      List.filter (existingEntriesQuery templateId month year members)
        (tbl_kpi_entries db) ≠ []
      ∨ forallb KpiEntryModel.valid
          (flat_map (defaultEntriesFor templateId month year generatedBy) members)
        = false
      ∨ members = []
  end.

(** ** The metadata of a member *)

(** The roles whose case of [validateAndAdaptMetadata] sets the references
    itself. *)
Definition adaptedRole (role : string) : Prop :=
  role = "ri" ∨ role = "tehsildar" ∨ role = "patwari" ∨ role = "sdm"
  ∨ MemberService.isOfficerRole role = true.

(** A field of a stored metadata object ([undefined] when it is not
    there). *)
Definition fieldOf (metadata : Any.t) (key : string) : Any.t :=
  default Any.undefined (Any.get metadata key).

(** The field under which a role's metadata names its references. *)
Definition referenceKey (role : string) : option string :=
  if String.eqb role "ri" then Some "ri-circle"
  else if String.eqb role "tehsildar" then Some "courts"
  else if String.eqb role "patwari" then Some "halka"
  else None.

(** The metadata object the cases [ri], [tehsildar] and [patwari] of
    [validateAndAdaptMetadata] build: from the tehsil they copied (if any)
    and the array of references they found under [key] (if any). *)
Definition referencesObject (key : string) (tehsil : option Any.t)
  (refs : option (list Any.t)) : gmap string Any.t :=
  let base : gmap string Any.t :=
    <["isMultipleKPIRef" := Any.boolean false]> (<["kpirefs" := Any.array []]> ∅) in
  let withTehsil :=
    match tehsil with Some t => <["tehsil" := t]> base | None => base end in
  match refs with
  | None => withTehsil
  | Some items =>
      let withRefs :=
        <["isMultipleKPIRef" := Any.boolean (1 <? length items)%nat]>
          (<["kpirefs" := Any.array items]>
             (<[key := Any.array items]> withTehsil)) in
      match items with
      | [] => withRefs
      | _ :: _ =>
          <["jurisdiction" := Any.array (option_list tehsil ++ items)]> withRefs
      end
  end.

(** ** Further concrete data *)

(** The stored value of a collection of 80 percent. *)
Definition collection80 : ValueEntry.t :=
  ValueEntry.mk "collection" (Js.VNumber 80) 7 None None.

(** The metadata a patwari of tehsil T with the halkas A and B is updated
    with. *)
Definition patwariMetadata : Any.t :=
  Any.object (<["halka" := Any.array [Any.str "A"; Any.str "B"]]>
                (<["tehsil" := Any.str "T"]> ∅)).

(** * Properties *)

(** ** Facts about [sort], [find] and [filter] *)

Section SortFacts.

Context {A : Type} (compareFn : A → A → Q).

Local Abbreviation inOrder := (before compareFn).

Lemma sort_insert_Permutation x l : Js.sort_insert compareFn x l ≡ₚ x :: l.
Proof.
  induction l as [|y l IH]; simpl; [done|].
  destruct (Qle_bool (compareFn x y) 0); [done|].
  rewrite IH. apply perm_swap.
Qed.

Lemma Array_sort_Permutation l : Js.Array_sort compareFn l ≡ₚ l.
Proof.
  induction l as [|x l IH]; simpl; [done|].
  rewrite sort_insert_Permutation. by f_equiv.
Qed.

Lemma Array_sort_In x l : In x (Js.Array_sort compareFn l) ↔ In x l.
Proof.
  rewrite <- !list_elem_of_In. by rewrite Array_sort_Permutation.
Qed.

Lemma Array_sort_length l : length (Js.Array_sort compareFn l) = length l.
Proof. by rewrite Array_sort_Permutation. Qed.

(** On a domain where the comparator is total and transitive, insertion
    keeps a list sorted, so the result of [sort] is sorted. *)
Section Sorted.

Variable dom : A → Prop.
Hypothesis total : ∀ a b, dom a → dom b → ¬ inOrder a b → inOrder b a.
Hypothesis trans : ∀ a b c, dom a → dom b → dom c →
  inOrder a b → inOrder b c → inOrder a c.

Lemma sort_insert_StronglySorted x l :
  dom x → Forall dom l →
  StronglySorted inOrder l → StronglySorted inOrder (Js.sort_insert compareFn x l).
Proof using total trans.
  intros Hx Hl Hs. induction Hs as [|y l Hs IH Hy]; simpl.
  - repeat constructor.
  - apply Forall_cons in Hl as [Hdy Hl].
    destruct (Qle_bool (compareFn x y) 0) eqn:E.
    + apply Qle_bool_iff in E.
      constructor; [by constructor|].
      constructor; [done|].
      rewrite Forall_forall in Hy, Hl |- *. intros z Hz.
      apply (trans x y z); auto.
    + constructor; [auto|].
      assert (¬ inOrder x y) as Hn.
      { unfold before. rewrite <- Qle_bool_iff. by rewrite E. }
      rewrite Forall_forall in Hy |- *. intros z Hz.
      rewrite sort_insert_Permutation in Hz.
      apply elem_of_cons in Hz as [->|Hz]; [by apply total|].
      by apply Hy.
Qed.

Lemma Array_sort_StronglySorted l :
  Forall dom l → StronglySorted inOrder (Js.Array_sort compareFn l).
Proof using total trans.
  induction l as [|x l IH]; simpl; intros Hl; [constructor|].
  apply Forall_cons in Hl as [Hx Hl].
  apply sort_insert_StronglySorted; auto.
  by rewrite Array_sort_Permutation.
Qed.

End Sorted.

(** Stability, in the form used below: the elements of a class on which the
    comparator never asks for a swap keep their relative order. *)
Lemma filter_sort_insert (p : A → bool) x l :
  (∀ a b, p a = true → p b = true → inOrder a b) →
  List.filter p (Js.sort_insert compareFn x l) = List.filter p (x :: l).
Proof.
  intros Hp. induction l as [|y l IH]; [done|].
  cbn [Js.sort_insert].
  destruct (Qle_bool (compareFn x y) 0) eqn:E; [done|].
  cbn [List.filter] in *. rewrite IH.
  destruct (p x) eqn:Px, (p y) eqn:Py; try done.
  specialize (Hp x y Px Py). apply Qle_bool_iff in Hp. congruence.
Qed.

Lemma filter_Array_sort (p : A → bool) l :
  (∀ a b, p a = true → p b = true → inOrder a b) →
  List.filter p (Js.Array_sort compareFn l) = List.filter p l.
Proof.
  intros Hp. induction l as [|x l IH]; [done|].
  cbn [Js.Array_sort foldr]. rewrite filter_sort_insert by done.
  cbn [List.filter]. fold (Js.Array_sort compareFn l). by rewrite IH.
Qed.

End SortFacts.

Lemma find_head_filter {A} (p : A → bool) l :
  List.find p l = head (List.filter p l).
Proof.
  induction l as [|x l IH]; [done|]. simpl. by destruct (p x).
Qed.

(** In a sorted list, the first element that satisfies [p] comes before
    every other element that does. *)
Lemma find_StronglySorted {A} (R : A → A → Prop) (p : A → bool) l x :
  StronglySorted R l → List.find p l = Some x →
  p x = true ∧ In x l ∧ ∀ y, In y l → p y = true → y = x ∨ R x y.
Proof.
  induction 1 as [|z l Hs IH Hz]; simpl; [done|].
  destruct (p z) eqn:Pz.
  - intros [= ->]. repeat split; auto.
    intros y [->|Hy] _; [by left|right].
    rewrite List.Forall_forall in Hz. by apply Hz.
  - intros Hf. destruct (IH Hf) as (Px & Hin & Hall).
    repeat split; auto.
    intros y [->|Hy] Py; [congruence|]. by apply Hall.
Qed.

Lemma find_none_all {A} (p : A → bool) l :
  List.find p l = None → ∀ y, In y l → p y = false.
Proof. intros H y Hy. by apply (find_none p l H). Qed.

Lemma find_sub {A} (p q : A → bool) l x :
  (∀ y, p y = true → q y = true) →
  List.find q l = Some x → p x = true → List.find p l = Some x.
Proof.
  intros Hpq. induction l as [|z l IH]; simpl; [done|].
  destruct (q z) eqn:Qz.
  - intros [= ->] ->. done.
  - intros Hf Px. destruct (p z) eqn:Pz; [|by apply IH].
    apply Hpq in Pz. congruence.
Qed.

Lemma filter_filter_sub {A} (p q : A → bool) l :
  (∀ y, p y = true → q y = true) →
  List.filter p (List.filter q l) = List.filter p l.
Proof.
  intros Hpq. induction l as [|z l IH]; simpl; [done|].
  destruct (q z) eqn:Qz; simpl; rewrite IH; [done|].
  destruct (p z) eqn:Pz; [|done]. apply Hpq in Pz. congruence.
Qed.

(** ** The percentage branch of the Scoring Evaluator *)

Lemma threshold_hasValue rule t : threshold rule = Some t → hasValue rule = true.
Proof.
  unfold threshold, hasValue. by destruct (ScoringRule.value rule) as [[]|].
Qed.

Lemma numeric_threshold rules rule :
  numericThresholds rules → In rule rules → hasValue rule = true →
  ∃ t, threshold rule = Some t.
Proof.
  intros Hn Hin. unfold hasValue, threshold.
  destruct (ScoringRule.value rule) as [[t|s]|] eqn:E; [eauto| |done].
  by destruct (Hn rule s Hin).
Qed.

Section Percentage.

Variable StringToNumber : string → option Q.

Let cmp := byValueDescending StringToNumber.

Local Abbreviation inOrder := (before cmp).

Lemma threshold_valueAsNumber rule t :
  threshold rule = Some t → valueAsNumber StringToNumber rule = Some t.
Proof.
  unfold threshold, valueAsNumber.
  destruct (ScoringRule.value rule) as [[]|]; congruence.
Qed.

Lemma before_thresholds a b ta tb :
  threshold a = Some ta → threshold b = Some tb →
  inOrder a b ↔ (tb <= ta)%Q.
Proof.
  intros Ha Hb. unfold before, cmp, byValueDescending.
  rewrite (threshold_valueAsNumber _ _ Ha), (threshold_valueAsNumber _ _ Hb).
  split; intros; lra.
Qed.

Lemma reaches_threshold v rule t :
  threshold rule = Some t → reaches StringToNumber v rule = true ↔ (t <= v)%Q.
Proof.
  intros Ht. unfold reaches. rewrite (threshold_valueAsNumber _ _ Ht).
  apply Qle_bool_iff.
Qed.

Lemma sorted_thresholds rules :
  numericThresholds rules →
  StronglySorted inOrder (Js.Array_sort cmp (List.filter hasValue rules)).
Proof.
  intros Hn.
  apply (Array_sort_StronglySorted cmp (λ r, ∃ t, threshold r = Some t)).
  - intros a b [ta Ha] [tb Hb].
    rewrite (before_thresholds a b ta tb), (before_thresholds b a tb ta) by done.
    intros; lra.
  - intros a b c [ta Ha] [tb Hb] [tc Hc].
    rewrite (before_thresholds a b ta tb), (before_thresholds b c tb tc),
      (before_thresholds a c ta tc) by done.
    intros; lra.
  - apply List.Forall_forall. intros r Hr. apply filter_In in Hr as [Hin Hv].
    by apply (numeric_threshold rules).
Qed.

(** The rule the percentage branch selects, when some threshold is reached:
    its threshold is the greatest one reached, and among the rules with that
    threshold it is the first declared. *)
Lemma percentage_selects v rules best :
  numericThresholds rules →
  List.find (reaches StringToNumber v)
    (Js.Array_sort cmp (List.filter hasValue rules)) = Some best →
  ∃ tb, threshold best = Some tb ∧ (tb <= v)%Q
    ∧ List.find (hasThreshold tb) rules = Some best
    ∧ ∀ rule t, In rule rules → threshold rule = Some t → (t <= v)%Q → (t <= tb)%Q.
Proof.
  intros Hn Hfind.
  pose proof (sorted_thresholds rules Hn) as Hs.
  destruct (find_StronglySorted _ _ _ _ Hs Hfind) as (Hreach & Hin & Hfirst).
  apply Array_sort_In, filter_In in Hin as [Hin Hv].
  destruct (numeric_threshold rules best Hn Hin Hv) as [tb Hb].
  exists tb. split; [done|].
  assert (tb <= v)%Q as Hle by by apply (reaches_threshold v best tb).
  split; [done|]. split.
  - rewrite find_head_filter.
    rewrite <- (filter_filter_sub (hasThreshold tb) hasValue).
    2:{ intros y. unfold hasThreshold. destruct (threshold y) eqn:E; [|done].
        intros _. by apply (threshold_hasValue y q). }
    rewrite <- (filter_Array_sort cmp).
    2:{ intros a b. unfold hasThreshold.
        destruct (threshold a) as [ta|] eqn:Ea; [|done].
        destruct (threshold b) as [tb'|] eqn:Eb; [|done].
        intros Ha%Qeq_bool_iff Hb'%Qeq_bool_iff.
        apply (before_thresholds a b ta tb'); [done..|]. lra. }
    rewrite <- find_head_filter.
    apply (find_sub _ (reaches StringToNumber v)); [|done|].
    + intros y. unfold hasThreshold.
      destruct (threshold y) as [ty|] eqn:Ey; [|done].
      intros Hy%Qeq_bool_iff. apply (reaches_threshold v y ty); [done|]. lra.
    + unfold hasThreshold. rewrite Hb. apply Qeq_bool_iff. lra.
  - intros rule t Hr Ht Htv.
    assert (In rule (Js.Array_sort cmp (List.filter hasValue rules))) as Hr'.
    { apply Array_sort_In, filter_In. split; [done|]. by apply (threshold_hasValue rule t). }
    destruct (Hfirst rule Hr') as [->|Hbefore].
    + by apply (reaches_threshold v rule t).
    + assert (t = tb) as -> by congruence. lra.
    + by apply (before_thresholds best rule tb t).
Qed.

End Percentage.

(** C1. For a percentage item with numeric raw value [v] and rules whose
    values are numeric thresholds: when [v] is below every threshold the
    score is 0; when some threshold is at most [v], the score is that of the
    rule whose threshold is the greatest threshold at most [v] (the first
    declared rule carrying that threshold). With rules 90 -> 10, 75 -> 7,
    50 -> 4 the values 80, 95 and 40 score 7, 10 and 0. *)
Theorem percentage_greatest_threshold (StringToNumber : string → option Q) :
  (∀ (v : Q) (rules : list ScoringRule.t),
     numericThresholds rules →
     ((∀ rule t, In rule rules → threshold rule = Some t → (v < t)%Q) →
        calculateScore StringToNumber (Js.VNumber v) rules percentage = 0%Q)
     ∧ (∀ rule t, In rule rules → threshold rule = Some t → (t <= v)%Q →
        ∃ best tb,
          List.find (hasThreshold tb) rules = Some best
          ∧ threshold best = Some tb
          ∧ (tb <= v)%Q
          ∧ (∀ rule' t', In rule' rules → threshold rule' = Some t' →
               (t' <= v)%Q → (t' <= tb)%Q)
          ∧ calculateScore StringToNumber (Js.VNumber v) rules percentage
            = ScoringRule.score best))
  ∧ calculateScore StringToNumber (Js.VNumber 80) rule90_75_50 percentage = 7%Q
  ∧ calculateScore StringToNumber (Js.VNumber 95) rule90_75_50 percentage = 10%Q
  ∧ calculateScore StringToNumber (Js.VNumber 40) rule90_75_50 percentage = 0%Q.
Proof.
  split; [|by vm_compute].
  intros v rules Hn. cbn [calculateScore].
  destruct (List.find _ _) as [best|] eqn:Hfind.
  - destruct (percentage_selects StringToNumber v rules best Hn Hfind)
      as (tb & Hb & Hle & Hfirst & Hmax).
    split.
    + intros Hbelow. apply find_some in Hfind as [Hin _].
      apply Array_sort_In, filter_In in Hin as [Hin _].
      specialize (Hbelow best tb Hin Hb). lra.
    + intros _ _ _ _ _. by exists best, tb.
  - split; [done|].
    intros rule t Hin Ht Hle. exfalso.
    pose proof (find_none_all _ _ Hfind rule) as Hno.
    rewrite (proj2 (reaches_threshold StringToNumber v rule t Ht) Hle) in Hno.
    enough (true = false) by done. apply Hno.
    apply Array_sort_In, filter_In. split; [done|]. by apply (threshold_hasValue rule t).
Qed.

(** ** The closing loop of the Scoring Evaluator *)

Lemma matchRules_find value rules :
  matchRules value rules =
  match List.find (ruleMatches value) rules with
  | Some rule => ScoringRule.score rule
  | None => 0%Q
  end.
Proof.
  induction rules as [|rule rest IH]; [done|].
  cbn [matchRules List.find]. unfold ruleMatches at 1.
  destruct (ScoringRule.min rule) as [lo|], (ScoringRule.max rule) as [hi|];
    try (destruct (ScoringRule.value rule) as [rv|];
         [by destruct (strictEquals value rv)|done]).
  destruct value as [v| |]; [|done..].
  by destruct (Qle_bool lo v && Qle_bool v hi).
Qed.




(** ** The Entry Lifecycle Manager *)

Ltac run_update :=
  unfold updateKpiEntryValues, validateNodalOfficerPermission,
    KpiEntryModel.findById, MemberService.getMemberByUserId,
    KpiTemplateService.getKpiTemplate, KpiEntryModel.findByIdAndUpdate,
    liftE, throw, read, mbind, M_bind, mret, M_ret.

(** C2, as the code has it. Submitting values to an entry whose status is
    [generated] fails, whoever the actor is and whatever the values are, with
    the error 'Entry Already Generated', whose HTTP status is 400, and leaves
    the store as it was. *)
Theorem generated_entry_rejects_update (StringToNumber : string → option Q)
  (now : Js.Date) (db : Db) (entryId : nat) (entry : KpiEntry.t)
  (values : list ValueInput.t) (updatedBy : string) :
  KpiEntryModel.findById entryId db = (db, inr (Some entry)) →
  KpiEntry.status entry = generated →
  updateKpiEntryValues StringToNumber now entryId values updatedBy db
  = (db, inl (Api (mkAPIError 400 "Entry Already Generated"))).
Proof.
  run_update. intros [= ->] ->. done.
Qed.

(** C2, as stated, fails on the error kind: the rejection of a finalized
    entry carries the status 400, which is not Conflict (409); the service
    keeps 409 for a repeated generation. *)
Lemma generated_rejection_is_not_Conflict :
  let db := district [entryOf 1 patwariAB (Some "A") generated 7 11 2026] in
  ∃ e, updateKpiEntryValues noStringThreshold nov2 1 [collection 80]
         (Member.userId collector) db = (db, inl (Api e))
       ∧ ¬ Conflict e.
Proof. eexists. split; [by vm_compute|]. by vm_compute. Qed.

(** The errors of the validation of a submission. *)
Lemma scoreOne_error StringToNumber templateItems value e :
  scoreOne StringToNumber templateItems value = inl e → In e validationErrors.
Proof.
  unfold scoreOne, validationErrors. intros H.
  repeat (case_match; simplify_eq/=; try done); auto.
Qed.

Lemma scoreAll_error StringToNumber templateItems values e :
  scoreAll StringToNumber templateItems values = inl e → In e validationErrors.
Proof.
  induction values as [|value rest IH]; simpl; [done|].
  destruct (scoreOne _ _ _) as [e'|o] eqn:E1.
  - intros [= ->]. by eapply scoreOne_error.
  - destruct (scoreAll _ _ _) as [e'|vs]; [|done]. intros [= ->]. by apply IH.
Qed.

Lemma validateAndCalculateScores_error StringToNumber values templateItems e :
  validateAndCalculateScores StringToNumber values templateItems = inl e →
  In e validationErrors.
Proof.
  unfold validateAndCalculateScores, validateRequiredValues.
  case_match; simplify_eq/=.
  - case_match; simplify_eq/=. intros [= <-]. by left.
  - apply scoreAll_error.
Qed.

(** C10. A call of [updateKpiEntryValues] that throws leaves the store
    exactly as it found it, whichever of its errors it throws (entry not
    found, entry finalized, period expired, permission denied, template
    missing, required value missing, value of the wrong type, bypassed value
    without a score): the single write is the last step, after every check
    and the computation of the scores. *)
Theorem failed_update_changes_nothing (StringToNumber : string → option Q)
  (now : Js.Date) (db db' : Db) (entryId : nat)
  (values : list ValueInput.t) (updatedBy : string) (ex : Exception) :
  updateKpiEntryValues StringToNumber now entryId values updatedBy db
  = (db', inl ex) →
  db' = db ∧ ∃ e, ex = Api e ∧ In e updateErrors.
Proof.
  run_update. intros H.
  repeat (case_match; simplify_eq/=; try done);
    (split; [done|eexists; split; [done|]]);
    try (do 5 right; by eapply validateAndCalculateScores_error);
    cbn; auto 10.
Qed.

Lemma prefix_append p s :
  String.prefix p s = true → ∃ rest, s = String.append p rest.
Proof.
  revert s. induction p as [|c p IH]; intros s.
  - intros _. by exists s.
  - destruct s as [|c' s]; simpl; [done|].
    destruct (Ascii.ascii_dec c c') as [->|]; [|done].
    intros [rest ->]%IH. by exists rest.
Qed.

Lemma prefix_of_append p rest : String.prefix p (String.append p rest) = true.
Proof.
  induction p as [|c p IH]; simpl; [by destruct rest|].
  by destruct (Ascii.ascii_dec c c).
Qed.

Lemma index_of_prefix p s : String.prefix p s = true → String.index 0 p s = Some 0%nat.
Proof. destruct s, p; simpl; try done. by intros ->. Qed.

Lemma substring_all s : String.substring 0 (String.length s) s = s.
Proof. induction s as [|c s IH]; simpl; [done|]. by rewrite IH. Qed.

Lemma substring_after p m rest :
  String.substring (String.length p) m (String.append p rest)
  = String.substring 0 m rest.
Proof. induction p as [|c p IH]; simpl; [done|]. apply IH. Qed.

Lemma length_of_append p rest :
  String.length (String.append p rest) = (String.length p + String.length rest)%nat.
Proof. induction p as [|c p IH]; simpl; [done|]. by rewrite IH. Qed.

(** Replacing a pattern that the string starts with removes that prefix. *)
Lemma replace_prefix p rest rep :
  Js.replace (String.append p rest) p rep = String.append rep rest.
Proof.
  unfold Js.replace. rewrite (index_of_prefix _ _ (prefix_of_append p rest)).
  rewrite length_of_append. cbn [Nat.add].
  replace (String.length p + String.length rest - String.length p)%nat
    with (String.length rest) by lia.
  rewrite substring_after, substring_all.
  by destruct (String.append p rest).
Qed.

Lemma append_cancel p a b : String.append p a = String.append p b → a = b.
Proof. induction p as [|c p IH]; simpl; [done|]. intros [= H]. by apply IH. Qed.

Lemma replace_nodalOfficer rest :
  Js.replace (String.append "nodalOfficer-" rest) "nodalOfficer-" "" = rest.
Proof. apply (replace_prefix "nodalOfficer-" rest ""). Qed.

(** What the permission check answers for an actor with a member document. *)
Lemma validateNodalOfficerPermission_supervises (db : Db) (actor : Member.t)
  (entry : KpiEntry.t) :
  ∃ allowed,
    validateNodalOfficerPermission (Member.role actor)
      (Member.departmentSlug actor) entry db = (db, inr allowed)
    ∧ (allowed = true ↔ supervises db actor entry).
Proof.
  unfold validateNodalOfficerPermission, supervises,
    MemberService.getMemberByUserId, read, mbind, M_bind, mret, M_ret.
  destruct (String.eqb_spec (Member.departmentSlug actor) "collector-office")
    as [Hd|Hd].
  { exists true. split; [done|]. split; auto. }
  unfold Js.startsWith.
  destruct (String.prefix "nodalOfficer-" (Member.role actor)) eqn:Hp; cbn [negb].
  2:{ exists false. split; [done|]. split; [done|].
      intros [?|(subject & _ & Hr)]; [done|].
      by rewrite Hr, prefix_of_append in Hp. }
  destruct (prefix_append _ _ Hp) as [rest Hr]. rewrite Hr, replace_nodalOfficer.
  destruct (List.find _ (tbl_members db)) as [subject|] eqn:Hs.
  - exists (String.eqb (Member.role subject) rest). split; [done|].
    rewrite String.eqb_eq. split.
    + intros <-. right. by exists subject.
    + intros [?|(subject' & [= <-] & Hr')]; [done|].
      symmetry. by apply (append_cancel "nodalOfficer-").
  - exists false. split; [done|]. split; [done|].
    intros [?|(subject' & ? & _)]; done.
Qed.

(** An actor with a member document who does not supervise the entry is
    denied, and nothing is written. *)
Lemma unprivileged_member_is_denied (StringToNumber : string → option Q)
  (now : Js.Date) (db : Db) (entryId : nat) (entry : KpiEntry.t)
  (values : list ValueInput.t) (updatedBy : string) (actor : Member.t) :
  KpiEntryModel.findById entryId db = (db, inr (Some entry)) →
  KpiEntry.status entry ≠ generated →
  inOwnPeriod now entry →
  MemberService.getMemberByUserId updatedBy db = (db, inr (Some actor)) →
  Member.role actor ≠ "" → Member.departmentSlug actor ≠ "" →
  ¬ supervises db actor entry →
  updateKpiEntryValues StringToNumber now entryId values updatedBy db
  = (db, inl (Api (mkAPIError HttpErrorStatusCode.FORBIDDEN "Permission Denied"))).
Proof.
  intros Hfind Hst [Hm Hy] Hactor Hr Hd Hno.
  destruct (validateNodalOfficerPermission_supervises db actor entry)
    as (allowed & Hcheck & Hallowed).
  destruct allowed; [by destruct Hno; apply Hallowed|].
  unfold updateKpiEntryValues, mbind, M_bind.
  rewrite Hfind. rewrite bool_decide_eq_false_2 by done.
  rewrite Hm, Hy, !Z.eqb_refl. cbn [negb orb].
  rewrite Hactor. cbn [fmap option_fmap option_map].
  unfold nonEmpty.
  rewrite (proj2 (String.eqb_neq _ _) Hr), (proj2 (String.eqb_neq _ _) Hd).
  cbn [negb andb]. by rewrite Hcheck.
Qed.

(** C3 at the input on which the code departs from it. A signed-in user with
    no member document has neither department nor role, so the permission
    check is not run at all: the submission is accepted, scored and
    written. *)
Theorem actor_without_member_document_updates :
  let db := district [entryOf 1 patwariAB (Some "A") created 0 11 2026] in
  MemberService.getMemberByUserId outsiderId db = (db, inr None)
  ∧ ∃ db' updated,
      updateKpiEntryValues noStringThreshold nov2 1 [collection 80] outsiderId db
      = (db', inr (Some updated))
      ∧ tbl_kpi_entries db' = [updated]
      ∧ KpiEntry.status updated = initiated
      ∧ map ValueEntry.score (KpiEntry.values updated) = [7%Q]
      ∧ (KpiEntry.totalScore updated == 7)%Q.
Proof.
  split; [by vm_compute|].
  eexists _, _. split; [by vm_compute|]. by vm_compute.
Qed.

(** ** The Batch Generator *)

Lemma storeAll_length now id ds : length (KpiEntryModel.storeAll now id ds) = length ds.
Proof. revert id. induction ds as [|d ds IH]; intros id; simpl; [done|]. by rewrite IH. Qed.

Lemma storeAll_In now id ds e :
  In e (KpiEntryModel.storeAll now id ds) →
  ∃ id' d, In d ds ∧ e = KpiEntryModel.store now id' d.
Proof.
  revert id. induction ds as [|d ds IH]; intros id; simpl; [done|].
  intros [<-|H]; [by exists id, d; auto|].
  destruct (IH _ H) as (id' & d' & Hd & ->). exists id', d'. auto.
Qed.

Lemma storeAll_tags now id ds :
  map tagOf (KpiEntryModel.storeAll now id ds)
  = map (λ d, (NewKpiEntry.createdFor d, NewKpiEntry.kpirefs d)) ds.
Proof. revert id. induction ds as [|d ds IH]; intros id; simpl; [done|]. by rewrite IH. Qed.

Lemma defaultEntriesFor_tags templateId month year generatedBy member :
  map (λ d, (NewKpiEntry.createdFor d, NewKpiEntry.kpirefs d))
    (defaultEntriesFor templateId month year generatedBy member)
  = fanOut member.
Proof.
  unfold defaultEntriesFor, fanOut.
  destruct (kpirefsOf member) as [|k ks]; [done|].
  cbn [length Nat.eqb]. by rewrite map_map.
Qed.

Lemma defaultEntriesFor_In templateId month year generatedBy member d :
  In d (defaultEntriesFor templateId month year generatedBy member) →
  NewKpiEntry.kpiTemplateId d = templateId
  ∧ NewKpiEntry.month d = month ∧ NewKpiEntry.year d = year
  ∧ NewKpiEntry.createdFor d = Member.userId member
  ∧ NewKpiEntry.status d = created.
Proof.
  unfold defaultEntriesFor.
  destruct (length (kpirefsOf member) =? 0)%nat.
  - by intros [<-|[]].
  - intros (k & <- & _)%in_map_iff. done.
Qed.

(** What a successful generation has done. *)
Lemma generateDefaultKpiEntries_success now templateId month year generatedBy
  db db' r :
  generateDefaultKpiEntries now templateId month year generatedBy db = (db', inr r) →
  ∃ template,
    KpiTemplateService.getKpiTemplate templateId db = (db, inr (Some template))
    ∧ GenerateResult.entries r
      = KpiEntryModel.storeAll now (nextObjectId db)
          (flat_map (defaultEntriesFor templateId month year generatedBy)
             (eligibleMembers db template))
    ∧ GenerateResult.entriesCount r = length (GenerateResult.entries r)
    ∧ GenerateResult.membersCount r = length (eligibleMembers db template)
    ∧ tbl_kpi_templates db' = tbl_kpi_templates db
    ∧ tbl_members db' = tbl_members db
    ∧ tbl_kpi_entries db' = tbl_kpi_entries db ++ GenerateResult.entries r.
Proof.
  unfold generateDefaultKpiEntries, eligibleMembers, membersOf,
    KpiTemplateService.getKpiTemplate, MemberService.getMembers,
    KpiEntryModel.find, KpiEntryModel.insertMany, KpiAuditLogService.create,
    throw, read, mbind, M_bind, mret, M_ret.
  destruct (List.find _ (tbl_kpi_templates db)) as [template|]; [|done].
  destruct (0 <? _)%nat; [done|].
  destruct (forallb _ _); [|done].
  intros H. simplify_eq. exists template.
  cbn [GenerateResult.entries GenerateResult.entriesCount
       GenerateResult.membersCount tbl_kpi_templates tbl_members tbl_kpi_entries].
  by rewrite storeAll_length.
Qed.

(** C5. One generation creates, for the eligible members in order, exactly
    the entries of their fan-out: a member with no reference gets one entry
    without [kpirefs]; a member with N >= 1 references gets N entries, the
    i-th tagged with its i-th reference (so with pairwise different
    references when the member's references are). Two eligible members with
    references [A, B] and [] get exactly 3 entries. *)
Theorem generation_fans_out_by_reference :
  (∀ now templateId month year generatedBy db db' r,
     generateDefaultKpiEntries now templateId month year generatedBy db
     = (db', inr r) →
     ∃ template,
       KpiTemplateService.getKpiTemplate templateId db = (db, inr (Some template))
       ∧ map tagOf (GenerateResult.entries r)
         = flat_map fanOut (eligibleMembers db template)
       ∧ tbl_kpi_entries db' = tbl_kpi_entries db ++ GenerateResult.entries r
       ∧ GenerateResult.entriesCount r = length (GenerateResult.entries r))
  ∧ (∀ member,
       (kpirefsOf member = [] → fanOut member = [(Member.userId member, None)])
       ∧ (kpirefsOf member ≠ [] →
            length (fanOut member) = length (kpirefsOf member)
            ∧ map fst (fanOut member)
              = replicate (length (kpirefsOf member)) (Member.userId member)
            ∧ map snd (fanOut member) = map Some (kpirefsOf member)
            ∧ (NoDup (kpirefsOf member) → NoDup (map snd (fanOut member)))))
  ∧ (∃ db' r,
       generateDefaultKpiEntries nov2 "66aa00000000000000000001" 11 2026 "system"
         (district []) = (db', inr r)
       ∧ eligibleMembers (district []) collectionTemplate = [patwariAB; patwariNone]
       ∧ GenerateResult.entriesCount r = 3%nat
       ∧ map tagOf (tbl_kpi_entries db')
         = [ (Member.userId patwariAB, Some "A");
             (Member.userId patwariAB, Some "B");
             (Member.userId patwariNone, None) ]).
Proof.
  split; [|split].
  - intros now templateId month year generatedBy db db' r Hrun.
    destruct (generateDefaultKpiEntries_success _ _ _ _ _ _ _ _ Hrun)
      as (template & Ht & He & Hc & _ & _ & _ & Hdb).
    exists template. repeat split; try done.
    rewrite He, storeAll_tags. clear.
    induction (eligibleMembers db template) as [|member ms IH]; [done|].
    simpl. rewrite List.map_app, defaultEntriesFor_tags. by f_equal.
  - intros member. unfold fanOut. split; [by intros ->|].
    destruct (kpirefsOf member) as [|k ks]; [intros H; by destruct H|]. intros _.
    rewrite length_map, !map_map. cbn [fst snd].
    repeat split.
    + generalize (k :: ks). intros l. induction l as [|x l IH]; [done|].
      cbn. by rewrite IH.
    + intros Hnd. apply NoDup_fmap_2; [|done]. by intros ?? [=].
  - eexists _, _. by vm_compute.
Qed.

Lemma filter_nonempty {A} (p : A → bool) l x :
  In x l → p x = true → (0 <? length (List.filter p l))%nat = true.
Proof.
  intros Hin Hp. apply Nat.ltb_lt.
  assert (In x (List.filter p l)) as H by by apply filter_In.
  destruct (List.filter p l); [done|]. simpl. lia.
Qed.

(** A generation that finds an entry matching its duplicate check throws
    409 and writes nothing. *)
Lemma generateDefaultKpiEntries_conflict now templateId month year generatedBy
  db template e :
  KpiTemplateService.getKpiTemplate templateId db = (db, inr (Some template)) →
  In e (tbl_kpi_entries db) →
  existingEntriesQuery templateId month year (eligibleMembers db template) e = true →
  generateDefaultKpiEntries now templateId month year generatedBy db
  = (db, inl (Api (mkAPIError 409 "Entries Already Exist"))).
Proof.
  unfold generateDefaultKpiEntries, eligibleMembers, membersOf,
    KpiTemplateService.getKpiTemplate, MemberService.getMembers,
    KpiEntryModel.find, throw, read, mbind, M_bind.
  intros [= ->] Hin Hq. by rewrite (filter_nonempty _ _ e Hin Hq).
Qed.

(** An entry written by a generation inside the creation window of its period
    is one the duplicate check of the same template and period finds. *)
Lemma stored_default_entry_matches now templateId month year generatedBy
  members id member d :
  inCreationWindow now month year →
  In member members →
  In d (defaultEntriesFor templateId month year generatedBy member) →
  existingEntriesQuery templateId month year members
    (KpiEntryModel.store now id d) = true.
Proof.
  intros [Hs He] Hm Hd.
  destruct (defaultEntriesFor_In _ _ _ _ _ _ Hd) as (Ht & Hmo & Hy & Hf & _).
  unfold existingEntriesQuery, KpiEntryModel.store.
  cbn [KpiEntry.kpiTemplateId KpiEntry.month KpiEntry.year KpiEntry.createdFor
       KpiEntry.createdAt].
  rewrite Ht, Hmo, Hy, Hf, String.eqb_refl, !Z.eqb_refl, Hs, He.
  cbn [andb]. rewrite !andb_true_r.
  apply existsb_exists. exists (Member.userId member).
  split; [by apply in_map|apply String.eqb_refl].
Qed.

(** C4, as the code has it. After a successful generation that stored at
    least one entry and ran inside the creation window of its period, a
    second generation for the same template, month and year fails with
    Conflict (409, 'Entries Already Exist') and leaves the store, and so the
    stored entries and their number, unchanged. *)
Theorem regeneration_conflicts (now1 now2 : Js.Date) (templateId : string)
  (month year : Z) (generatedBy1 generatedBy2 : string) (db db1 : Db)
  (r1 : GenerateResult.t) :
  generateDefaultKpiEntries now1 templateId month year generatedBy1 db
  = (db1, inr r1) →
  (0 < GenerateResult.entriesCount r1)%nat →
  inCreationWindow now1 month year →
  ∃ e, generateDefaultKpiEntries now2 templateId month year generatedBy2 db1
       = (db1, inl (Api e))
       ∧ Conflict e ∧ TITLE e = "Entries Already Exist".
Proof.
  intros Hrun Hpos Hwin.
  destruct (generateDefaultKpiEntries_success _ _ _ _ _ _ _ _ Hrun)
    as (template & Ht & He & Hc & _ & Htpl & Hmem & Hdb).
  destruct (GenerateResult.entries r1) as [|e0 rest] eqn:Hent;
    [rewrite Hc in Hpos; simpl in Hpos; lia|].
  assert (In e0 (e0 :: rest)) as Hin0 by by left.
  rewrite He in Hin0.
  apply storeAll_In in Hin0 as (id & d & Hd & ->).
  apply in_flat_map in Hd as (member & Hmember & Hd).
  assert (eligibleMembers db1 template = eligibleMembers db template) as Hel.
  { unfold eligibleMembers, membersOf, MemberService.getMembers, read.
    by rewrite Hmem. }
  exists (mkAPIError 409 "Entries Already Exist"). split; [|done].
  apply generateDefaultKpiEntries_conflict
    with (template := template) (e := KpiEntryModel.store now1 id d).
  - unfold KpiTemplateService.getKpiTemplate, read in *. rewrite Htpl. congruence.
  - rewrite Hdb. apply in_or_app. right. by left.
  - rewrite Hel. by eapply stored_default_entry_matches.
Qed.

(** C4, as stated, fails in two ways. For a template whose department and
    role have no eligible member the first generation succeeds with nothing
    to store, and so does the second. And a generation run outside the
    creation window of its period (here on 2 November for December) is not
    seen by the duplicate check: the second run succeeds and stores every
    entry a second time. *)
Lemma regeneration_without_conflict :
  (∃ db1 r1 db2 r2,
     generateDefaultKpiEntries nov2 "66aa00000000000000000002" 11 2026 "system"
       districtWithSdmTemplate = (db1, inr r1)
     ∧ generateDefaultKpiEntries nov2 "66aa00000000000000000002" 11 2026 "system"
         db1 = (db2, inr r2)
     ∧ GenerateResult.entriesCount r1 = 0%nat
     ∧ tbl_kpi_entries db2 = tbl_kpi_entries db1)
  ∧ (∃ db1 r1 db2 r2,
       generateDefaultKpiEntries nov2 "66aa00000000000000000001" 12 2026 "system"
         (district []) = (db1, inr r1)
       ∧ generateDefaultKpiEntries nov2 "66aa00000000000000000001" 12 2026 "system"
           db1 = (db2, inr r2)
       ∧ ¬ inCreationWindow nov2 12 2026
       ∧ length (tbl_kpi_entries db1) = 3%nat
       ∧ length (tbl_kpi_entries db2) = 6%nat
       ∧ map tagOf (tbl_kpi_entries db2)
         = map tagOf (tbl_kpi_entries db1) ++ map tagOf (tbl_kpi_entries db1)).
Proof.
  split.
  - eexists _, _, _, _.
    split; [by vm_compute|]. split; [by vm_compute|]. by vm_compute.
  - eexists _, _, _, _.
    split; [by vm_compute|]. split; [by vm_compute|].
    split; [|by vm_compute].
    unfold inCreationWindow. vm_compute. by intros [H _].
Qed.

(** ** The Statistics Aggregator *)

Ltac run_statistics :=
  unfold getKpiEntriesStatisticsByDepartmentAndRoleWithMonthAndYear,
    unrankedRows, periodEntries, resolvedPeriod, isCurrentPeriod, membersOf,
    MemberService.getMembers, KpiEntryModel.find, throw, read,
    mbind, M_bind, mret, M_ret.

(** What a successful statistics request returns. *)
Lemma statistics_success now templateId department role month year db db' res :
  getKpiEntriesStatisticsByDepartmentAndRoleWithMonthAndYear now templateId
    department role month year db = (db', inr res) →
  db' = db
  ∧ (StatisticsResult.monthNum res, StatisticsResult.yearNum res)
    = resolvedPeriod now month year
  ∧ StatisticsResult.rankings res
    = rankRows (isCurrentPeriod now (resolvedPeriod now month year))
        (unrankedRows db now templateId department role month year)
  ∧ StatisticsResult.statistics res = summarize (StatisticsResult.rankings res).
Proof.
  run_statistics.
  destruct (resolvePeriod _ _ month year) as [monthNum yearNum].
  cbn [fst snd].
  destruct (length _ =? 0)%nat; [done|].
  destruct (_ && _); [done|].
  intros H. by simplify_eq.
Qed.

Lemma length_eqb_0 {A} (l : list A) : (length l =? 0)%nat = true ↔ l = [].
Proof. destruct l; simpl; split; done. Qed.

(** C7, as the code has it. The check for finalized entries is tied to the
    way the period is asked for: a request whose month is a negative offset
    fails with NotFound ('No Generated Reports Found') when the resolved
    period has entries but none with status [generated]; a request that names
    its period in any other way succeeds as soon as the period has entries,
    whatever their status and however far back the period lies. *)
Theorem generated_required_for_relative_month (now : Js.Date)
  (templateId department role : option string) (year : option Z) (db : Db) :
  (∀ monthValue,
     monthValue < 0 →
     periodEntries db now templateId (Some monthValue) year ≠ [] →
     (∀ e, In e (periodEntries db now templateId (Some monthValue) year) →
           KpiEntry.status e ≠ generated) →
     ∃ e, getKpiEntriesStatisticsByDepartmentAndRoleWithMonthAndYear now
            templateId department role (Some monthValue) year db
          = (db, inl (Api e))
          ∧ NotFound e ∧ TITLE e = "No Generated Reports Found")
  ∧ (∀ month,
       (month = None ∨ ∃ monthValue, month = Some monthValue ∧ 0 <= monthValue) →
       periodEntries db now templateId month year ≠ [] →
       ∃ res, getKpiEntriesStatisticsByDepartmentAndRoleWithMonthAndYear now
                templateId department role month year db
              = (db, inr res)).
Proof.
  split.
  - intros monthValue Hneg Hsome Hnone.
    exists (mkAPIError 404 "No Generated Reports Found"). split; [|done].
    revert Hsome Hnone. run_statistics. cbn [resolvePeriod].
    destruct (resolvePeriod _ _ _ year) as [monthNum yearNum]. cbn [fst snd].
    intros Hsome Hnone.
    destruct (length _ =? 0)%nat eqn:E; [by apply length_eqb_0 in E|].
    rewrite (proj2 (Z.ltb_lt _ _) Hneg). cbn [andb].
    replace (List.filter _ (List.filter _ _)) with (@nil KpiEntry.t); [done|].
    symmetry. apply length_eqb_0. clear E Hsome.
    induction (List.filter _ (tbl_kpi_entries db)) as [|e es IH]; [done|].
    cbn [List.filter]. rewrite bool_decide_eq_false_2 by (apply Hnone; by left).
    apply IH. intros e' He'. apply Hnone. by right.
  - intros month Hmonth Hsome. revert Hsome. run_statistics.
    destruct (resolvePeriod _ _ month year) as [monthNum yearNum]. cbn [fst snd].
    intros Hsome.
    destruct (length _ =? 0)%nat eqn:E; [by apply length_eqb_0 in E|].
    assert (match month with
            | Some monthValue => monthValue <? 0
            | None => false
            end = false) as ->.
    { destruct Hmonth as [->|(mv & -> & Hmv)]; [done|]. by apply Z.ltb_ge. }
    cbn [andb]. by eexists.
Qed.

(** C7, as stated, fails: on 2 November 2026 the request for month 10 of
    2026 resolves to October 2026, a past period; that period has one entry,
    still [created]; the request succeeds. *)
Lemma absolute_past_period_not_checked :
  let db := district [entryOf 1 patwariAB (Some "A") created 0 10 2026] in
  resolvedPeriod nov2 (Some 10) (Some 2026) = (10, 2026)
  ∧ strictlyPast nov2 (resolvedPeriod nov2 (Some 10) (Some 2026))
  ∧ periodEntries db nov2 None (Some 10) (Some 2026) ≠ []
  ∧ (∀ e, In e (periodEntries db nov2 None (Some 10) (Some 2026)) →
          KpiEntry.status e ≠ generated)
  ∧ ∃ res, getKpiEntriesStatisticsByDepartmentAndRoleWithMonthAndYear nov2
             None None None (Some 10) (Some 2026) db = (db, inr res).
Proof.
  cbv zeta. split; [by vm_compute|]. split; [right; by vm_compute|].
  split; [by vm_compute|]. split.
  - intros e [<-|[]]. done.
  - eexists. by vm_compute.
Qed.

(** ** Ranking *)


Lemma isGenerated_false r : isGenerated r = false ↔ Ranking.status r ≠ of_entry generated.
Proof. unfold isGenerated. by rewrite bool_decide_eq_false. Qed.

Lemma isGenerated_setRanking n r : isGenerated (Ranking.setRanking n r) = isGenerated r.
Proof. done. Qed.

Lemma before_rankedAbove a b : before byStatusThenScore a b ↔ rankedAbove a b.
Proof.
  unfold before, byStatusThenScore, rankedAbove.
  destruct (Z.eqb_spec (statusPriority (Ranking.status a))
              (statusPriority (Ranking.status b))) as [E|E]; cbn [negb].
  - split; [intros; right; split; [done|lra]|].
    intros [?|[_ ?]]; [lia|lra].
  - change 0%Q with (inject_Z 0). rewrite <- Zle_Qle.
    split; [intros; left; lia|]. intros [?|[? _]]; [lia|done].
Qed.

Lemma StronglySorted_mono {A} (R R' : relation A) l :
  (∀ a b, R a b → R' a b) → StronglySorted R l → StronglySorted R' l.
Proof.
  intros HR. induction 1 as [|a l Hs IH Ha]; constructor; [done|].
  apply List.Forall_forall. intros b Hb. apply HR.
  rewrite List.Forall_forall in Ha. by apply Ha.
Qed.

Lemma sorted_rankedAbove rows :
  StronglySorted rankedAbove (Js.Array_sort byStatusThenScore rows).
Proof.
  apply (StronglySorted_mono (before byStatusThenScore));
    [intros a b; apply before_rankedAbove|].
  apply (Array_sort_StronglySorted byStatusThenScore (λ _, True)).
  - intros a b _ _. rewrite !before_rankedAbove. unfold rankedAbove.
    intros H. destruct (Z.lt_trichotomy (statusPriority (Ranking.status a))
                          (statusPriority (Ranking.status b))) as [?|[?|?]].
    + by left.
    + right. split; [done|].
      destruct (Qlt_le_dec (Ranking.totalScore a) (Ranking.totalScore b));
        [lra|].
      destruct H. by right.
    + destruct H. by left.
  - intros a b c _ _ _. rewrite !before_rankedAbove. unfold rankedAbove.
    intros [?|[? ?]] [?|[? ?]]; [left; lia..|]. right. split; [lia|lra].
  - by apply List.Forall_forall.
Qed.

(** The current-month pass over the sorted rows. *)
Lemma assignGenerated_spec counter rows :
  sameRowsUpToRank (assignGenerated counter rows) rows
  ∧ (∀ r, In r (assignGenerated counter rows) →
          isGenerated r = false → Ranking.ranking r = 0%nat)
  ∧ map Ranking.ranking (generatedRows (assignGenerated counter rows))
    = seq counter (length (generatedRows rows)).
Proof.
  unfold sameRowsUpToRank, generatedRows.
  revert counter. induction rows as [|row rows IH]; intros counter; [done|].
  cbn [assignGenerated].
  destruct (isGenerated row) eqn:E.
  - destruct (IH (S counter)) as (Hsame & Hzero & Hseq).
    cbn [map List.filter]. rewrite isGenerated_setRanking, E.
    cbn [map length seq Ranking.ranking Ranking.setRanking].
    split; [by rewrite Hsame|]. split; [|by rewrite Hseq].
    intros r [<-|Hr]; [|by apply Hzero].
    rewrite isGenerated_setRanking. congruence.
  - destruct (IH counter) as (Hsame & Hzero & Hseq).
    cbn [map List.filter]. rewrite isGenerated_setRanking, E.
    split; [by rewrite Hsame|]. split; [|done].
    intros r [<-|Hr]; [done|by apply Hzero].
Qed.

Lemma StronglySorted_sameRows (R : relation Ranking.t) rows rows' :
  (∀ a b n m, R a b → R (Ranking.setRanking n a) (Ranking.setRanking m b)) →
  (∀ a b, R (Ranking.setRanking 0 a) (Ranking.setRanking 0 b) → R a b) →
  sameRowsUpToRank rows' rows →
  StronglySorted R rows → StronglySorted R rows'.
Proof.
  intros Hset Hunset Hsame Hs.
  assert (StronglySorted R (map (Ranking.setRanking 0) rows')) as Hs'.
  { rewrite Hsame. clear Hsame. induction Hs as [|a l Hs IH Ha]; [constructor|].
    cbn. constructor; [done|]. apply List.Forall_forall.
    intros b (b' & <- & Hb')%in_map_iff. apply Hset.
    rewrite List.Forall_forall in Ha. by apply Ha. }
  clear Hsame Hs. induction rows' as [|a l IH]; [constructor|].
  cbn in Hs'. apply StronglySorted_inv in Hs' as [Hl Ha].
  constructor; [by apply IH|]. apply List.Forall_forall. intros b Hb.
  apply Hunset. rewrite List.Forall_forall in Ha. apply Ha. by apply in_map.
Qed.

(** The listing of the current month. *)
Lemma rankRows_current rows :
  StronglySorted rankedAbove (rankRows true rows)
  ∧ (∀ r, In r (rankRows true rows) →
          isGenerated r = false → Ranking.ranking r = 0%nat)
  ∧ map Ranking.ranking (generatedRows (rankRows true rows))
    = seq 1 (length (generatedRows (rankRows true rows)))
  ∧ map (Ranking.setRanking 0) (rankRows true rows) ≡ₚ map (Ranking.setRanking 0) rows.
Proof.
  cbn [rankRows].
  destruct (assignGenerated_spec 1 (Js.Array_sort byStatusThenScore rows))
    as (Hsame & Hzero & Hseq).
  split; [|split; [done|split]].
  - apply (StronglySorted_sameRows rankedAbove
             (Js.Array_sort byStatusThenScore rows));
      [by intros a b n m H|by intros a b H|done|apply sorted_rankedAbove].
  - rewrite Hseq. f_equal. unfold generatedRows.
    rewrite <- (length_map (Ranking.setRanking 0)) at 1.
    rewrite <- (length_map (Ranking.setRanking 0)
                  (List.filter isGenerated (assignGenerated _ _))).
    assert (∀ l, map (Ranking.setRanking 0) (List.filter isGenerated l)
                 = List.filter isGenerated (map (Ranking.setRanking 0) l)) as Hc.
    { induction l as [|x l IH]; [done|]. cbn.
      rewrite isGenerated_setRanking. destruct (isGenerated x); cbn; by rewrite IH. }
    by rewrite !Hc, Hsame.
  - rewrite Hsame. by rewrite Array_sort_Permutation.
Qed.

Lemma generatedRefs_In rows i :
  In i (generatedRefs rows) ↔ ∃ r, rows !! i = Some r ∧ isGenerated r = true.
Proof.
  unfold generatedRefs. rewrite filter_In, in_seq. split.
  - intros [_ H]. destruct (rows !! i) as [r|]; [|done]. by exists r.
  - intros (r & Hr & Hg). rewrite Hr. split; [|done].
    apply lookup_lt_Some in Hr. lia.
Qed.

Lemma generatedRefs_NoDup rows : NoDup (generatedRefs rows).
Proof. apply NoDup_ListNoDup, List.NoDup_filter, NoDup_ListNoDup, NoDup_seq. Qed.

Lemma generatedRefs_length rows :
  length (generatedRefs rows) = length (generatedRows rows).
Proof.
  unfold generatedRefs, generatedRows.
  induction rows as [|x rows IH] using rev_ind; [done|].
  rewrite length_app, Nat.add_comm. cbn [length Nat.add].
  rewrite seq_S, !List.filter_app, !length_app. cbn [Nat.add List.filter].
  rewrite list_lookup_middle by done. cbn [from_option].
  rewrite <- IH. f_equal; [f_equal|by destruct (isGenerated x)].
  apply filter_ext_in. intros i Hi%in_seq.
  by rewrite lookup_app_l by lia.
Qed.

(** Writing the ranks through the references of [generatedRankings]. *)
Lemma assignByIndex_spec index refs rows :
  NoDup refs →
  length (assignByIndex index refs rows) = length rows
  ∧ (∀ j ref, refs !! j = Some ref →
       assignByIndex index refs rows !! ref
       = Ranking.setRanking (index + j + 1) <$> rows !! ref)
  ∧ (∀ i, ¬ In i refs → assignByIndex index refs rows !! i = rows !! i).
Proof.
  revert index rows. induction refs as [|ref rest IH]; intros index rows Hnd.
  { split; [done|]. split; [by intros j ref|done]. }
  apply NoDup_cons in Hnd as [Hfresh Hnd].
  rewrite list_elem_of_In in Hfresh.
  destruct (IH (S index) (alter (Ranking.setRanking (index + 1)) ref rows) Hnd)
    as (Hlen & Hin & Hout).
  cbn [assignByIndex]. split; [by rewrite Hlen, length_alter|]. split.
  - intros [|j] ref' Hj; simplify_eq/=.
    + rewrite Hout by done. rewrite list_lookup_alter_eq.
      by rewrite Nat.add_0_r.
    + rewrite (Hin j ref' Hj).
      rewrite list_lookup_alter_ne.
      2:{ intros ->. apply Hfresh, list_elem_of_In.
          by eapply list_elem_of_lookup_2. }
      by replace (S (index + j + 1)) with (index + S j + 1)%nat by lia.
  - intros i Hi. rewrite Hout by (intros ?; apply Hi; by right).
    apply list_lookup_alter_ne. intros ->. apply Hi. by left.
Qed.

Lemma StronglySorted_lookup {A} (R : relation A) l i j x y :
  StronglySorted R l → l !! i = Some x → l !! j = Some y → (i < j)%nat → R x y.
Proof.
  intros Hs. revert i j. induction Hs as [|a l Hs IH Ha]; intros i j; [done|].
  destruct i as [|i], j as [|j]; simpl; try lia.
  - intros [= <-] Hy _. rewrite List.Forall_forall in Ha. apply Ha.
    apply list_elem_of_In. by eapply list_elem_of_lookup_2.
  - intros Hx Hy Hlt. apply (IH i j); [done..|lia].
Qed.

(** The listing of any other period: the rows stay where they are; a row
    that is not [generated] gets rank 0; the [generated] rows, taken by
    descending total score, get the ranks 1, 2, ... *)
Lemma rankRows_other rows :
  ∃ order : list nat,
    order ≡ₚ generatedRefs rows
    ∧ StronglySorted (λ a b, (scoreAt rows b <= scoreAt rows a)%Q) order
    ∧ length (rankRows false rows) = length rows
    ∧ (∀ j ref, order !! j = Some ref →
         ∃ r, rows !! ref = Some r ∧ isGenerated r = true
              ∧ rankRows false rows !! ref = Some (Ranking.setRanking (S j) r))
    ∧ (∀ i r, rows !! i = Some r → isGenerated r = false →
         rankRows false rows !! i = Some (Ranking.setRanking 0 r)).
Proof.
  set (cmp := λ a b : nat, (scoreAt rows b - scoreAt rows a)%Q).
  exists (Js.Array_sort cmp (generatedRefs rows)).
  assert (Js.Array_sort cmp (generatedRefs rows) ≡ₚ generatedRefs rows) as Hperm
    by apply Array_sort_Permutation.
  assert (NoDup (Js.Array_sort cmp (generatedRefs rows))) as Hnd
    by (rewrite Hperm; apply generatedRefs_NoDup).
  destruct (assignByIndex_spec 0 _ rows Hnd) as (Hlen & Hin & Hout).
  split; [done|]. split; [|split; [|split]].
  - apply (StronglySorted_mono (before cmp)).
    { unfold before, cmp. intros a b. lra. }
    apply (Array_sort_StronglySorted cmp (λ _, True)).
    + unfold before, cmp. intros a b _ _. lra.
    + unfold before, cmp. intros a b c _ _ _. lra.
    + by apply List.Forall_forall.
  - cbn [rankRows]. by rewrite length_map.
  - intros j ref Hj.
    assert (In ref (generatedRefs rows)) as Href.
    { apply list_elem_of_In. rewrite <- Hperm. by eapply list_elem_of_lookup_2. }
    apply generatedRefs_In in Href as (r & Hr & Hg).
    exists r. split; [done|]. split; [done|].
    cbn [rankRows]. fold cmp. rewrite list_lookup_fmap, (Hin j ref Hj), Hr.
    cbn. rewrite isGenerated_setRanking, Hg. do 2 f_equal. lia.
  - intros i r Hr Hg.
    cbn [rankRows]. fold cmp. rewrite list_lookup_fmap, Hout, Hr.
    + cbn. by rewrite Hg.
    + intros Hi%list_elem_of_In. rewrite Hperm in Hi.
      apply list_elem_of_In, generatedRefs_In in Hi as (r' & Hr' & Hg').
      congruence.
Qed.

Lemma generatedRows_sameRows rows rows' :
  sameRowsUpToRank rows rows' →
  length (generatedRows rows) = length (generatedRows rows').
Proof.
  unfold sameRowsUpToRank, generatedRows. intros Hsame.
  assert (∀ l, length (List.filter isGenerated l)
               = length (List.filter isGenerated (map (Ranking.setRanking 0) l)))
    as Hc.
  { induction l as [|x l IH]; [done|]. cbn.
    rewrite isGenerated_setRanking. destruct (isGenerated x); cbn; by rewrite IH. }
  by rewrite (Hc rows), (Hc rows'), Hsame.
Qed.

(** Each row of the listing of another period, traced back to the row it
    was before ranking. *)
Lemma rankRows_other_inv rows (order : list nat) :
  order ≡ₚ generatedRefs rows →
  length (rankRows false rows) = length rows →
  (∀ j ref, order !! j = Some ref →
     ∃ r, rows !! ref = Some r ∧ isGenerated r = true
          ∧ rankRows false rows !! ref = Some (Ranking.setRanking (S j) r)) →
  (∀ i r, rows !! i = Some r → isGenerated r = false →
     rankRows false rows !! i = Some (Ranking.setRanking 0 r)) →
  ∀ i ro, rankRows false rows !! i = Some ro →
    ∃ r, rows !! i = Some r
      ∧ ((isGenerated ro = false ∧ ro = Ranking.setRanking 0 r)
         ∨ (isGenerated ro = true
            ∧ ∃ j, order !! j = Some i ∧ ro = Ranking.setRanking (S j) r)).
Proof.
  intros Hperm Hlen Hgen Hnon i ro Hro.
  destruct (rows !! i) as [r|] eqn:Hr.
  2:{ apply lookup_lt_Some in Hro. apply lookup_ge_None in Hr. lia. }
  exists r. split; [done|].
  destruct (isGenerated r) eqn:Hg.
  - right.
    assert (i ∈ order) as Hi.
    { rewrite Hperm. apply list_elem_of_In, generatedRefs_In. eauto. }
    apply list_elem_of_lookup_1 in Hi as [j Hj].
    destruct (Hgen j i Hj) as (r' & Hr' & _ & Hout).
    assert (ro = Ranking.setRanking (S j) r) as -> by congruence.
    split; [done|]. eauto.
  - left. rewrite (Hnon i r Hr Hg) in Hro. by simplify_eq.
Qed.

Lemma rankRows_other_properties rows :
  sameRowsUpToRank (rankRows false rows) rows
  ∧ (∀ r, In r (rankRows false rows) →
          isGenerated r = false → Ranking.ranking r = 0%nat)
  ∧ (∀ r, In r (generatedRows (rankRows false rows)) →
          (1 <= Ranking.ranking r <= length (generatedRows (rankRows false rows)))%nat)
  ∧ (∀ i j ri rj,
       rankRows false rows !! i = Some ri → rankRows false rows !! j = Some rj →
       i ≠ j → isGenerated ri = true → isGenerated rj = true →
       Ranking.ranking ri ≠ Ranking.ranking rj)
  ∧ (∀ ri rj,
       In ri (generatedRows (rankRows false rows)) →
       In rj (generatedRows (rankRows false rows)) →
       (Ranking.ranking ri < Ranking.ranking rj)%nat →
       (Ranking.totalScore rj <= Ranking.totalScore ri)%Q).
Proof.
  destruct (rankRows_other rows) as (order & Hperm & Hsorted & Hlen & Hgen & Hnon).
  pose proof (rankRows_other_inv rows order Hperm Hlen Hgen Hnon) as Hinv.
  assert (sameRowsUpToRank (rankRows false rows) rows) as Hsame.
  { apply list_eq. intros i. rewrite !list_lookup_fmap.
    destruct (rankRows false rows !! i) as [ro|] eqn:Hro.
    - destruct (Hinv i ro Hro) as (r & -> & [[_ ->]|[_ (j & _ & ->)]]); done.
    - apply lookup_ge_None in Hro. rewrite Hlen in Hro.
      apply lookup_ge_None in Hro. by rewrite Hro. }
  assert (∀ ro, In ro (generatedRows (rankRows false rows)) →
            ∃ i r j, rankRows false rows !! i = Some ro ∧ rows !! i = Some r
                     ∧ order !! j = Some i ∧ ro = Ranking.setRanking (S j) r)
    as Htrace.
  { intros ro [Hin Hg]%filter_In.
    apply list_elem_of_In, list_elem_of_lookup_1 in Hin as [i Hi].
    destruct (Hinv i ro Hi) as (r & Hr & [[Hno _]|[_ (j & Hj & ->)]]);
      [congruence|]. by exists i, r, j. }
  split; [done|]. split; [|split; [|split]].
  - intros ro Hin Hg.
    apply list_elem_of_In, list_elem_of_lookup_1 in Hin as [i Hi].
    destruct (Hinv i ro Hi) as (r & _ & [[_ ->]|[Hyes _]]); [done|congruence].
  - intros ro Hro. destruct (Htrace ro Hro) as (i & r & j & _ & _ & Hj & ->).
    apply lookup_lt_Some in Hj.
    rewrite (generatedRows_sameRows _ _ Hsame), <- generatedRefs_length, <- Hperm.
    cbn [Ranking.ranking Ranking.setRanking]. lia.
  - intros i j ri rj Hi Hj Hne Hgi Hgj.
    destruct (Hinv i ri Hi) as (r & _ & [[? _]|[_ (a & Ha & ->)]]); [congruence|].
    destruct (Hinv j rj Hj) as (r' & _ & [[? _]|[_ (b & Hb & ->)]]); [congruence|].
    cbn. intros [= ->]. congruence.
  - intros ri rj Hri Hrj.
    destruct (Htrace ri Hri) as (i & r & a & _ & Hr & Ha & ->).
    destruct (Htrace rj Hrj) as (j & r' & b & _ & Hr' & Hb & ->).
    cbn. intros Hlt.
    pose proof (StronglySorted_lookup _ _ a b i j Hsorted Ha Hb ltac:(lia)) as H.
    unfold scoreAt in H. by rewrite Hr, Hr' in H.
Qed.


(** ** The summary *)



Lemma rankRows_Permutation isCurrentMonth rows :
  map (Ranking.setRanking 0) (rankRows isCurrentMonth rows)
  ≡ₚ map (Ranking.setRanking 0) rows.
Proof.
  destruct isCurrentMonth.
  - apply rankRows_current.
  - destruct (rankRows_other_properties rows) as [Hsame _]. by rewrite Hsame.
Qed.











(** ** Submissions: what is stored and who is denied *)

Lemma updateFirst_find id f es entry :
  List.find (λ e, Nat.eqb (KpiEntry._id e) id) es = Some entry →
  ∃ earlier later,
    es = earlier ++ entry :: later
    ∧ (∀ e, In e earlier → KpiEntry._id e ≠ id)
    ∧ KpiEntryModel.updateFirst id f es
      = (earlier ++ f entry :: later, Some (f entry)).
Proof.
  induction es as [|e es IH]; simpl; [done|].
  destruct (Nat.eqb_spec (KpiEntry._id e) id) as [He|He].
  - intros [= ->]. by exists [], es.
  - intros Hf. destruct (IH Hf) as (earlier & later & -> & Hno & ->).
    exists (e :: earlier), later. split; [done|]. split; [|done].
    intros e' [<-|He']; auto.
Qed.


Ltac not_denied :=
  unfold KpiTemplateService.getKpiTemplate, KpiEntryModel.findByIdAndUpdate,
    liftE, throw, read, mret, M_ret;
  let H := fresh in
  intros H; repeat (case_match; simplify_eq/=);
  match goal with
  | H' : validateAndCalculateScores _ _ _ = inl _ |- _ =>
      apply validateAndCalculateScores_error in H'; cbn in H';
      intuition discriminate
  end.

(** X2. For a stored entry that is not finalized, in its own period,
    [updateKpiEntryValues] throws 403 "Permission Denied" and leaves the
    store as it was exactly when the permission stage does not let the actor
    through: nothing that goes wrong afterwards (the template, the
    validation) is reported as a denial. *)
Theorem update_denied_exactly_without_permission
  (StringToNumber : string → option Q) (now : Js.Date) (db : Db)
  (entryId : nat) (entry : KpiEntry.t) (values : list ValueInput.t)
  (updatedBy : string) :
  KpiEntryModel.findById entryId db = (db, inr (Some entry)) →
  KpiEntry.status entry ≠ generated →
  inOwnPeriod now entry →
  updateKpiEntryValues StringToNumber now entryId values updatedBy db
  = (db, inl (Api (mkAPIError 403 "Permission Denied")))
  ↔ ¬ mayUpdate db updatedBy entry.
Proof.
  intros Hfind Hst [Hm Hy].
  unfold updateKpiEntryValues, mbind, M_bind.
  rewrite Hfind. rewrite bool_decide_eq_false_2 by done.
  rewrite Hm, Hy, !Z.eqb_refl. cbn [negb orb].
  unfold MemberService.getMemberByUserId at 1, read, mayUpdate.
  destruct (List.find (λ m, String.eqb (Member.userId m) updatedBy)
              (tbl_members db)) as [actor|];
    cbn [fmap option_fmap option_map].
  - unfold nonEmpty.
    destruct (String.eqb_spec (Member.role actor) "") as [Hr|Hr];
      destruct (String.eqb_spec (Member.departmentSlug actor) "") as [Hd|Hd];
      cbn [negb andb].
    4:{ destruct (validateNodalOfficerPermission_supervises db actor entry)
          as (allowed & Hcheck & Hallowed).
        rewrite Hcheck. destruct allowed; cbn [negb].
        - split; [not_denied|].
          intros Hno. destruct Hno. intros a [= <-] _ _. by apply Hallowed.
        - split; [|done].
          intros _ Hmay. specialize (Hmay actor eq_refl Hr Hd).
          apply Hallowed in Hmay. done. }
    all: split;
      [ not_denied
      | intros Hno; destruct Hno; intros a [= <-] Ha Hb; congruence ].
  - split; [not_denied|].
    intros Hno. destruct Hno. by intros a [=].
Qed.

(** ** Finalization and generation: what they store *)

Lemma setStatus_id s e : KpiEntry._id (setStatus s e) = KpiEntry._id e.
Proof. done. Qed.

Lemma setStatus_same e : setStatus (KpiEntry.status e) e = e.
Proof. by destruct e. Qed.

Lemma setStatus_setStatus s s' e : setStatus s (setStatus s' e) = setStatus s e.
Proof. done. Qed.

(** With unique ids, [findByIdAndUpdate] changes the document of that id and
    no other. *)
Lemma updateFirst_unique id f es :
  List.NoDup (map KpiEntry._id es) →
  fst (KpiEntryModel.updateFirst id f es)
  = map (λ e, if Nat.eqb (KpiEntry._id e) id then f e else e) es.
Proof.
  induction es as [|e es IH]; simpl; [done|].
  intros Hnd. apply List.NoDup_cons_iff in Hnd as [Hnot Hnd].
  destruct (Nat.eqb_spec (KpiEntry._id e) id) as [He|He]; simpl.
  - f_equal. clear IH. induction es as [|e' es IH]; [done|]. simpl.
    simpl in Hnot. apply List.NoDup_cons_iff in Hnd as [_ Hnd].
    destruct (Nat.eqb_spec (KpiEntry._id e') id) as [He'|He'].
    + destruct Hnot. left. congruence.
    + f_equal. apply IH; [|done]. intros H. apply Hnot. by right.
  - specialize (IH Hnd). destruct (KpiEntryModel.updateFirst id f es). simpl in *.
    by f_equal.
Qed.

Lemma updateEach_spec (entries : list KpiEntry.t) (db : Db) :
  uniqueIds db →
  ∃ db',
    updateEach entries db = (db', inr tt)
    ∧ tbl_kpi_entries db'
      = map (λ e, if existsb (Nat.eqb (KpiEntry._id e)) (map KpiEntry._id entries)
                  then setStatus generated e else e) (tbl_kpi_entries db)
    ∧ tbl_kpi_templates db' = tbl_kpi_templates db
    ∧ tbl_members db' = tbl_members db
    ∧ tbl_kpi_audit_logs db' = tbl_kpi_audit_logs db
    ∧ nextObjectId db' = nextObjectId db.
Proof.
  revert db. induction entries as [|x rest IH]; intros db Hu.
  - exists db. split; [done|]. split; [|done]. simpl. by rewrite map_id.
  - cbn [updateEach]. unfold mbind, M_bind, KpiEntryModel.findByIdAndUpdate.
    pose proof (updateFirst_unique (KpiEntry._id x) (setStatus generated) _ Hu) as Hup.
    destruct (KpiEntryModel.updateFirst _ _ _) as [es r]. cbn [fst] in Hup. subst es.
    set (db1 := mkDb _ _ _ _ _).
    destruct (IH db1) as (db' & Hrun & Hes & Ht & Hm & Hl & Hn).
    { unfold uniqueIds, db1. cbn [tbl_kpi_entries]. rewrite map_map.
      erewrite map_ext; [exact Hu|]. intros e. simpl. by destruct (_ =? _)%nat. }
    exists db'. split; [done|]. split; [|done].
    rewrite Hes. unfold db1. cbn [tbl_kpi_entries]. rewrite map_map.
    apply map_ext. intros e. cbn [map existsb].
    destruct (Nat.eqb_spec (KpiEntry._id e) (KpiEntry._id x)) as [He|He]; cbn [orb].
    + rewrite setStatus_id. by destruct (existsb _ _).
    + done.
Qed.

Lemma existsb_id_filter (q : KpiEntry.t → bool) es e :
  List.NoDup (map KpiEntry._id es) → In e es →
  existsb (Nat.eqb (KpiEntry._id e)) (map KpiEntry._id (List.filter q es)) = q e.
Proof.
  intros Hnd Hin. destruct (q e) eqn:Hq.
  - apply existsb_exists. exists (KpiEntry._id e). split; [|apply Nat.eqb_refl].
    apply in_map. by apply filter_In.
  - apply not_true_is_false. intros (i & Hi & He)%existsb_exists.
    apply Nat.eqb_eq in He. subst i.
    apply in_map_iff in Hi as (e' & Hid & He').
    apply filter_In in He' as [He' Hq'].
    enough (e' = e) by congruence.
    clear Hq Hq'. induction es as [|x es IH]; [done|].
    simpl in Hnd. apply List.NoDup_cons_iff in Hnd as [Hnot Hnd].
    destruct Hin as [->|Hin], He' as [->|He']; auto.
    + destruct Hnot. rewrite <- Hid. by apply in_map.
    + destruct Hnot. rewrite Hid. by apply in_map.
Qed.

(** What a successful finalization has done to the store. *)
Lemma generateFinalReports_inr templateId month year generatedBy db db' n :
  uniqueIds db →
  generateFinalReports templateId month year generatedBy db = (db', inr n) →
  tbl_kpi_entries db'
  = map (finalized templateId month year) (tbl_kpi_entries db)
  ∧ n = length (List.filter
                  (λ e, ofTemplateAndPeriod templateId month year e && isOpen e)
                  (tbl_kpi_entries db))
  ∧ (0 < n)%nat
  ∧ tbl_kpi_templates db' = tbl_kpi_templates db
  ∧ tbl_members db' = tbl_members db.
Proof.
  intros Hu. unfold generateFinalReports, mbind, M_bind, KpiEntryModel.find, read.
  set (q := λ e : KpiEntry.t, _).
  destruct (length (List.filter q (tbl_kpi_entries db)) =? 0)%nat eqn:E; [done|].
  destruct (updateEach_spec (List.filter q (tbl_kpi_entries db)) db Hu)
    as (db1 & -> & Hes & Ht & Hm & Hl & Hn).
  unfold KpiAuditLogService.create, mret, M_ret. intros H. simplify_eq.
  cbn [tbl_kpi_entries tbl_kpi_templates tbl_members].
  assert (∀ e, q e = ofTemplateAndPeriod templateId month year e && isOpen e) as Hq.
  { intros e. unfold q, ofTemplateAndPeriod, isOpen. done. }
  split; [|split; [|split; [|done]]].
  - rewrite Hes. apply map_ext_in. intros e He.
    rewrite (existsb_id_filter q _ e Hu He), Hq. unfold finalized, isOpen.
    destruct (ofTemplateAndPeriod _ _ _ e); cbn [andb]; [|done].
    destruct (KpiEntry.status e) eqn:Hs;
      rewrite ?bool_decide_eq_true_2, ?bool_decide_eq_false_2 by done;
      cbn [orb]; try done.
    symmetry. rewrite <- Hs. apply setStatus_same.
  - done.
  - apply Nat.eqb_neq in E. lia.
Qed.

(** X3. A successful [generateFinalReports] on a store with unique ids sets
    every entry of the template and period to [generated] and leaves every
    other entry as it was, so that afterwards every stored entry of the
    template and period is [generated]. The number it returns counts the
    entries that were still open ([created] or [initiated]), and is at least
    one; templates and members are unchanged. *)
Theorem finalization_locks_the_period (templateId : string) (month year : Z)
  (generatedBy : string) (db db' : Db) (n : nat) :
  uniqueIds db →
  generateFinalReports templateId month year generatedBy db = (db', inr n) →
  tbl_kpi_entries db'
  = map (finalized templateId month year) (tbl_kpi_entries db)
  ∧ (∀ e, In e (tbl_kpi_entries db') →
          ofTemplateAndPeriod templateId month year e = true →
          KpiEntry.status e = generated)
  ∧ n = length (List.filter
                  (λ e, ofTemplateAndPeriod templateId month year e && isOpen e)
                  (tbl_kpi_entries db))
  ∧ (0 < n)%nat
  ∧ tbl_kpi_templates db' = tbl_kpi_templates db
  ∧ tbl_members db' = tbl_members db.
Proof.
  intros Hu Hrun.
  destruct (generateFinalReports_inr _ _ _ _ _ _ _ Hu Hrun)
    as (Hes & Hn & Hpos & Ht & Hm).
  split; [done|]. split; [|done].
  intros e He Hp. rewrite Hes in He.
  apply in_map_iff in He as (e0 & <- & _). revert Hp. unfold finalized.
  destruct (ofTemplateAndPeriod templateId month year e0) eqn:E; [done|].
  congruence.
Qed.

Lemma finalized_not_open templateId month year e :
  ofTemplateAndPeriod templateId month year (finalized templateId month year e)
  && isOpen (finalized templateId month year e) = false.
Proof.
  unfold finalized.
  destruct (ofTemplateAndPeriod templateId month year e) eqn:E.
  - unfold isOpen. cbn [setStatus KpiEntry.status].
    rewrite !bool_decide_eq_false_2 by done. apply andb_false_r.
  - by rewrite E.
Qed.

(** X4. After a successful finalization of a template and period, a second
    finalization of the same template and period, by whomever, throws 404
    "No Entries Found" and leaves the store as it is. *)
Theorem repeated_finalization_finds_nothing (templateId : string)
  (month year : Z) (generatedBy generatedBy' : string) (db db' : Db) (n : nat) :
  uniqueIds db →
  generateFinalReports templateId month year generatedBy db = (db', inr n) →
  generateFinalReports templateId month year generatedBy' db'
  = (db', inl (Api (mkAPIError 404 "No Entries Found"))).
Proof.
  intros Hu Hrun.
  destruct (generateFinalReports_inr _ _ _ _ _ _ _ Hu Hrun) as (Hes & _).
  unfold generateFinalReports, mbind, M_bind, KpiEntryModel.find, read.
  rewrite Hes.
  replace (List.filter _ (map _ _)) with (@nil KpiEntry.t); [done|].
  symmetry. clear. induction (tbl_kpi_entries db) as [|e es IH]; [done|].
  cbn [map List.filter].
  pose proof (finalized_not_open templateId month year e) as Hno.
  unfold ofTemplateAndPeriod, isOpen in Hno. by rewrite Hno.
Qed.

(** X5. After a successful finalization of a template and period, a
    submission to any stored entry of that template and period is rejected
    with 400 "Entry Already Generated", whoever submits it, whatever it
    holds and whenever it comes; the store is unchanged. *)
Theorem finalized_period_rejects_updates (StringToNumber : string → option Q)
  (templateId : string) (month year : Z) (generatedBy : string)
  (db db' : Db) (n : nat) (now : Js.Date) (entryId : nat) (entry : KpiEntry.t)
  (values : list ValueInput.t) (updatedBy : string) :
  uniqueIds db →
  generateFinalReports templateId month year generatedBy db = (db', inr n) →
  KpiEntryModel.findById entryId db' = (db', inr (Some entry)) →
  ofTemplateAndPeriod templateId month year entry = true →
  updateKpiEntryValues StringToNumber now entryId values updatedBy db'
  = (db', inl (Api (mkAPIError 400 "Entry Already Generated"))).
Proof.
  intros Hu Hrun Hfind Hp.
  destruct (generateFinalReports_inr _ _ _ _ _ _ _ Hu Hrun) as (Hes & _).
  assert (KpiEntry.status entry = generated) as Hs.
  { unfold KpiEntryModel.findById, read in Hfind.
    assert (List.find (λ e, Nat.eqb (KpiEntry._id e) entryId) (tbl_kpi_entries db')
            = Some entry) as Hf by congruence.
    apply find_some in Hf as [Hin _]. rewrite Hes in Hin.
    apply in_map_iff in Hin as (e0 & <- & _). revert Hp. unfold finalized.
    destruct (ofTemplateAndPeriod templateId month year e0) eqn:E; [done|].
    congruence. }
  unfold updateKpiEntryValues, mbind, M_bind. rewrite Hfind.
  by rewrite bool_decide_eq_true_2.
Qed.

(** A generation that throws has stored nothing. *)
Lemma generateDefaultKpiEntries_inl now templateId month year generatedBy
  db db' ex :
  generateDefaultKpiEntries now templateId month year generatedBy db
  = (db', inl ex) →
  db' = db
  ∧ (ex = Api (mkAPIError 404 "KPI Template Not Found")
     ∨ ex = Api (mkAPIError 409 "Entries Already Exist")
     ∨ ex = MongooseValidationError).
Proof.
  unfold generateDefaultKpiEntries, KpiTemplateService.getKpiTemplate,
    MemberService.getMembers, KpiEntryModel.find, KpiEntryModel.insertMany,
    KpiAuditLogService.create, throw, read, mbind, M_bind, mret, M_ret.
  destruct (List.find _ (tbl_kpi_templates db)) as [template|];
    [|intros [= <- <-]; auto].
  destruct (0 <? _)%nat; [intros [= <- <-]; auto|].
  destruct (forallb _ _); [done|intros [= <- <-]; auto].
Qed.


Lemma storeAll_In_range now id ds e :
  In e (KpiEntryModel.storeAll now id ds) →
  ∃ id' d, In d ds ∧ e = KpiEntryModel.store now id' d
           ∧ (id <= id' < id + length ds)%nat.
Proof.
  revert id. induction ds as [|d ds IH]; intros id; simpl; [done|].
  intros [<-|H]; [exists id, d; split; [by left|split; [done|lia]]|].
  destruct (IH _ H) as (id' & d' & Hd & -> & Hr).
  exists id', d'. split; [by right|]. split; [done|lia].
Qed.

Lemma In_take {A} n (l : list A) x : In x (take n l) → In x l.
Proof.
  revert n. induction l as [|y l IH]; intros [|n]; simpl; try done.
  intros [->|H]; eauto.
Qed.

(** X7. Every entry a successful generation returns is blank: its status is
    [created], it has no values and its total is 0. It carries the template,
    the period, the [generatedBy] and the date of the call, the period lies
    within the bounds of the schema, its id was free before the call, and it
    is for a stored member, with that member's jurisdiction, who is neither
    a nodal officer nor of the collector office. *)
Theorem generated_entries_are_blank (now : Js.Date) (templateId : string)
  (month year : Z) (generatedBy : string) (db db' : Db) (r : GenerateResult.t)
  (e : KpiEntry.t) :
  generateDefaultKpiEntries now templateId month year generatedBy db
  = (db', inr r) →
  In e (GenerateResult.entries r) →
  KpiEntry.status e = created
  ∧ KpiEntry.values e = []
  ∧ KpiEntry.totalScore e = 0%Q
  ∧ KpiEntry.kpiTemplateId e = templateId
  ∧ KpiEntry.month e = month ∧ KpiEntry.year e = year
  ∧ KpiEntry.createdBy e = generatedBy
  ∧ KpiEntry.createdAt e = now
  ∧ withinSchema month year
  ∧ (nextObjectId db <= KpiEntry._id e < nextObjectId db')%nat
  ∧ ∃ member,
      In member (tbl_members db)
      ∧ KpiEntry.createdFor e = Member.userId member
      ∧ KpiEntry.jurisdiction e = jurisdictionOf member
      ∧ Js.startsWith (Member.role member) "nodalOfficer-" = false
      ∧ Member.departmentSlug member ≠ "collector-office".
Proof.
  unfold generateDefaultKpiEntries, KpiTemplateService.getKpiTemplate,
    MemberService.getMembers, KpiEntryModel.find, KpiEntryModel.insertMany,
    KpiAuditLogService.create, throw, read, mbind, M_bind, mret, M_ret.
  destruct (List.find _ (tbl_kpi_templates db)) as [template|]; [|done].
  destruct (0 <? _)%nat; [done|].
  destruct (forallb _ _) eqn:Hvalid; [|done].
  intros H He. simplify_eq. cbn [GenerateResult.entries nextObjectId] in *.
  apply storeAll_In_range in He as (id & d & Hd & -> & Hid).
  rewrite forallb_forall in Hvalid. specialize (Hvalid d Hd).
  apply in_flat_map in Hd as (member & Hmember & Hd).
  apply filter_In in Hmember as [Hmember Hex].
  apply In_take in Hmember.
  assert (In member (tbl_members db)) as Hin.
  { cbn [Nat.sub Nat.mul drop] in Hmember. by apply filter_In in Hmember as [? _]. }
  assert (NewKpiEntry.status d = created ∧ NewKpiEntry.values d = []
          ∧ NewKpiEntry.totalScore d = 0%Q ∧ NewKpiEntry.kpiTemplateId d = templateId
          ∧ NewKpiEntry.month d = month ∧ NewKpiEntry.year d = year
          ∧ NewKpiEntry.createdBy d = generatedBy
          ∧ NewKpiEntry.createdFor d = Member.userId member
          ∧ NewKpiEntry.jurisdiction d = jurisdictionOf member) as Hfields.
  { revert Hd. unfold defaultEntriesFor.
    destruct (length (kpirefsOf member) =? 0)%nat.
    - by intros [<-|[]].
    - by intros (k & <- & _)%in_map_iff. }
  destruct Hfields as (Hs & Hv & Hts & Ht & Hmo & Hy & Hby & Hfor & Hj).
  unfold KpiEntryModel.store.
  cbn [KpiEntry.status KpiEntry.values KpiEntry.totalScore KpiEntry.kpiTemplateId
       KpiEntry.month KpiEntry.year KpiEntry.createdBy KpiEntry.createdAt
       KpiEntry._id KpiEntry.createdFor KpiEntry.jurisdiction].
  repeat (split; [done|]).
  split.
  { unfold KpiEntryModel.valid in Hvalid. rewrite Hmo, Hy in Hvalid.
    unfold withinSchema.
    repeat (apply andb_prop in Hvalid as [Hvalid ?]). lia. }
  split; [lia|].
  exists member. repeat (split; [done|]).
  apply andb_prop in Hex as [H1 H2].
  split; [by apply negb_true_iff|].
  apply negb_true_iff in H2. by apply String.eqb_neq.
Qed.

Lemma defaultEntriesFor_head templateId month year generatedBy member :
  ∃ d rest,
    defaultEntriesFor templateId month year generatedBy member = d :: rest
    ∧ NewKpiEntry.month d = month ∧ NewKpiEntry.year d = year.
Proof.
  unfold defaultEntriesFor. destruct (kpirefsOf member) as [|k ks]; simpl; eauto.
Qed.

(** X8. For an existing template with at least one eligible member, on a
    store whose entries all lie within the bounds of the schema, a generation
    for a period outside these bounds (a month outside 1..12 or a year before
    2020) throws the validation error of the schema and stores nothing. *)
Theorem generation_outside_the_schema_stores_nothing (now : Js.Date)
  (templateId : string) (month year : Z) (generatedBy : string) (db : Db)
  (template : KpiTemplate.t) :
  KpiTemplateService.getKpiTemplate templateId db = (db, inr (Some template)) →
  eligibleMembers db template ≠ [] →
  (∀ e, In e (tbl_kpi_entries db) →
        withinSchema (KpiEntry.month e) (KpiEntry.year e)) →
  ¬ withinSchema month year →
  generateDefaultKpiEntries now templateId month year generatedBy db
  = (db, inl MongooseValidationError).
Proof.
  intros Htpl Hel Hstore Hout.
  unfold generateDefaultKpiEntries, mbind, M_bind. rewrite Htpl.
  unfold eligibleMembers, membersOf in Hel.
  unfold MemberService.getMembers, read in *.
  unfold KpiEntryModel.find, read.
  set (members := filterExcludedMembers _) in *.
  replace (List.filter (existingEntriesQuery templateId month year members)
             (tbl_kpi_entries db)) with (@nil KpiEntry.t).
  2:{ symmetry.
      destruct (List.filter (existingEntriesQuery templateId month year members)
                  (tbl_kpi_entries db)) as [|e es] eqn:E; [done|]. exfalso.
      assert (In e (e :: es)) as Hin by by left.
      rewrite <- E in Hin. apply filter_In in Hin as [Hin Hq].
      unfold existingEntriesQuery in Hq.
      repeat (apply andb_prop in Hq as [Hq ?]).
      apply Hout. specialize (Hstore e Hin).
      assert (KpiEntry.month e = month) as <- by lia.
      assert (KpiEntry.year e = year) as <- by lia. done. }
  cbn [length Nat.ltb Nat.leb].
  unfold KpiEntryModel.insertMany.
  destruct (forallb _ _) eqn:Hvalid; [|done]. exfalso.
  destruct members as [|member ms]; [done|].
  destruct (defaultEntriesFor_head templateId month year generatedBy member)
    as (d & rest & Hd & Hmo & Hy).
  cbn [flat_map] in Hvalid. rewrite Hd in Hvalid. cbn [app forallb] in Hvalid.
  apply andb_prop in Hvalid as [Hvalid _].
  unfold KpiEntryModel.valid in Hvalid. rewrite Hmo, Hy in Hvalid.
  repeat (apply andb_prop in Hvalid as [Hvalid ?]).
  apply Hout. unfold withinSchema. lia.
Qed.

(** ** The period of a request and the summary of a listing *)

(** X9. A request for the month [-k] (k > 0) without a year, in a current
    month 1..12, resolves to a month 1..12, and to the period [k] months
    before the current one, except when [currentMonth - k] is 0 or a negative
    multiple of 12: then it resolves to the December twelve months after
    that period (asked in March for the month -3, the December of the
    current year). *)
Theorem relative_month_counts_back (currentMonth currentYear k : Z) :
  1 <= currentMonth <= 12 → 0 < k →
  let period := resolvePeriod currentMonth currentYear (Some (- k)) None in
  1 <= fst period <= 12
  ∧ 12 * snd period + fst period
    = 12 * currentYear + currentMonth - k
      + (if (currentMonth - k <=? 0) && ((currentMonth - k) mod 12 =? 0)
         then 12 else 0).
Proof.
  intros Hm Hk. unfold resolvePeriod. cbn zeta.
  rewrite (proj2 (Z.ltb_lt (- k) 0)) by lia.
  rewrite Z.abs_opp, (Z.abs_eq k) by lia.
  destruct (Z.leb_spec (currentMonth - k) 0) as [Hle|Hgt]; cbn [andb fst snd].
  - unfold Js.ceil_div. rewrite (Z.abs_neq (currentMonth - k)) by lia.
    set (t := currentMonth - k) in *.
    destruct (Z.eqb_spec (12 + Z.rem t 12) 0) as [E0|E0];
      destruct (Z.eqb_spec (t mod 12) 0) as [E|E]; cbn [fst snd];
      Z.to_euclidean_division_equations; lia.
  - cbn [fst snd]. lia.
Qed.

(** [Math.round] of a ratio of integers taken as a percentage: the nearest
    whole percentage, a tie going up. *)
Lemma Math_round_percentage (w t : Z) :
  0 < t →
  let c := Js.Math_round (inject_Z w / inject_Z t * 100)%Q in
  (2 * c - 1) * t <= 200 * w < (2 * c + 1) * t.
Proof.
  intros Ht c.
  set (x := (inject_Z w / inject_Z t * 100)%Q) in *.
  assert (inject_Z c <= x + (1 # 2))%Q as Hlo by apply Qfloor_le.
  assert (x + (1 # 2) < inject_Z (c + 1))%Q as Hhi by apply Qlt_floor.
  assert (0 < inject_Z t)%Q as HT
    by (change 0%Q with (inject_Z 0); rewrite <- Zlt_Qlt; lia).
  assert (x * inject_Z t == 100 * inject_Z w)%Q as Hx.
  { unfold x. field. intros H. rewrite H in HT. by apply Qlt_irrefl in HT. }
  rewrite inject_Z_plus in Hhi.
  assert ((2 * inject_Z c - 1) * inject_Z t <= (2 * x) * inject_Z t)%Q as H1'
    by (apply Qmult_le_compat_r; lra).
  assert ((2 * x) * inject_Z t < (2 * inject_Z c + 1) * inject_Z t)%Q as H2'.
  { apply Qmult_lt_compat_r; [done|]. change (inject_Z 1) with 1%Q in Hhi. lra. }
  assert ((2 * inject_Z c - 1) * inject_Z t <= 200 * inject_Z w)%Q as H1 by lra.
  assert (200 * inject_Z w < (2 * inject_Z c + 1) * inject_Z t)%Q as H2 by lra.
  split.
  - rewrite Zle_Qle, !inject_Z_mult. unfold Z.sub.
    rewrite inject_Z_plus, inject_Z_mult. exact H1.
  - rewrite Zlt_Qlt, !inject_Z_mult, inject_Z_plus, inject_Z_mult. exact H2.
Qed.


Lemma buildEntriesMap_lookup_from (kpiEntries : list KpiEntry.t)
  (entriesMap : gmap string (gmap (option string) KpiEntry.t))
  (memberId : string) (kpiref : option string) :
  default ∅
    (foldl (λ entriesMap entry,
              let memberId := KpiEntry.createdFor entry in
              <[memberId := <[KpiEntry.kpirefs entry := entry]>
                              (default ∅ (entriesMap !! memberId))]> entriesMap)
       entriesMap kpiEntries !! memberId) !! kpiref
  = match last (List.filter
                  (λ e, String.eqb (KpiEntry.createdFor e) memberId
                        && bool_decide (KpiEntry.kpirefs e = kpiref))
                  kpiEntries) with
    | Some e => Some e
    | None => default ∅ (entriesMap !! memberId) !! kpiref
    end.
Proof.
  revert entriesMap. induction kpiEntries as [|e es IH]; intros entriesMap; [done|].
  cbn [foldl List.filter]. rewrite IH. clear IH.
  destruct (String.eqb_spec (KpiEntry.createdFor e) memberId) as [Hm|Hm];
    cbn [andb].
  - subst memberId. rewrite lookup_insert_eq. cbn [default]. unfold id.
    destruct (decide (KpiEntry.kpirefs e = kpiref)) as [Hk|Hk].
    + rewrite bool_decide_eq_true_2 by done.
      subst kpiref. rewrite lookup_insert_eq.
      destruct (List.filter _ es) as [|x l] eqn:E; [done|].
      rewrite !last_cons. by destruct (last l).
    + rewrite bool_decide_eq_false_2 by done.
      by rewrite lookup_insert_ne.
  - by rewrite lookup_insert_ne.
Qed.

Lemma buildEntriesMap_lookup kpiEntries member kpiref :
  default ∅ (buildEntriesMap kpiEntries !! Member.userId member) !! Some kpiref
  = entryOfReference kpiEntries member kpiref.
Proof.
  unfold buildEntriesMap, entryOfReference.
  rewrite buildEntriesMap_lookup_from. rewrite lookup_empty. cbn [default].
  rewrite lookup_empty. by destruct (last _).
Qed.

Lemma buildRankings_rowsOf (filteredMembers : list Member.t)
  (kpiEntries : list KpiEntry.t) :
  buildRankings filteredMembers kpiEntries
  = flat_map (rowsOf kpiEntries) filteredMembers.
Proof.
  unfold buildRankings. apply flat_map_ext. intros member.
  unfold rowsOf. destruct (kpirefsOf member) as [|k ks] eqn:E; [done|].
  cbn [length Nat.eqb]. apply map_ext. intros kpiref.
  by rewrite buildEntriesMap_lookup.
Qed.

(** ** Where a score comes from *)

(** X11. Whatever the value, the rules and the kind of the item, the score
    [calculateScore] returns is the numeric value itself (for the kind
    [score]), or 0, or the score of one of the rules given. *)
Theorem score_comes_from_a_rule (StringToNumber : string → option Q)
  (value : Js.Value) (scoringRules : list ScoringRule.t) (kpiType : KpiType) :
  let s := calculateScore StringToNumber value scoringRules kpiType in
  (kpiType = score ∧ value = Js.VNumber s)
  ∨ s = 0%Q
  ∨ ∃ rule, In rule scoringRules ∧ s = ScoringRule.score rule.
Proof.
  cbv zeta.
  assert (matchRules value scoringRules = 0%Q
          ∨ ∃ rule, In rule scoringRules
                    ∧ matchRules value scoringRules = ScoringRule.score rule) as Hm.
  { rewrite matchRules_find. destruct (List.find _ _) as [rule|] eqn:E; [|by left].
    right. exists rule. apply find_some in E as [Hin _]. done. }
  destruct kpiType, value as [v|s|b]; cbn [calculateScore]; auto.
  destruct (List.find _ _) as [rule|] eqn:E; [|by right; left].
  right; right. exists rule. split; [|done].
  apply find_some in E as [Hin _].
  by apply Array_sort_In, filter_In in Hin as [Hin _].
Qed.

(** X12. For a percentage item whose rules all have a numeric threshold, with
    scores that rise with the thresholds and are never negative, a higher
    value never gets a lower score. *)
Theorem percentage_score_is_monotone (StringToNumber : string → option Q)
  (rules : list ScoringRule.t) (v w : Q) :
  numericThresholds rules →
  risingScores rules →
  (v <= w)%Q →
  (calculateScore StringToNumber (Js.VNumber v) rules percentage
   <= calculateScore StringToNumber (Js.VNumber w) rules percentage)%Q.
Proof.
  intros Hn [Hrise Hpos] Hvw. cbn [calculateScore].
  destruct (List.find (reaches StringToNumber v) _) as [bv|] eqn:Ev.
  - destruct (percentage_selects StringToNumber v rules bv Hn Ev)
      as (tv & Htv & Hle & Hfv & _).
    apply find_some in Hfv as [Hinv _].
    destruct (List.find (reaches StringToNumber w) _) as [bw|] eqn:Ew.
    + destruct (percentage_selects StringToNumber w rules bw Hn Ew)
        as (tw & Htw & Hlew & Hfw & Hmax).
      apply find_some in Hfw as [Hinw _].
      apply (Hrise bv bw tv tw); try done.
      apply (Hmax bv tv); [done..|]. lra.
    + exfalso. pose proof (find_none_all _ _ Ew bv) as Hno.
      rewrite (proj2 (reaches_threshold StringToNumber w bv tv Htv)) in Hno by lra.
      enough (true = false) by done. apply Hno.
      apply Array_sort_In, filter_In. split; [done|].
      by apply (threshold_hasValue bv tv).
  - destruct (List.find (reaches StringToNumber w) _) as [bw|] eqn:Ew; [|lra].
    apply Hpos. apply find_some in Ew as [Hin _].
    by apply Array_sort_In, filter_In in Hin as [Hin _].
Qed.

Lemma scoreOne_inr StringToNumber templateItems input o :
  scoreOne StringToNumber templateItems input = inr o →
  match itemNamed templateItems (ValueInput.name input) with
  | Some item => ∃ v, o = Some v ∧ scoredFrom StringToNumber item input v
  | None => o = None
  end.
Proof.
  unfold scoreOne, itemNamed.
  destruct (List.find _ templateItems) as [item|]; [|by intros [= <-]].
  unfold scoredFrom.
  destruct (ValueInput.isByPassed input) as [[]|] eqn:Hb.
  - destruct (ValueInput.score input) as [s|]; [|done].
    intros [= <-]. eexists. split; [done|].
    cbn [ValueEntry.name ValueEntry.value ValueEntry.comments
         ValueEntry.isByPassed ValueEntry.score].
    by rewrite bool_decide_eq_true_2.
  - intros H. unfold typeAccepted.
    destruct (TemplateItem.kpiType item), (ValueInput.value input);
      simplify_eq/=; eexists; (split; [done|]);
      rewrite ?bool_decide_eq_false_2 by done; repeat split; done.
  - intros H. unfold typeAccepted.
    destruct (TemplateItem.kpiType item), (ValueInput.value input);
      simplify_eq/=; eexists; (split; [done|]);
      rewrite ?bool_decide_eq_false_2 by done; repeat split; done.
Qed.

(** X13. When [validateAndCalculateScores] accepts a submission, every template
    item that is not dynamic is named by a submitted value, and the values
    returned are, in order, the submitted values whose name is that of a
    template item (the others are dropped): each keeps its name, value,
    comments and bypass flag, and has the submitted score when it is
    bypassed, and otherwise a raw value of the type the item's kind asks for
    and the score computed from the item's rules. *)
Theorem validated_values_follow_the_template
  (StringToNumber : string → option Q) (values : list ValueInput.t)
  (templateItems : list TemplateItem.t) (validatedValues : list ValueEntry.t) :
  validateAndCalculateScores StringToNumber values templateItems
  = inr validatedValues →
  (∀ item, In item templateItems → TemplateItem.isDynamic item = false →
           In (TemplateItem.name item) (map ValueInput.name values))
  ∧ Forall2
      (λ input v,
         ∃ item, itemNamed templateItems (ValueInput.name input) = Some item
                 ∧ scoredFrom StringToNumber item input v)
      (List.filter
         (λ input, bool_decide (is_Some (itemNamed templateItems
                                           (ValueInput.name input))))
         values)
      validatedValues.
Proof.
  unfold validateAndCalculateScores, validateRequiredValues.
  destruct (0 <? _)%nat eqn:Hreq; [done|]. intros Hall. split.
  - intros item Hin Hdyn. apply Nat.ltb_ge in Hreq. rewrite length_map in Hreq.
    destruct (existsb (String.eqb (TemplateItem.name item))
                (map ValueInput.name values)) eqn:Hex.
    + apply existsb_exists in Hex as (n & Hn & ->%String.eqb_eq). done.
    + exfalso.
      assert (In item (List.filter
                (λ item, negb (TemplateItem.isDynamic item)
                         && negb (existsb (String.eqb (TemplateItem.name item))
                                    (map ValueInput.name values)))
                templateItems)) as Hmiss.
      { apply filter_In. split; [done|]. by rewrite Hdyn, Hex. }
      destruct (List.filter _ templateItems); [done|]. simpl in Hreq. lia.
  - clear Hreq. revert validatedValues Hall.
    induction values as [|input rest IH]; intros vs; cbn [scoreAll List.filter].
    + intros [= <-]. constructor.
    + destruct (scoreOne _ _ input) as [e|o] eqn:E1; [done|].
      destruct (scoreAll _ _ rest) as [e|vs'] eqn:E2; [done|].
      intros [= <-]. apply scoreOne_inr in E1.
      destruct (itemNamed templateItems (ValueInput.name input)) as [item|] eqn:Hi.
      * destruct E1 as (v & -> & Hv).
        rewrite bool_decide_eq_true_2 by done.
        constructor; [|by apply IH]. by exists item.
      * subst o. rewrite bool_decide_eq_false_2 by (by intros [? ?]).
        by apply IH.
Qed.

(** ** Pages *)

Lemma ceil_div_bounds (a : Z) (b : positive) :
  0 <= a →
  (Js.ceil_div a (Z.pos b) - 1) * Z.pos b < a <= Js.ceil_div a (Z.pos b) * Z.pos b
  ∨ (a = 0 ∧ Js.ceil_div a (Z.pos b) = 0).
Proof.
  intros Ha. unfold Js.ceil_div.
  destruct (Z.eq_dec a 0) as [->|Hne].
  - right. split; [done|]. apply Z.div_small. lia.
  - left. Z.to_euclidean_division_equations. nia.
Qed.

Lemma concat_pages {A} (n k : nat) (l : list A) :
  (0 < n)%nat → (length l <= k * n)%nat →
  concat (map (λ i, take n (drop (i * n) l)) (seq 0 k)) = l.
Proof.
  intros Hn. revert l. induction k as [|k IH]; intros l Hl.
  - destruct l; [done|simpl in Hl; lia].
  - cbn [seq map concat]. cbn [Nat.mul drop].
    rewrite <- seq_shift, map_map.
    rewrite (map_ext _ (λ i, take n (drop (i * n) (drop n l)))).
    2:{ intros i. by rewrite drop_drop. }
    rewrite IH; [apply take_drop|]. rewrite length_drop. lia.
Qed.

(** X14. For [getKpiEntries] with a filter and a page size: every page gives
    the number of matching entries as [total] and holds at most [limit]
    entries; the pages 1 to [totalPages], one after the other, are exactly
    the matching entries in the order of the store; [hasNextPage] holds
    exactly when the next page is not empty, and [hasPreviousPage] exactly
    when the page is not the first. *)
Theorem entry_pages_tile_the_matches (filter : KpiEntry.t → bool)
  (limit : positive) (db : Db) :
  let listing := getKpiEntries filter in
  let matching := List.filter filter (tbl_kpi_entries db) in
  ∀ page r,
    listing page limit db = (db, inr r) →
    Paginated.total r = length matching
    ∧ (length (Paginated.docs r) <= Pos.to_nat limit)%nat
    ∧ concat (map (pageOf (λ p, listing p limit) db)
                (pagesUpTo (Paginated.totalPages r))) = matching
    ∧ (Paginated.hasNextPage r = true
       ↔ pageOf (λ p, listing p limit) db (page + 1) ≠ [])
    ∧ (Paginated.hasPreviousPage r = true ↔ page ≠ 1%positive).
Proof.
  intros listing matching page r. unfold listing, getKpiEntries, read.
  intros [= <-]. fold matching.
  cbn [Paginated.total Paginated.docs Paginated.totalPages Paginated.hasNextPage
       Paginated.hasPreviousPage].
  pose proof (ceil_div_bounds (Z.of_nat (length matching)) limit ltac:(lia)) as Hc.
  set (tp := Js.ceil_div (Z.of_nat (length matching)) (Z.pos limit)) in *.
  split; [done|]. split.
  { unfold skipLimit. rewrite length_take. lia. }
  split.
  { unfold pagesUpTo. rewrite map_map.
    etrans; [|apply (concat_pages (Pos.to_nat limit) (Z.to_nat tp) matching); lia].
    f_equal. rewrite <- seq_shift, map_map. apply map_ext_in.
    intros i Hi. unfold pageOf, read. cbn [Paginated.docs]. fold matching.
    unfold skipLimit. rewrite Nat2Pos.id by lia. do 3 f_equal. lia. }
  split.
  - unfold pageOf, read. cbn [Paginated.docs]. fold matching. unfold skipLimit.
    rewrite Z.ltb_lt.
    replace (Pos.to_nat (page + 1) - 1)%nat with (Pos.to_nat page) by lia.
    split.
    + intros Hlt H. apply (f_equal length) in H.
      rewrite length_take, length_drop in H. cbn [length] in H.
      assert (Z.of_nat (length matching) <= Z.pos page * Z.pos limit) by nia.
      nia.
    + intros Hne. destruct (Z.lt_ge_cases (Z.pos page) tp) as [|Hge]; [done|].
      destruct Hne. rewrite drop_ge; [by destruct (Pos.to_nat limit)|].
      assert (Z.of_nat (length matching) <= Z.pos page * Z.pos limit) by nia.
      nia.
  - rewrite Z.ltb_lt. lia.
Qed.

(** ** The scheduled jobs *)

Lemma filter_true {A} (p : A → bool) l :
  (∀ x, p x = true) → List.filter p l = l.
Proof.
  intros Hp. induction l as [|x l IH]; simpl; [done|]. by rewrite Hp, IH.
Qed.

Lemma getKpiTemplates_all db :
  KpiTemplateService.getKpiTemplates 1 1000 None "" "" db
  = (db, inr (Paginated.mk (scheduledTemplates db)
                (length (tbl_kpi_templates db)) 1 1000
                (Js.ceil_div (Z.of_nat (length (tbl_kpi_templates db))) 1000)
                (1 <? Js.ceil_div (Z.of_nat (length (tbl_kpi_templates db))) 1000)
                false)).
Proof.
  unfold KpiTemplateService.getKpiTemplates, read, scheduledTemplates, skipLimit.
  cbn [nonEmpty String.eqb negb andb].
  rewrite filter_true by done.
  replace (Pos.to_nat 1000) with 1000%nat by (by vm_compute).
  done.
Qed.

(** What a finalization, successful or not, does to the entries. *)
Lemma generateFinalReports_entries templateId month year generatedBy db db' o :
  uniqueIds db →
  generateFinalReports templateId month year generatedBy db = (db', o) →
  tbl_kpi_entries db' = map (finalized templateId month year) (tbl_kpi_entries db)
  ∧ tbl_kpi_templates db' = tbl_kpi_templates db
  ∧ tbl_members db' = tbl_members db.
Proof.
  intros Hu Hrun. destruct o as [ex|n].
  - revert Hrun.
    unfold generateFinalReports, mbind, M_bind, KpiEntryModel.find, read.
    set (q := λ e : KpiEntry.t, _).
    destruct (length (List.filter q (tbl_kpi_entries db)) =? 0)%nat eqn:E.
    + intros [= <- <-]. split; [|done].
      apply length_eqb_0 in E.
      symmetry. erewrite map_ext_in; [apply map_id|].
      intros e He. unfold finalized.
      destruct (ofTemplateAndPeriod templateId month year e) eqn:Hp; [|done].
      assert (q e = false) as Hq.
      { apply not_true_is_false. intros Hq.
        assert (In e (List.filter q (tbl_kpi_entries db))) as Hin
          by by apply filter_In.
        by rewrite E in Hin. }
      unfold q in Hq. unfold ofTemplateAndPeriod in Hp. rewrite Hp in Hq.
      cbn [andb] in Hq. apply orb_false_elim in Hq as [H1 H2].
      apply bool_decide_eq_false in H1, H2.
      destruct e as [? ? ? ? st ? ? ? ? ? ? ?]. cbn in *. by destruct st.
    + destruct (updateEach_spec (List.filter q (tbl_kpi_entries db)) db Hu)
        as (db1 & -> & _).
      unfold KpiAuditLogService.create, mret, M_ret. done.
  - by destruct (generateFinalReports_inr _ _ _ _ _ _ _ Hu Hrun)
      as (? & _ & _ & ? & ?).
Qed.

Lemma uniqueIds_map (f : KpiEntry.t → KpiEntry.t) db db' :
  (∀ e, KpiEntry._id (f e) = KpiEntry._id e) →
  tbl_kpi_entries db' = map f (tbl_kpi_entries db) →
  uniqueIds db → uniqueIds db'.
Proof.
  intros Hf Hes Hu. unfold uniqueIds in *. rewrite Hes, map_map.
  erewrite map_ext; [exact Hu|]. intros e. apply Hf.
Qed.

Lemma finalized_id templateId month year e :
  KpiEntry._id (finalized templateId month year e) = KpiEntry._id e.
Proof. unfold finalized. by destruct (ofTemplateAndPeriod _ _ _ _). Qed.

Lemma ofTemplateAndPeriod_setStatus t m y s e :
  ofTemplateAndPeriod t m y (setStatus s e) = ofTemplateAndPeriod t m y e.
Proof. done. Qed.

Lemma finalizeEach_spec month year generatedBy templates db :
  uniqueIds db →
  ∃ db',
    forEachTemplate
      (λ template,
         attempt (generateFinalReports (KpiTemplate._id template) month year
                    generatedBy)) templates db = (db', inr tt)
    ∧ tbl_kpi_entries db'
      = map (finalizedFor templates month year) (tbl_kpi_entries db)
    ∧ tbl_kpi_templates db' = tbl_kpi_templates db
    ∧ tbl_members db' = tbl_members db.
Proof.
  revert db. induction templates as [|t ts IH]; intros db Hu.
  - exists db. split; [done|]. split; [|done].
    symmetry. apply map_id.
  - cbn [forEachTemplate]. unfold mbind, M_bind, attempt at 1.
    destruct (generateFinalReports (KpiTemplate._id t) month year generatedBy db)
      as [db1 o] eqn:Hrun.
    destruct (generateFinalReports_entries _ _ _ _ _ _ _ Hu Hrun)
      as (Hes & Ht & Hm).
    destruct (IH db1) as (db' & Hloop & Hes' & Ht' & Hm').
    { eapply uniqueIds_map; [|exact Hes|exact Hu]. apply finalized_id. }
    exists db'. split; [done|]. split; [|split; congruence].
    rewrite Hes', Hes, map_map. apply map_ext. intros e.
    unfold finalizedFor, finalized. cbn [existsb].
    destruct (ofTemplateAndPeriod (KpiTemplate._id t) month year e) eqn:E;
      cbn [orb]; [|done].
    assert (∀ l, existsb (λ t0, ofTemplateAndPeriod (KpiTemplate._id t0) month year
                                  (setStatus generated e)) l
                 = existsb (λ t0, ofTemplateAndPeriod (KpiTemplate._id t0) month year
                                    e) l) as -> by done.
    by destruct (existsb _ ts).
Qed.

(** X15. The reports job, run at [now] on a store with unique ids, ends
    without an error whatever the single finalizations throw. Its period is
    the month before the current one (December of the year before, in
    January). Afterwards every entry of that period and of one of the
    scheduled templates is [generated] and every other entry is as it was;
    templates and members are unchanged. *)
Theorem reports_job_finalizes_the_month_before (now : Js.Date) (db : Db) :
  uniqueIds db →
  0 <= Js.getMonth now <= 11 →
  ∃ db' month year,
    monthlyReportsJob now db = (db', inr tt)
    ∧ 1 <= month <= 12
    ∧ 12 * year + month = 12 * Js.getFullYear now + (Js.getMonth now + 1) - 1
    ∧ tbl_kpi_entries db'
      = map (finalizedFor (scheduledTemplates db) month year) (tbl_kpi_entries db)
    ∧ tbl_kpi_templates db' = tbl_kpi_templates db
    ∧ tbl_members db' = tbl_members db.
Proof.
  intros Hu Hm.
  set (month := if Js.getMonth now =? 0 then 12 else Js.getMonth now).
  set (year := if Js.getMonth now =? 0 then Js.getFullYear now - 1
               else Js.getFullYear now).
  destruct (finalizeEach_spec month year "system" (scheduledTemplates db) db Hu)
    as (db' & Hloop & Hes & Ht & Hmem).
  exists db', month, year.
  split; [|split; [|split; [|done]]].
  - unfold monthlyReportsJob, attempt at 1.
    assert ((if Js.getMonth now =? 0 then (12, Js.getFullYear now - 1)
             else (Js.getMonth now, Js.getFullYear now)) = (month, year)) as ->.
    { unfold month, year. by destruct (Js.getMonth now =? 0). }
    unfold mbind, M_bind. rewrite getKpiTemplates_all. cbn [Paginated.docs].
    destruct (length (scheduledTemplates db) =? 0)%nat eqn:E.
    + apply length_eqb_0 in E. rewrite E in Hloop. cbn in Hloop.
      unfold mret, M_ret in *. by simplify_eq.
    + by rewrite Hloop.
  - unfold month. destruct (Z.eqb_spec (Js.getMonth now) 0); lia.
  - unfold month, year. destruct (Z.eqb_spec (Js.getMonth now) 0); lia.
Qed.

Ltac run_generation :=
  unfold generateDefaultKpiEntries, eligibleMembers, membersOf,
    KpiTemplateService.getKpiTemplate, MemberService.getMembers,
    KpiEntryModel.find, KpiEntryModel.insertMany, KpiAuditLogService.create,
    throw, read, mbind, M_bind, mret, M_ret.

(** A generation leaves templates and members alone and only ever appends
    entries. *)
Lemma generateDefaultKpiEntries_frame now templateId month year generatedBy
  db db' o :
  generateDefaultKpiEntries now templateId month year generatedBy db = (db', o) →
  tbl_kpi_templates db' = tbl_kpi_templates db
  ∧ tbl_members db' = tbl_members db
  ∧ ∃ extra, tbl_kpi_entries db' = tbl_kpi_entries db ++ extra.
Proof.
  destruct o as [ex|r]; intros Hrun.
  - apply generateDefaultKpiEntries_inl in Hrun as [-> _].
    repeat split. exists []. by rewrite app_nil_r.
  - destruct (generateDefaultKpiEntries_success _ _ _ _ _ _ _ _ Hrun)
      as (_ & _ & _ & _ & _ & Ht & Hm & He).
    repeat split; [done..|]. by eexists.
Qed.

Lemma settled_stores_nothing now templateId month year generatedBy db db' o :
  settled templateId month year generatedBy db →
  generateDefaultKpiEntries now templateId month year generatedBy db = (db', o) →
  tbl_kpi_entries db' = tbl_kpi_entries db.
Proof.
  unfold settled. run_generation.
  destruct (List.find _ (tbl_kpi_templates db)) as [template|];
    [|by intros _ [= <- <-]].
  cbv zeta. set (members := filterExcludedMembers _).
  destruct (List.filter (existingEntriesQuery templateId month year members)
              (tbl_kpi_entries db)) as [|e0 es] eqn:E.
  - cbn [length Nat.ltb Nat.leb].
    intros [H|[H|H]]; [done| |].
    + rewrite H. by intros [= <- <-].
    + rewrite H. cbn. intros [= <- <-]. cbn. by rewrite app_nil_r.
  - intros _ [= <- <-]. done.
Qed.

Lemma settled_stable templateId month year generatedBy db db' extra :
  tbl_kpi_templates db' = tbl_kpi_templates db →
  tbl_members db' = tbl_members db →
  tbl_kpi_entries db' = tbl_kpi_entries db ++ extra →
  settled templateId month year generatedBy db →
  settled templateId month year generatedBy db'.
Proof.
  intros Ht Hm He. unfold settled, eligibleMembers, membersOf,
    MemberService.getMembers, read. rewrite Ht, Hm, He.
  destruct (List.find _ (tbl_kpi_templates db)) as [template|]; [|done].
  cbv zeta. intros [H|[H|H]]; auto.
  left. rewrite List.filter_app. intros Happ. apply app_eq_nil in Happ as [? _]. done.
Qed.

Lemma generation_settles now templateId month year generatedBy db db' o :
  inCreationWindow now month year →
  generateDefaultKpiEntries now templateId month year generatedBy db = (db', o) →
  settled templateId month year generatedBy db'.
Proof.
  intros Hwin Hrun. destruct o as [ex|r].
  - revert Hrun. unfold settled. run_generation.
    destruct (List.find _ (tbl_kpi_templates db)) as [template|] eqn:Ht.
    2:{ intros [= <- <-]. by rewrite Ht. }
    cbv zeta. set (members := filterExcludedMembers _).
    destruct (List.filter (existingEntriesQuery templateId month year members)
                (tbl_kpi_entries db)) as [|e0 es] eqn:E.
    + cbn [length Nat.ltb Nat.leb].
      destruct (forallb _ _) eqn:Hv; [done|].
      intros [= <- <-]. rewrite Ht. cbv zeta. fold members. auto.
    + intros [= <- <-]. rewrite Ht. cbv zeta. fold members. left. by rewrite E.
  - destruct (generateDefaultKpiEntries_success _ _ _ _ _ _ _ _ Hrun)
      as (template & Ht & He & Hc & _ & Htpl & Hmem & Hdb).
    assert (eligibleMembers db' template = eligibleMembers db template) as Hel.
    { unfold eligibleMembers, membersOf, MemberService.getMembers, read.
      by rewrite Hmem. }
    unfold settled. rewrite Htpl.
    unfold KpiTemplateService.getKpiTemplate, read in Ht.
    assert (List.find (λ t, String.eqb (KpiTemplate._id t) templateId)
              (tbl_kpi_templates db) = Some template) as -> by congruence.
    cbv zeta. rewrite Hel.
    destruct (eligibleMembers db template) as [|member ms] eqn:Hms; [auto|].
    left.
    destruct (defaultEntriesFor_head templateId month year generatedBy member)
      as (d & rest & Hd & _).
    intros Hnil.
    assert (In (KpiEntryModel.store now (nextObjectId db) d)
              (List.filter
                 (existingEntriesQuery templateId month year (member :: ms))
                 (tbl_kpi_entries db'))) as Hin; [|by rewrite Hnil in Hin].
    apply filter_In. split.
    + rewrite Hdb, He. apply in_or_app. right.
      cbn [flat_map]. rewrite Hd. by left.
    + eapply stored_default_entry_matches; [done|by left|].
      rewrite Hd. by left.
Qed.

Lemma entriesLoop_frame now month year templates db :
  ∃ db' extra,
    forEachTemplate
      (λ template,
         attempt (generateDefaultKpiEntries now (KpiTemplate._id template)
                    month year "system")) templates db = (db', inr tt)
    ∧ tbl_kpi_templates db' = tbl_kpi_templates db
    ∧ tbl_members db' = tbl_members db
    ∧ tbl_kpi_entries db' = tbl_kpi_entries db ++ extra.
Proof.
  revert db. induction templates as [|t ts IH]; intros db.
  - exists db, []. by rewrite app_nil_r.
  - cbn [forEachTemplate]. unfold mbind, M_bind, attempt at 1.
    destruct (generateDefaultKpiEntries _ _ _ _ _ db) as [db1 o] eqn:Hrun.
    destruct (generateDefaultKpiEntries_frame _ _ _ _ _ _ _ _ Hrun)
      as (Ht & Hm & extra1 & He).
    destruct (IH db1) as (db' & extra & Hloop & Ht' & Hm' & He').
    exists db', (extra1 ++ extra). split; [done|].
    split; [congruence|]. split; [congruence|].
    by rewrite He', He, <- app_assoc.
Qed.

Lemma entriesLoop_settles now month year templates db db' :
  inCreationWindow now month year →
  forEachTemplate
    (λ template,
       attempt (generateDefaultKpiEntries now (KpiTemplate._id template)
                  month year "system")) templates db = (db', inr tt) →
  ∀ t, In t templates → settled (KpiTemplate._id t) month year "system" db'.
Proof.
  intros Hwin. revert db. induction templates as [|t ts IH]; intros db; [done|].
  cbn [forEachTemplate]. unfold mbind, M_bind, attempt at 1.
  destruct (generateDefaultKpiEntries _ _ _ _ _ db) as [db1 o] eqn:Hrun.
  intros Hloop t' [<-|Hin]; [|by eapply IH].
  destruct (entriesLoop_frame now month year ts db1)
    as (db'' & extra & Hloop' & Ht & Hm & He).
  assert (db'' = db') as -> by congruence.
  eapply settled_stable; [done..|]. by eapply generation_settles.
Qed.

Lemma entriesLoop_settled now month year templates db :
  (∀ t, In t templates → settled (KpiTemplate._id t) month year "system" db) →
  ∃ db',
    forEachTemplate
      (λ template,
         attempt (generateDefaultKpiEntries now (KpiTemplate._id template)
                    month year "system")) templates db = (db', inr tt)
    ∧ tbl_kpi_entries db' = tbl_kpi_entries db.
Proof.
  revert db. induction templates as [|t ts IH]; intros db Hall.
  - by exists db.
  - cbn [forEachTemplate]. unfold mbind, M_bind, attempt at 1.
    destruct (generateDefaultKpiEntries _ _ _ _ _ db) as [db1 o] eqn:Hrun.
    destruct (generateDefaultKpiEntries_frame _ _ _ _ _ _ _ _ Hrun)
      as (Ht & Hm & _).
    pose proof (settled_stores_nothing _ _ _ _ _ _ _ _
                  (Hall t ltac:(by left)) Hrun) as He.
    destruct (IH db1) as (db' & Hloop & He').
    { intros t' Hin. eapply (settled_stable _ _ _ _ db db1 []); [done..| |].
      - by rewrite app_nil_r.
      - apply Hall. by right. }
    exists db'. split; [done|]. congruence.
Qed.

(** X16. On a day on which entries of the current month may be created, the
    entries job ends without an error, and a second run in the same month,
    on the store the first run left, ends without an error too and stores
    nothing: the entries after it are those after the first run. *)
Theorem entries_job_is_idempotent (now now' : Js.Date) (db : Db) :
  inCreationWindow now (Js.getMonth now + 1) (Js.getFullYear now) →
  Js.getMonth now' = Js.getMonth now →
  Js.getFullYear now' = Js.getFullYear now →
  ∃ db1 db2,
    monthlyEntriesJob now db = (db1, inr tt)
    ∧ monthlyEntriesJob now' db1 = (db2, inr tt)
    ∧ tbl_kpi_entries db2 = tbl_kpi_entries db1.
Proof.
  intros Hwin Hm Hy.
  set (month := Js.getMonth now + 1) in *. set (year := Js.getFullYear now) in *.
  destruct (entriesLoop_frame now month year (scheduledTemplates db) db)
    as (db1 & extra & Hloop & Ht & Hmem & He).
  pose proof (entriesLoop_settles now month year _ _ _ Hwin Hloop) as Hset.
  assert (scheduledTemplates db1 = scheduledTemplates db) as Hsame
    by (unfold scheduledTemplates; by rewrite Ht).
  destruct (entriesLoop_settled now' month year (scheduledTemplates db1) db1)
    as (db2 & Hloop2 & He2); [by rewrite Hsame|].
  exists db1, db2. split; [|split; [|done]].
  - unfold monthlyEntriesJob, attempt at 1, mbind, M_bind.
    rewrite getKpiTemplates_all. cbn [Paginated.docs].
    destruct (length (scheduledTemplates db) =? 0)%nat eqn:E.
    + apply length_eqb_0 in E. rewrite E in Hloop. cbn in Hloop.
      unfold mret, M_ret in *. by simplify_eq.
    + fold month year. by rewrite Hloop.
  - unfold monthlyEntriesJob, attempt at 1, mbind, M_bind.
    rewrite getKpiTemplates_all. cbn [Paginated.docs]. rewrite Hm, Hy.
    destruct (length (scheduledTemplates db1) =? 0)%nat eqn:E.
    + apply length_eqb_0 in E. rewrite E in Hloop2. cbn in Hloop2.
      unfold mret, M_ret in *. by simplify_eq.
    + fold month year. by rewrite Hloop2.
Qed.

(** ** The listing of a member's entries *)

Lemma Date_leb_spec a b :
  Js.Date_leb a b = true
  ↔ Js.getFullYear a < Js.getFullYear b
    ∨ (Js.getFullYear a = Js.getFullYear b
       ∧ (Js.getMonth a < Js.getMonth b
          ∨ (Js.getMonth a = Js.getMonth b
             ∧ (Js.getDate a < Js.getDate b
                ∨ (Js.getDate a = Js.getDate b ∧ Js.msOfDay a <= Js.msOfDay b))))).
Proof.
  unfold Js.Date_leb.
  destruct (Z.ltb_spec (Js.getFullYear a) (Js.getFullYear b)); [split; auto|].
  destruct (Z.ltb_spec (Js.getFullYear b) (Js.getFullYear a)); [split; [done|lia]|].
  destruct (Z.ltb_spec (Js.getMonth a) (Js.getMonth b)); [split; [lia|done]|].
  destruct (Z.ltb_spec (Js.getMonth b) (Js.getMonth a)); [split; [done|lia]|].
  destruct (Z.ltb_spec (Js.getDate a) (Js.getDate b)); [split; [lia|done]|].
  destruct (Z.ltb_spec (Js.getDate b) (Js.getDate a)); [split; [done|lia]|].
  rewrite Z.leb_le. lia.
Qed.

Lemma Date_leb_total a b : Js.Date_leb a b = true ∨ Js.Date_leb b a = true.
Proof. rewrite !Date_leb_spec. lia. Qed.

Lemma Date_leb_trans a b c :
  Js.Date_leb a b = true → Js.Date_leb b c = true → Js.Date_leb a c = true.
Proof. rewrite !Date_leb_spec. lia. Qed.

Lemma before_byNewestFirst a b : before byNewestFirst a b ↔ noOlderThan a b.
Proof.
  unfold before, byNewestFirst, noOlderThan.
  destruct (Date_leb_total (KpiEntry.createdAt a) (KpiEntry.createdAt b)) as [H|H].
  - rewrite H.
    destruct (Js.Date_leb (KpiEntry.createdAt b) (KpiEntry.createdAt a));
      split; try done; lra.
  - rewrite H.
    destruct (Js.Date_leb (KpiEntry.createdAt a) (KpiEntry.createdAt b));
      split; try done; lra.
Qed.

Lemma StronglySorted_take {A} (R : relation A) n l :
  StronglySorted R l → StronglySorted R (take n l).
Proof.
  intros Hs. revert n. induction Hs as [|x l Hs IH Hx]; intros [|n]; simpl;
    try constructor; auto.
  rewrite List.Forall_forall in Hx |- *. intros y Hy. apply Hx.
  by apply In_take in Hy.
Qed.

Lemma StronglySorted_drop {A} (R : relation A) n l :
  StronglySorted R l → StronglySorted R (drop n l).
Proof.
  intros Hs. revert n. induction Hs as [|x l Hs IH Hx]; intros [|n]; simpl;
    try constructor; auto.
Qed.

Lemma In_drop {A} n (l : list A) x : In x (drop n l) → In x l.
Proof.
  revert n. induction l as [|y l IH]; intros [|n]; simpl; try done.
  intros H. right. eauto.
Qed.

(** X17. Every entry [getKpiEntriesByUser] returns is a stored entry that
    meets each condition whose argument was given (a non-empty string, a
    number other than 0): the member, the status, the jurisdiction (one of
    the entry's), the month, the year and the template. The page is in the
    order newest first and holds at most [limit] entries. *)
Theorem user_listing_matches_its_filters (userId : option string)
  (month year : option Z) (templateId jurisdiction status : option string)
  (page limit : positive) (db : Db) (r : Paginated.t KpiEntry.t) :
  getKpiEntriesByUser userId month year templateId jurisdiction status page limit
    db = (db, inr r) →
  (∀ e, In e (Paginated.docs r) →
     In e (tbl_kpi_entries db)
     ∧ (∀ u, userId = Some u → u ≠ "" → KpiEntry.createdFor e = u)
     ∧ (∀ s, status = Some s → s ≠ "" → statusName (KpiEntry.status e) = s)
     ∧ (∀ j, jurisdiction = Some j → j ≠ "" → In j (KpiEntry.jurisdiction e))
     ∧ (∀ m, month = Some m → m ≠ 0 → KpiEntry.month e = m)
     ∧ (∀ y, year = Some y → y ≠ 0 → KpiEntry.year e = y)
     ∧ (∀ t, templateId = Some t → t ≠ "" → KpiEntry.kpiTemplateId e = t))
  ∧ StronglySorted noOlderThan (Paginated.docs r)
  ∧ (length (Paginated.docs r) <= Pos.to_nat limit)%nat.
Proof.
  unfold getKpiEntriesByUser, read. intros [= <-]. cbn [Paginated.docs].
  set (filter := λ e : KpiEntry.t, _).
  split; [|split].
  - intros e He. unfold skipLimit in He.
    apply In_take, In_drop, Array_sort_In, filter_In in He as [Hin Hf].
    split; [done|]. unfold filter in Hf.
    repeat (apply andb_prop in Hf as [Hf ?]).
    unfold whenGiven, nonEmpty in *.
    repeat split.
    + intros u -> Hu. apply String.eqb_neq in Hu. rewrite Hu in *. cbn in *.
      by apply String.eqb_eq.
    + intros s -> Hs. apply String.eqb_neq in Hs. rewrite Hs in *. cbn in *.
      by apply String.eqb_eq.
    + intros j -> Hj. apply String.eqb_neq in Hj. rewrite Hj in *. cbn in *.
      match goal with
      | H : existsb _ _ = true |- _ =>
          apply existsb_exists in H as (j' & Hj' & ->%String.eqb_eq)
      end. done.
    + intros m -> Hm. apply Z.eqb_neq in Hm. rewrite Hm in *. cbn in *. lia.
    + intros y -> Hy. apply Z.eqb_neq in Hy. rewrite Hy in *. cbn in *. lia.
    + intros t -> Ht. apply String.eqb_neq in Ht. rewrite Ht in *. cbn in *.
      by apply String.eqb_eq.
  - unfold skipLimit. apply StronglySorted_take, StronglySorted_drop.
    eapply StronglySorted_mono; [intros a b; apply before_byNewestFirst|].
    apply (Array_sort_StronglySorted byNewestFirst (λ _, True)).
    + intros a b _ _. rewrite !before_byNewestFirst. unfold noOlderThan.
      destruct (Date_leb_total (KpiEntry.createdAt a) (KpiEntry.createdAt b));
        auto.
    + intros a b c _ _ _. rewrite !before_byNewestFirst. unfold noOlderThan.
      intros H1 H2. by eapply Date_leb_trans.
    + by apply List.Forall_forall.
  - unfold skipLimit. rewrite length_take. lia.
Qed.

(** ** The references of a member *)

(** X18. [hasMultipleKpiRefs] holds for a member exactly when
    [getMemberKpiRefs] returns more than one reference, and
    [getMemberJurisdictions] returns the same references. *)
Theorem multiple_references_means_more_than_one (member : MemberDocument.t) :
  hasMultipleKpiRefs member = (1 <? length (getMemberKpiRefs member))%nat
  ∧ getMemberJurisdictions member = getMemberKpiRefs member.
Proof.
  split; [|done]. unfold hasMultipleKpiRefs, getMemberKpiRefs.
  destruct (negb (Any.truthy (MemberDocument.metadata member))); [done|].
  cbv zeta.
  destruct (Any.isArray (default Any.undefined
              (Any.get (MemberDocument.metadata member) "kpirefs"))); [done|].
  destruct (fallbackField (MemberDocument.role member)) as [key|]; [|done].
  by destruct (Any.isArray _).
Qed.

Ltac lookups :=
  repeat first
    [ rewrite lookup_insert_eq
    | rewrite lookup_insert_ne by done
    | rewrite lookup_empty
    | progress cbn [default from_option id Any.get Any.isArray Any.items
                    Any.truthy mbind option_bind fmap option_fmap option_map
                    andb orb negb mret option_ret option_list app]
    | match goal with H : Any.truthy _ = _ |- _ => rewrite H end ].

Lemma adaptReferences_result withTehsil key metadata adapted :
  MemberService.adaptReferences withTehsil key metadata
    (<["isMultipleKPIRef" := Any.boolean false]> (<["kpirefs" := Any.array []]> ∅))
  = Some adapted →
  key = "ri-circle" ∨ key = "courts" ∨ key = "halka" →
  ∃ tehsil refs,
    adapted = referencesObject key tehsil refs
    ∧ (∀ t, tehsil = Some t →
            withTehsil = true ∧ Any.truthy t = true
            ∧ Any.get metadata "tehsil" = Some t)
    ∧ (tehsil = None → withTehsil = true →
       ∃ t, Any.get metadata "tehsil" = Some t ∧ Any.truthy t = false)
    ∧ match refs with
      | Some items => Any.get metadata key = Some (Any.array items)
      | None => ∃ v, Any.get metadata key = Some v ∧ Any.isArray v = false
      end.
Proof.
  intros Hrun Hkey. revert Hrun. unfold MemberService.adaptReferences.
  assert (Any.get metadata "tehsil" = None ∧ Any.get metadata key = None
          ∨ ∃ tehsil field, Any.get metadata "tehsil" = Some tehsil
                            ∧ Any.get metadata key = Some field) as [[-> ->]|Hg].
  { destruct metadata; cbn; eauto. }
  { by destruct withTehsil. }
  destruct Hg as (tehsil & field & -> & ->).
  assert (∃ t : option Any.t,
            (if withTehsil then
               Some (if Any.truthy tehsil
                     then <["tehsil" := tehsil]>
                            (<["isMultipleKPIRef" := Any.boolean false]>
                               (<["kpirefs" := Any.array []]> ∅))
                     else <["isMultipleKPIRef" := Any.boolean false]>
                            (<["kpirefs" := Any.array []]> ∅))
             else Some (<["isMultipleKPIRef" := Any.boolean false]>
                          (<["kpirefs" := Any.array []]> ∅)))
            = Some (referencesObject key t None)
            ∧ (∀ t', t = Some t' →
                 withTehsil = true ∧ Any.truthy t' = true ∧ tehsil = t')
            ∧ (t = None → withTehsil = true → Any.truthy tehsil = false))
    as (t & Ht & Hsome & Hnone).
  { destruct withTehsil; [destruct (Any.truthy tehsil) eqn:E|].
    - exists (Some tehsil). split; [done|]. split; [|done]. by intros ? [= <-].
    - exists None. done.
    - exists None. done. }
  cbn [mbind option_bind]. rewrite Ht. cbn [mbind option_bind]. clear Ht.
  assert (Any.isArray field = false ∨ ∃ items, field = Any.array items)
    as [Hna|[items ->]].
  { destruct field; eauto. }
  - rewrite Hna, andb_false_r. intros Hrun. exists t, None.
    split; [|split; [|split]].
    + revert Hrun. unfold referencesObject.
      destruct t as [t|]; destruct Hkey as [->|[->| ->]]; lookups;
        try rewrite andb_false_r; cbn [Nat.ltb Nat.leb length]; by intros [= <-].
    + intros t' Ht'. destruct (Hsome t' Ht') as (? & ? & ->). done.
    + intros Ht' Hw. exists tehsil. split; [done|]. by apply Hnone.
    + by exists field.
  - cbn [Any.truthy Any.isArray andb]. intros Hrun. exists t, (Some items).
    split; [|split; [|split]].
    + revert Hrun. unfold referencesObject.
      destruct t as [t|].
      * destruct (Hsome t eq_refl) as (-> & Htr & ->).
        destruct items as [|x items]; destruct Hkey as [->|[->| ->]]; lookups;
          cbn [Nat.ltb Nat.leb length]; by intros [= <-].
      * destruct items as [|x items]; destruct Hkey as [->|[->| ->]]; lookups;
          try rewrite andb_false_r; cbn [Nat.ltb Nat.leb length];
          by intros [= <-].
    + intros t' Ht'. destruct (Hsome t' Ht') as (? & ? & ->). done.
    + intros Ht' Hw. exists tehsil. split; [done|]. by apply Hnone.
    + done.
Qed.

Lemma adaptReferences_again withTehsil key tehsil refs :
  key = "ri-circle" ∨ key = "courts" ∨ key = "halka" →
  (∀ t, tehsil = Some t → withTehsil = true ∧ Any.truthy t = true) →
  MemberService.adaptReferences withTehsil key (Any.object (referencesObject key tehsil refs))
    (<["isMultipleKPIRef" := Any.boolean false]> (<["kpirefs" := Any.array []]> ∅))
  = Some (referencesObject key tehsil refs).
Proof.
  intros Hkey Ht. unfold MemberService.adaptReferences, referencesObject.
  destruct tehsil as [t|].
  - destruct (Ht t eq_refl) as [-> Htr].
    destruct refs as [[|x items]|]; destruct Hkey as [->|[->| ->]]; lookups;
      cbn [Nat.ltb Nat.leb length]; done.
  - destruct withTehsil;
      destruct refs as [[|x items]|]; destruct Hkey as [->|[->| ->]]; lookups;
      cbn [Nat.ltb Nat.leb length]; done.
Qed.

(** X19. [validateAndAdaptMetadata] is idempotent: adapting, for the same
    role, metadata it has returned returns them unchanged. *)
Theorem adapting_stored_metadata_changes_nothing (role : string)
  (metadata adapted : Any.t) :
  MemberService.validateAndAdaptMetadata role metadata = Some adapted →
  MemberService.validateAndAdaptMetadata role adapted = Some adapted.
Proof.
  unfold MemberService.validateAndAdaptMetadata. cbv zeta.
  destruct (String.eqb role "ri") eqn:Eri.
  { destruct (MemberService.adaptReferences true "ri-circle" metadata _) as [a|] eqn:E; [|done].
    intros [= <-].
    destruct (adaptReferences_result _ _ _ _ E) as (t & refs & -> & Ht & _);
      [auto|].
    rewrite adaptReferences_again; [done|auto|].
    intros t' Ht'. by destruct (Ht t' Ht') as (? & ? & _). }
  destruct (String.eqb role "tehsildar") eqn:Ete.
  { destruct (MemberService.adaptReferences false "courts" metadata _) as [a|] eqn:E; [|done].
    intros [= <-].
    destruct (adaptReferences_result _ _ _ _ E) as (t & refs & -> & Ht & _);
      [auto|].
    rewrite adaptReferences_again; [done|auto|].
    intros t' Ht'. by destruct (Ht t' Ht') as (? & ? & _). }
  destruct (String.eqb role "patwari") eqn:Epa.
  { destruct (MemberService.adaptReferences true "halka" metadata _) as [a|] eqn:E; [|done].
    intros [= <-].
    destruct (adaptReferences_result _ _ _ _ E) as (t & refs & -> & Ht & _);
      [auto|].
    rewrite adaptReferences_again; [done|auto|].
    intros t' Ht'. by destruct (Ht t' Ht') as (? & ? & _). }
  destruct (String.eqb role "sdm" || MemberService.isOfficerRole role); [done|].
  assert (Any.get metadata "kpirefs" = None
          ∨ ∃ k i j, Any.get metadata "kpirefs" = Some k
                     ∧ Any.get metadata "isMultipleKPIRef" = Some i
                     ∧ Any.get metadata "jurisdiction" = Some j)
    as [->|(k & i & j & -> & -> & ->)].
  { destruct metadata; cbn; eauto 10. }
  { done. }
  cbn [mbind option_bind fmap option_fmap option_map].
  intros [= <-]. unfold Any.or.
  destruct (Any.truthy j) eqn:Hj, (Any.truthy k) eqn:Hk, (Any.truthy i) eqn:Hi;
    lookups; done.
Qed.

Lemma referencesObject_fields key tehsil refs :
  key = "ri-circle" ∨ key = "courts" ∨ key = "halka" →
  let adapted := Any.object (referencesObject key tehsil refs) in
  let items := default [] refs in
  fieldOf adapted "kpirefs" = Any.array items
  ∧ fieldOf adapted "isMultipleKPIRef" = Any.boolean (1 <? length items)%nat
  ∧ fieldOf adapted "tehsil" = default Any.undefined tehsil
  ∧ (items = [] → fieldOf adapted "jurisdiction" = Any.undefined)
  ∧ (items ≠ [] →
     fieldOf adapted "jurisdiction" = Any.array (option_list tehsil ++ items)).
Proof.
  intros Hkey. unfold fieldOf, referencesObject.
  destruct tehsil as [t|], refs as [[|x items]|];
    destruct Hkey as [->|[->| ->]]; lookups; done.
Qed.

Lemma read_back userId departmentSlug role adapted items :
  fieldOf adapted "kpirefs" = Any.array items →
  Any.truthy adapted = true →
  let member := MemberDocument.mk userId departmentSlug role adapted in
  getMemberKpiRefs member = items
  ∧ hasMultipleKpiRefs member = (1 <? length items)%nat.
Proof.
  unfold fieldOf, getMemberKpiRefs, hasMultipleKpiRefs.
  cbn [MemberDocument.metadata MemberDocument.role]. by intros -> ->.
Qed.

(** X20. For the roles ri, tehsildar, patwari, sdm and the officer roles, the
    metadata [validateAndAdaptMetadata] returns carry an array [kpirefs] and
    the flag [isMultipleKPIRef], which tells whether there is more than one
    reference, and [getMemberKpiRefs] and [hasMultipleKpiRefs] read back
    exactly these from a member with these metadata. Without references
    there is no [jurisdiction]; with references it is the references, after
    the tehsil where that is put first. *)
Theorem adapted_references_are_read_back (role : string)
  (metadata adapted : Any.t) (userId departmentSlug : string) :
  adaptedRole role →
  MemberService.validateAndAdaptMetadata role metadata = Some adapted →
  let member := MemberDocument.mk userId departmentSlug role adapted in
  ∃ refs,
    fieldOf adapted "kpirefs" = Any.array refs
    ∧ fieldOf adapted "isMultipleKPIRef" = Any.boolean (1 <? length refs)%nat
    ∧ getMemberKpiRefs member = refs
    ∧ hasMultipleKpiRefs member = (1 <? length refs)%nat
    ∧ (refs = [] → fieldOf adapted "jurisdiction" = Any.undefined)
    ∧ (refs ≠ [] →
       fieldOf adapted "jurisdiction" = Any.array refs
       ∨ (Any.truthy (fieldOf adapted "tehsil") = true
          ∧ fieldOf adapted "jurisdiction"
            = Any.array (fieldOf adapted "tehsil" :: refs))).
Proof.
  intros Hrole. unfold MemberService.validateAndAdaptMetadata. cbv zeta.
  assert (∀ withTehsil key a,
            key = "ri-circle" ∨ key = "courts" ∨ key = "halka" →
            MemberService.adaptReferences withTehsil key metadata
              (<["isMultipleKPIRef" := Any.boolean false]>
                 (<["kpirefs" := Any.array []]> ∅)) = Some a →
            ∃ refs,
              fieldOf (Any.object a) "kpirefs" = Any.array refs
              ∧ fieldOf (Any.object a) "isMultipleKPIRef"
                = Any.boolean (1 <? length refs)%nat
              ∧ getMemberKpiRefs
                  (MemberDocument.mk userId departmentSlug role (Any.object a))
                = refs
              ∧ hasMultipleKpiRefs
                  (MemberDocument.mk userId departmentSlug role (Any.object a))
                = (1 <? length refs)%nat
              ∧ (refs = [] → fieldOf (Any.object a) "jurisdiction" = Any.undefined)
              ∧ (refs ≠ [] →
                 fieldOf (Any.object a) "jurisdiction" = Any.array refs
                 ∨ (Any.truthy (fieldOf (Any.object a) "tehsil") = true
                    ∧ fieldOf (Any.object a) "jurisdiction"
                      = Any.array (fieldOf (Any.object a) "tehsil" :: refs))))
    as Hcase.
  { intros withTehsil key a Hkey E.
    destruct (adaptReferences_result _ _ _ _ E Hkey) as (t & refs & -> & Ht & _).
    destruct (referencesObject_fields key t refs Hkey)
      as (Hk & Hm & Hte & Hj0 & Hj1).
    exists (default [] refs).
    destruct (read_back userId departmentSlug role _ _ Hk eq_refl) as [Hg Hh].
    repeat (split; [done|]).
    intros Hne. rewrite (Hj1 Hne), Hte. destruct t as [t|]; [|by left].
    right. destruct (Ht t eq_refl) as (_ & Htr & _). done. }
  destruct (String.eqb role "ri") eqn:Eri.
  { destruct (MemberService.adaptReferences true "ri-circle" metadata _) as [a|] eqn:E; [|done].
    intros [= <-]. eapply Hcase; [|exact E]. auto. }
  destruct (String.eqb role "tehsildar") eqn:Ete.
  { destruct (MemberService.adaptReferences false "courts" metadata _) as [a|] eqn:E; [|done].
    intros [= <-]. eapply Hcase; [|exact E]. auto. }
  destruct (String.eqb role "patwari") eqn:Epa.
  { destruct (MemberService.adaptReferences true "halka" metadata _) as [a|] eqn:E; [|done].
    intros [= <-]. eapply Hcase; [|exact E]. auto. }
  assert (String.eqb role "sdm" || MemberService.isOfficerRole role = true) as ->.
  { destruct Hrole as [->|[->|[->|[->|H]]]]; try done.
    rewrite H. apply orb_true_r. }
  cbn [fmap option_fmap option_map]. intros [= <-]. exists [].
  unfold fieldOf, getMemberKpiRefs, hasMultipleKpiRefs.
  cbn [MemberDocument.metadata MemberDocument.role]. lookups.
  repeat split; done.
Qed.

Lemma referencesObject_key key tehsil items :
  key = "ri-circle" ∨ key = "courts" ∨ key = "halka" →
  fieldOf (Any.object (referencesObject key tehsil (Some items))) key
  = Any.array items.
Proof.
  intros Hkey. unfold fieldOf, referencesObject.
  destruct tehsil as [t|], items as [|x items];
    destruct Hkey as [->|[->| ->]]; lookups; done.
Qed.

Lemma adaptReferences_returns withTehsil key metadata v a0 :
  Any.get metadata key = Some v →
  ∃ a, MemberService.adaptReferences withTehsil key metadata a0 = Some a.
Proof.
  intros Hget. unfold MemberService.adaptReferences.
  assert (∃ t, Any.get metadata "tehsil" = Some t) as [t ->].
  { destruct metadata; cbn in *; eauto; done. }
  rewrite Hget. destruct withTehsil; cbn [mbind option_bind]; eauto.
Qed.

(** X21. For the roles ri, tehsildar and patwari: when [validateRoleMetadata]
    accepts metadata whose reference field ([ri-circle], [courts], [halka])
    is given, that field is a non-empty array, and
    [validateAndAdaptMetadata] adopts it: [kpirefs] and the reference field
    of the result are that array, and [jurisdiction] ends with it. *)
Theorem valid_references_are_adopted (role key : string)
  (metadata v : Any.t) (res : MemberService.RoleValidation.t) :
  referenceKey role = Some key →
  MemberService.validateRoleMetadata role metadata = Some res →
  MemberService.RoleValidation.isValid res = true →
  Any.get metadata key = Some v →
  Any.truthy v = true →
  ∃ items adapted,
    v = Any.array items ∧ items ≠ []
    ∧ MemberService.validateAndAdaptMetadata role metadata = Some adapted
    ∧ fieldOf adapted "kpirefs" = Any.array items
    ∧ fieldOf adapted key = Any.array items
    ∧ ∃ head, fieldOf adapted "jurisdiction" = Any.array (head ++ items).
Proof.
  intros Hkey Hval Hok Hget Htr.
  assert (key = "ri-circle" ∨ key = "courts" ∨ key = "halka") as Hk.
  { unfold referenceKey in Hkey.
    repeat (case_match; simplify_eq); auto. }
  assert (MemberService.fieldErrors key role metadata = Some (MemberService.RoleValidation.errors res)
          ∧ ∃ withTehsil,
              MemberService.validateAndAdaptMetadata role metadata
              = Any.object <$>
                  MemberService.adaptReferences withTehsil key metadata
                    (<["isMultipleKPIRef" := Any.boolean false]>
                       (<["kpirefs" := Any.array []]> ∅))) as [Herr [w Hadapt]].
  { revert Hval Hkey. unfold MemberService.validateRoleMetadata, MemberService.validateAndAdaptMetadata,
      referenceKey. cbv zeta.
    destruct (String.eqb role "ri"); [|destruct (String.eqb role "tehsildar");
      [|destruct (String.eqb role "patwari"); [|done]]];
      intros Hval [= <-];
      (destruct (MemberService.fieldErrors _ role metadata) as [errs|]; [|done]);
      cbn [mbind option_bind] in Hval; simplify_eq;
      (split; [done|]); eexists; reflexivity. }
  assert (∃ items, v = Any.array items ∧ items ≠ []) as (items & -> & Hne).
  { revert Herr. unfold MemberService.fieldErrors. rewrite Hget. cbn [mbind option_bind].
    rewrite Htr. cbn [andb]. intros [= Herr].
    assert (MemberService.RoleValidation.errors res = []) as Hnil.
    { revert Hok Hval. unfold MemberService.validateRoleMetadata.
      destruct (if String.eqb role "ri" then _ else _) as [errs|]; [|done].
      cbn. intros Hok [= <-]. cbn in *. by apply length_eqb_0. }
    rewrite Hnil in Herr.
    apply app_eq_nil in Herr as [H1 H2].
    destruct v as [| | | | |items|]; try done.
    exists items. split; [done|]. intros ->. done. }
  destruct (adaptReferences_returns w key metadata _
              (<["isMultipleKPIRef" := Any.boolean false]>
                 (<["kpirefs" := Any.array []]> ∅)) Hget) as [a Ha].
  destruct (adaptReferences_result _ _ _ _ Ha Hk) as (t & refs & -> & _ & _ & Hr).
  destruct refs as [items'|].
  2:{ destruct Hr as (v' & Hv' & Hna). rewrite Hget in Hv'. by simplify_eq. }
  rewrite Hget in Hr. simplify_eq.
  destruct (referencesObject_fields key t (Some items') Hk)
    as (Hkp & _ & _ & _ & Hj).
  exists items', (Any.object (referencesObject key t (Some items'))).
  split; [done|]. split; [done|]. split; [by rewrite Hadapt, Ha|].
  split; [done|]. split; [by apply referencesObject_key|].
  exists (option_list t). by apply Hj.
Qed.

(** ** The rows of a listing *)

Lemma filterExcludedMembers_In member members :
  In member (filterExcludedMembers members) →
  In member members
  ∧ ¬ excluded (Member.role member) (Member.departmentSlug member).
Proof.
  unfold filterExcludedMembers, excluded. intros [Hin H]%filter_In.
  split; [done|]. apply andb_prop in H as [H1 H2].
  apply negb_true_iff in H1, H2. apply String.eqb_neq in H2.
  intros [?|?]; congruence.
Qed.

Lemma rankingRow_member member kpiref entry :
  Ranking.memberId (rankingRow member kpiref entry) = Member.userId member
  ∧ Ranking.memberRole (rankingRow member kpiref entry) = Member.role member
  ∧ Ranking.memberDepartment (rankingRow member kpiref entry)
    = Member.departmentSlug member
  ∧ Ranking.kpiref (rankingRow member kpiref entry) = kpiref.
Proof. by destruct entry. Qed.

Lemma rowsOf_In kpiEntries member r :
  In r (rowsOf kpiEntries member) →
  Ranking.memberId r = Member.userId member
  ∧ Ranking.memberRole r = Member.role member
  ∧ Ranking.memberDepartment r = Member.departmentSlug member.
Proof.
  unfold rowsOf. destruct (kpirefsOf member) as [|k ks].
  - intros [<-|[]]. by destruct (rankingRow_member member "no-kpiref"
                                    (firstEntryOf kpiEntries member)) as (?&?&?&?).
  - intros (kpiref & <- & _)%in_map_iff.
    by destruct (rankingRow_member member kpiref
                   (entryOfReference kpiEntries member kpiref)) as (?&?&?&?).
Qed.

(** Two rows that differ at most in their rank. *)
Lemma setRanking_fields n r r0 :
  Ranking.setRanking n r0 = Ranking.setRanking n r →
  Ranking.memberId r = Ranking.memberId r0
  ∧ Ranking.memberDepartment r = Ranking.memberDepartment r0
  ∧ Ranking.memberRole r = Ranking.memberRole r0
  ∧ Ranking.totalScore r = Ranking.totalScore r0
  ∧ Ranking.hasEntry r = Ranking.hasEntry r0
  ∧ Ranking.entryId r = Ranking.entryId r0
  ∧ Ranking.status r = Ranking.status r0.
Proof. destruct r, r0. unfold Ranking.setRanking. simpl. by intros [=]. Qed.

(** A row of the ranked listing, traced back to the row it was built as. *)
Lemma rankRows_In isCurrentMonth rows r :
  In r (rankRows isCurrentMonth rows) →
  ∃ r0, In r0 rows ∧ Ranking.setRanking 0 r0 = Ranking.setRanking 0 r.
Proof.
  intros Hin.
  assert (In (Ranking.setRanking 0 r)
            (map (Ranking.setRanking 0) (rankRows isCurrentMonth rows))) as H
    by by apply in_map.
  apply list_elem_of_In in H. rewrite rankRows_Permutation in H.
  apply list_elem_of_In, in_map_iff in H as (r0 & H0 & Hin0). eauto.
Qed.

(** X22. The rows of a statistics result are, up to their order and their
    rank numbers, the rows of the listed members (those of the department and
    role asked for, nodal officers and the collector office left out) over
    the entries of the period. No row is for an excluded member, and every
    row is for a stored member. *)
Theorem listing_has_the_rows_of_the_listed_members (now : Js.Date)
  (templateId department role : option string) (month year : option Z)
  (db db' : Db) (res : StatisticsResult.t) :
  getKpiEntriesStatisticsByDepartmentAndRoleWithMonthAndYear now templateId
    department role month year db = (db', inr res) →
  let rows := StatisticsResult.rankings res in
  let kpiEntries := periodEntries db now templateId month year in
  map (Ranking.setRanking 0) rows
  ≡ₚ map (Ranking.setRanking 0)
       (flat_map (rowsOf kpiEntries) (listedMembers db department role))
  ∧ (∀ r, In r rows →
          ¬ excluded (Ranking.memberRole r) (Ranking.memberDepartment r)
          ∧ ∃ member, In member (tbl_members db)
                      ∧ Ranking.memberId r = Member.userId member).
Proof.
  intros Hrun rows kpiEntries.
  destruct (statistics_success _ _ _ _ _ _ _ _ _ Hrun) as (_ & _ & Hrows & _).
  subst rows. rewrite Hrows. unfold unrankedRows. fold kpiEntries.
  rewrite buildRankings_rowsOf. fold (listedMembers db department role).
  split; [apply rankRows_Permutation|].
  intros r Hr. apply rankRows_In in Hr as (r0 & Hr0 & Heq).
  apply in_flat_map in Hr0 as (member & Hm & Hr0).
  apply rowsOf_In in Hr0 as (Hid & Hrole & Hdep).
  destruct (setRanking_fields _ _ _ Heq) as (-> & -> & -> & _).
  rewrite Hrole, Hdep, Hid.
  apply filterExcludedMembers_In in Hm as [Hm Hex]. split; [done|].
  exists member. split; [|done].
  unfold membersOf, MemberService.getMembers, read in Hm.
  apply In_take in Hm. cbn [Nat.sub Nat.mul drop] in Hm.
  by apply filter_In in Hm as [? _].
Qed.

(** X23. After a successful finalization of a template and period, a
    statistics request for that template that resolves to that period
    succeeds, whatever the department and role asked for, and the entries it
    loads include a [generated] one. *)
Theorem finalized_month_can_be_reported (templateId : string) (m y : Z)
  (generatedBy : string) (db db' : Db) (n : nat) (now : Js.Date)
  (department role : option string) (month year : option Z) :
  uniqueIds db →
  generateFinalReports templateId m y generatedBy db = (db', inr n) →
  resolvedPeriod now month year = (m, y) →
  ∃ res,
    getKpiEntriesStatisticsByDepartmentAndRoleWithMonthAndYear now
      (Some templateId) department role month year db' = (db', inr res)
    ∧ ∃ e, In e (periodEntries db' now (Some templateId) month year)
           ∧ KpiEntry.status e = generated.
Proof.
  intros Hu Hrun Hperiod.
  destruct (generateFinalReports_inr _ _ _ _ _ _ _ Hu Hrun)
    as (Hes & Hn & Hpos & _).
  destruct (List.filter _ (tbl_kpi_entries db)) as [|e0 es0] eqn:E;
    [subst n; simpl in Hpos; lia|].
  assert (In e0 (e0 :: es0)) as Hin0 by by left.
  rewrite <- E in Hin0. apply filter_In in Hin0 as [Hin0 Hq].
  apply andb_prop in Hq as [Hp _].
  set (e := finalized templateId m y e0).
  assert (In e (tbl_kpi_entries db')) as Hin by (rewrite Hes; by apply in_map).
  assert (KpiEntry.status e = generated) as Hst
    by (unfold e, finalized; by rewrite Hp).
  assert (kpiEntriesQuery m y (Some templateId) e = true) as Hmatch.
  { unfold e, finalized. rewrite Hp. unfold kpiEntriesQuery.
    unfold ofTemplateAndPeriod in Hp.
    apply andb_prop in Hp as [Hp Hy]. apply andb_prop in Hp as [Ht Hm].
    cbn [setStatus KpiEntry.month KpiEntry.year KpiEntry.kpiTemplateId].
    rewrite Hm, Hy, Ht. by destruct (nonEmpty templateId). }
  assert (In e (periodEntries db' now (Some templateId) month year)) as Hpe.
  { unfold periodEntries. rewrite Hperiod. cbn [fst snd]. by apply filter_In. }
  assert (∃ res,
            getKpiEntriesStatisticsByDepartmentAndRoleWithMonthAndYear now
              (Some templateId) department role month year db' = (db', inr res))
    as [res Hres]; [|by eauto].
  revert Hpe. run_statistics. unfold resolvedPeriod in Hperiod.
  rewrite Hperiod. cbn [fst snd]. intros Hpe.
  destruct (length _ =? 0)%nat eqn:E0.
  { apply length_eqb_0 in E0. by rewrite E0 in Hpe. }
  replace (length (List.filter _ (List.filter _ _)) =? 0)%nat with false.
  { rewrite andb_false_r. by eexists. }
  symmetry. apply not_true_is_false. intros E1. apply length_eqb_0 in E1.
  assert (In e (List.filter
                  (λ entry, bool_decide (KpiEntry.status entry = generated))
                  (List.filter (kpiEntriesQuery m y (Some templateId))
                     (tbl_kpi_entries db')))) as Hg.
  { apply filter_In. split; [done|]. by apply bool_decide_eq_true. }
  by rewrite E1 in Hg.
Qed.

Lemma filter_true_In {A} (p : A → bool) l :
  (∀ x, In x l → p x = true) → List.filter p l = l.
Proof.
  induction l as [|x l IH]; simpl; [done|]. intros Hp.
  rewrite (Hp x) by by left. f_equal. apply IH. intros y Hy. apply Hp. by right.
Qed.

Lemma storeAll_In_conv now id ds d :
  In d ds → ∃ id', In (KpiEntryModel.store now id' d) (KpiEntryModel.storeAll now id ds).
Proof.
  revert id. induction ds as [|x ds IH]; intros id; simpl; [done|].
  intros [->|H]; [by exists id; left|].
  destruct (IH (S id) H) as [id' ?]. exists id'. by right.
Qed.

Lemma head_filter_Some {A} (p : A → bool) l x :
  In x l → p x = true → ∃ y, head (List.filter p l) = Some y ∧ In y l ∧ p y = true.
Proof.
  intros Hin Hp.
  assert (In x (List.filter p l)) as H by by apply filter_In.
  destruct (List.filter p l) as [|y l'] eqn:E; [done|].
  exists y. split; [done|]. apply (filter_In p). rewrite E. by left.
Qed.

Lemma last_filter_Some {A} (p : A → bool) l x :
  In x l → p x = true → ∃ y, last (List.filter p l) = Some y ∧ In y l ∧ p y = true.
Proof.
  intros Hin Hp.
  assert (In x (List.filter p l)) as H by by apply filter_In.
  destruct (last (List.filter p l)) as [y|] eqn:E.
  - exists y. split; [done|]. apply (filter_In p).
    apply last_Some in E as [l' ->]. apply in_or_app. right. by left.
  - apply last_None in E. by rewrite E in H.
Qed.

Lemma rowsOf_length kpiEntries templateId month year generatedBy member :
  length (rowsOf kpiEntries member)
  = length (defaultEntriesFor templateId month year generatedBy member).
Proof.
  unfold rowsOf, defaultEntriesFor.
  destruct (kpirefsOf member) as [|k ks]; [done|].
  cbn [length Nat.eqb]. by rewrite !length_map.
Qed.

Lemma flat_map_length_ext {A B C} (f : A → list B) (g : A → list C) l :
  (∀ x, length (f x) = length (g x)) →
  length (flat_map f l) = length (flat_map g l).
Proof.
  intros H. induction l as [|x l IH]; [done|].
  simpl. rewrite !length_app. by rewrite H, IH.
Qed.

(** A row built from an entry that is still [created]. *)
Lemma rankingRow_created member kpiref e :
  KpiEntry.status e = created →
  Ranking.status (rankingRow member kpiref (Some e)) = of_entry created
  ∧ Ranking.hasEntry (rankingRow member kpiref (Some e)) = false
  ∧ Ranking.totalScore (rankingRow member kpiref (Some e)) = 0%Q
  ∧ Ranking.entryId (rankingRow member kpiref (Some e)) = Some (KpiEntry._id e).
Proof.
  intros Hs. unfold rankingRow. rewrite Hs.
  rewrite !bool_decide_eq_false_2 by done. done.
Qed.

(** X24. Right after a successful generation for the current month that
    stored entries, on a store that had no entry of this month, the
    statistics of the template's department and role for the current month
    succeed with one row per generated entry. Every row shows a generated
    entry, is [created], counts as without entry, and has the score 0 and the
    rank 0; the summary counts no row with an entry and a completion rate
    of 0. *)
Theorem fresh_generation_is_listed_unranked (now : Js.Date)
  (templateId generatedBy : string) (db db1 : Db) (r : GenerateResult.t)
  (template : KpiTemplate.t) :
  let month := Js.getMonth now + 1 in
  let year := Js.getFullYear now in
  KpiTemplateService.getKpiTemplate templateId db = (db, inr (Some template)) →
  generateDefaultKpiEntries now templateId month year generatedBy db
  = (db1, inr r) →
  (∀ e, In e (tbl_kpi_entries db) →
        ¬ (KpiEntry.month e = month ∧ KpiEntry.year e = year)) →
  (0 < GenerateResult.entriesCount r)%nat →
  ∃ res,
    getKpiEntriesStatisticsByDepartmentAndRoleWithMonthAndYear now
      (Some templateId) (Some (KpiTemplate.departmentSlug template))
      (Some (KpiTemplate.role template)) None None db1 = (db1, inr res)
    ∧ length (StatisticsResult.rankings res) = GenerateResult.entriesCount r
    ∧ (∀ row, In row (StatisticsResult.rankings res) →
         Ranking.status row = of_entry created
         ∧ Ranking.hasEntry row = false
         ∧ Ranking.totalScore row = 0%Q
         ∧ Ranking.ranking row = 0%nat
         ∧ ∃ e, In e (GenerateResult.entries r)
                ∧ Ranking.entryId row = Some (KpiEntry._id e))
    ∧ Statistics.rankingsWithEntries (StatisticsResult.statistics res) = 0%nat
    ∧ Statistics.completionRate (StatisticsResult.statistics res) = Some 0.
Proof.
  intros month year Htpl Hrun Hfresh Hpos.
  destruct (generateDefaultKpiEntries_success _ _ _ _ _ _ _ _ Hrun)
    as (template' & Ht' & He & Hc & _ & Htpls & Hmem & Hdb).
  assert (template' = template) as -> by congruence.
  set (members := eligibleMembers db template) in *.
  set (stored := GenerateResult.entries r) in *.
  (* every stored entry is of the template and the period, and [stored] *)
  assert (∀ e, In e stored →
            KpiEntry.kpiTemplateId e = templateId ∧ KpiEntry.month e = month
            ∧ KpiEntry.year e = year ∧ KpiEntry.status e = created) as Hcreated.
  { intros e Hin. rewrite He in Hin.
    apply storeAll_In in Hin as (id & d & Hd & ->).
    apply in_flat_map in Hd as (member & _ & Hd).
    by destruct (defaultEntriesFor_In _ _ _ _ _ _ Hd) as (? & ? & ? & _ & ?). }
  (* the entries the request loads are the stored ones *)
  assert (periodEntries db1 now (Some templateId) None None = stored) as Hload.
  { unfold periodEntries, resolvedPeriod. cbn [resolvePeriod default fst snd].
    fold month year. rewrite Hdb, List.filter_app.
    replace (List.filter _ (tbl_kpi_entries db)) with (@nil KpiEntry.t).
    2:{ symmetry. apply length_eqb_0.
        destruct (List.filter _ (tbl_kpi_entries db)) as [|e es] eqn:E; [done|].
        exfalso. assert (In e (e :: es)) as Hin by by left.
        rewrite <- E in Hin. apply filter_In in Hin as [Hin Hq].
        apply (Hfresh e Hin). unfold kpiEntriesQuery in Hq.
        apply andb_prop in Hq as [Hq _]. apply andb_prop in Hq as [Hm Hy]. lia. }
    cbn [app]. apply filter_true_In. intros e Hin.
    destruct (Hcreated e Hin) as (Ht & Hm & Hy & _).
    unfold kpiEntriesQuery. rewrite Ht, Hm, Hy, !Z.eqb_refl, String.eqb_refl.
    by destruct (nonEmpty templateId). }
  (* the members the request lists are the eligible ones *)
  assert (listedMembers db1 (Some (KpiTemplate.departmentSlug template))
            (Some (KpiTemplate.role template)) = members) as Hlisted.
  { unfold listedMembers, members, eligibleMembers, membersOf,
      MemberService.getMembers, read. by rewrite Hmem. }
  assert (stored ≠ []) as Hne.
  { intros Hnil. rewrite Hc in Hpos. fold stored in Hpos.
    rewrite Hnil in Hpos. simpl in Hpos. lia. }
  (* the request returns *)
  assert (∃ res,
            getKpiEntriesStatisticsByDepartmentAndRoleWithMonthAndYear now
              (Some templateId) (Some (KpiTemplate.departmentSlug template))
              (Some (KpiTemplate.role template)) None None db1 = (db1, inr res))
    as [res Hres].
  { revert Hload. run_statistics. cbn [resolvePeriod default fst snd].
    intros ->. destruct (length stored =? 0)%nat eqn:E0.
    - by apply length_eqb_0 in E0.
    - cbn [andb]. by eexists. }
  exists res. split; [done|].
  destruct (statistics_success _ _ _ _ _ _ _ _ _ Hres) as (_ & _ & Hrows & Hst).
  assert (isCurrentPeriod now (resolvedPeriod now None None) = true) as Hcur.
  { unfold isCurrentPeriod, resolvedPeriod. cbn [resolvePeriod default fst snd].
    by rewrite !Z.eqb_refl. }
  rewrite Hcur in Hrows. unfold unrankedRows in Hrows.
  rewrite Hload, buildRankings_rowsOf in Hrows.
  fold (listedMembers db1 (Some (KpiTemplate.departmentSlug template))
          (Some (KpiTemplate.role template))) in Hrows.
  rewrite Hlisted in Hrows.
  set (rows0 := flat_map (rowsOf stored) members) in *.
  (* the rows as built *)
  assert (∀ r0, In r0 rows0 →
            Ranking.status r0 = of_entry created
            ∧ Ranking.hasEntry r0 = false ∧ Ranking.totalScore r0 = 0%Q
            ∧ ∃ e, In e stored ∧ Ranking.entryId r0 = Some (KpiEntry._id e))
    as Hrows0.
  { intros r0 (member & Hm & Hr0)%in_flat_map.
    destruct (defaultEntriesFor_head templateId month year generatedBy member)
      as (d0 & rest & Hd0 & _).
    assert (∀ d, In d (defaultEntriesFor templateId month year generatedBy member) →
              ∃ id, In (KpiEntryModel.store now id d) stored) as Hstored.
    { intros d Hd. rewrite He. apply storeAll_In_conv.
      apply in_flat_map. eauto. }
    revert Hr0. unfold rowsOf.
    destruct (kpirefsOf member) as [|k ks] eqn:Hk.
    - intros [<-|[]].
      destruct (Hstored d0) as [id Hin]; [rewrite Hd0; by left|].
      assert (NewKpiEntry.createdFor d0 = Member.userId member) as Hfor.
      { eapply defaultEntriesFor_In. rewrite Hd0. by left. }
      destruct (head_filter_Some
                  (λ e, String.eqb (KpiEntry.createdFor e) (Member.userId member))
                  stored _ Hin) as (e & Hhead & Hine & _).
      { cbn. rewrite Hfor. apply String.eqb_refl. }
      unfold firstEntryOf. rewrite Hhead.
      destruct (Hcreated e Hine) as (_ & _ & _ & Hs).
      destruct (rankingRow_created member "no-kpiref" e Hs) as (?&?&?&?).
      repeat (split; [done|]). eauto.
    - intros (kpiref & <- & Hkin)%in_map_iff.
      set (d := NewKpiEntry.mk templateId [] 0%Q created generatedBy
                  (Member.userId member) (jurisdictionOf member) (Some kpiref)
                  month year).
      destruct (Hstored d) as [id Hin].
      { unfold defaultEntriesFor. rewrite Hk. cbn [length Nat.eqb].
        apply in_map_iff. by exists kpiref. }
      destruct (last_filter_Some
                  (λ e, String.eqb (KpiEntry.createdFor e) (Member.userId member)
                        && bool_decide (KpiEntry.kpirefs e = Some kpiref))
                  stored _ Hin) as (e & Hlast & Hine & _).
      { cbn. rewrite String.eqb_refl. by rewrite bool_decide_eq_true_2. }
      unfold entryOfReference. rewrite Hlast.
      destruct (Hcreated e Hine) as (_ & _ & _ & Hs).
      destruct (rankingRow_created member kpiref e Hs) as (?&?&?&?).
      repeat (split; [done|]). eauto. }
  destruct (rankRows_current rows0) as (_ & Hzero & _ & Hperm).
  rewrite <- Hrows in Hzero, Hperm.
  assert (∀ row, In row (StatisticsResult.rankings res) →
            Ranking.status row = of_entry created
            ∧ Ranking.hasEntry row = false ∧ Ranking.totalScore row = 0%Q
            ∧ Ranking.ranking row = 0%nat
            ∧ ∃ e, In e stored ∧ Ranking.entryId row = Some (KpiEntry._id e))
    as Hall.
  { intros row Hin. pose proof Hin as Hin'. rewrite Hrows in Hin'.
    apply rankRows_In in Hin' as (r0 & Hr0 & Heq).
    destruct (Hrows0 r0 Hr0) as (Hs & Hh & Htot & e & Hine & Hid).
    destruct (setRanking_fields _ _ _ Heq) as (_ & _ & _ & E3 & E2 & E4 & E1).
    rewrite E1, E2, E3, E4. repeat (split; [done|]). split; [|eauto].
    apply Hzero; [done|]. apply isGenerated_false. by rewrite E1, Hs. }
  assert (length (StatisticsResult.rankings res) = length stored) as Hlen.
  { apply Permutation_length in Hperm. rewrite !length_map in Hperm.
    rewrite Hperm, He, storeAll_length. unfold rows0.
    apply flat_map_length_ext. intros m. apply rowsOf_length. }
  split; [by rewrite Hc|]. split; [done|].
  rewrite Hst. unfold summarize.
  cbn [Statistics.rankingsWithEntries Statistics.completionRate].
  assert (List.filter Ranking.hasEntry (StatisticsResult.rankings res) = [])
    as Hnone.
  { apply length_eqb_0.
    destruct (List.filter _ _) as [|x l] eqn:E; [done|]. exfalso.
    assert (In x (x :: l)) as Hx by by left.
    rewrite <- E in Hx. apply filter_In in Hx as [Hx Hh].
    destruct (Hall x Hx) as (_ & Hh' & _). congruence. }
  rewrite Hnone. split; [done|].
  destruct (Nat.eqb_spec (length (StatisticsResult.rankings res)) 0) as [H0|H0].
  { rewrite Hlen in H0. by destruct stored. }
  f_equal.
  pose proof (Math_round_percentage 0
                (Z.of_nat (length (StatisticsResult.rankings res)))
                ltac:(lia)) as Hround.
  cbv zeta in Hround. cbn [length] in *.
  change (Z.of_nat 0) with 0. nia.
Qed.

(** ** What every operation keeps *)

Lemma laterStageOf_refl e : laterStageOf e e.
Proof. unfold laterStageOf. repeat split; lia. Qed.

Lemma Forall2_refl_later es : Forall2 laterStageOf es es.
Proof. induction es; constructor; auto using laterStageOf_refl. Qed.

Lemma advances_refl db : advances db db.
Proof.
  exists (tbl_kpi_entries db), []. rewrite app_nil_r.
  split; [done|]. split; [apply Forall2_refl_later|by intros ? []].
Qed.

(** [findByIdAndUpdate] touches at most one document, the first with the
    id. *)
Lemma updateFirst_Forall2 id f es :
  Forall2 (λ e e', e' = e ∨ (e' = f e ∧ KpiEntry._id e = id))
    es (fst (KpiEntryModel.updateFirst id f es)).
Proof.
  induction es as [|e es IH]; simpl; [constructor|].
  destruct (Nat.eqb_spec (KpiEntry._id e) id) as [He|He]; simpl.
  - constructor; [by right|]. clear. induction es; constructor; auto.
  - destruct (KpiEntryModel.updateFirst id f es). simpl in *.
    constructor; [by left|done].
Qed.

Lemma updateEach_Forall2 entries db :
  ∃ db',
    updateEach entries db = (db', inr tt)
    ∧ Forall2 (λ e e', e' = e ∨ e' = setStatus generated e)
        (tbl_kpi_entries db) (tbl_kpi_entries db')
    ∧ tbl_kpi_templates db' = tbl_kpi_templates db
    ∧ tbl_members db' = tbl_members db.
Proof.
  revert db. induction entries as [|x rest IH]; intros db.
  - exists db. split; [done|]. split; [|done].
    induction (tbl_kpi_entries db); constructor; auto.
  - cbn [updateEach]. unfold mbind, M_bind, KpiEntryModel.findByIdAndUpdate.
    pose proof (updateFirst_Forall2 (KpiEntry._id x) (setStatus generated)
                  (tbl_kpi_entries db)) as Hup.
    destruct (KpiEntryModel.updateFirst _ _ _) as [es r]. cbn [fst] in Hup.
    set (db1 := mkDb _ _ _ _ _).
    destruct (IH db1) as (db' & Hrun & Hes & Ht & Hm).
    exists db'. split; [done|]. split; [|done].
    change (tbl_kpi_entries db1) with es in Hes.
    revert Hup Hes. generalize (tbl_kpi_entries db) (tbl_kpi_entries db').
    clear. intros l l'. revert l l'.
    induction es as [|e es IH]; intros l l' H1 H2;
      inversion H1; inversion H2; subst; constructor; [|by apply IH].
    match goal with
    | Ha : _ ∨ _, Hb : _ ∨ _ |- _ =>
        destruct Ha as [->|[-> _]], Hb as [->| ->]; auto
    end.
Qed.

Lemma finalize_effect templateId month year generatedBy db db' o :
  generateFinalReports templateId month year generatedBy db = (db', o) →
  Forall2 (λ e e', e' = e ∨ e' = setStatus generated e)
    (tbl_kpi_entries db) (tbl_kpi_entries db').
Proof.
  unfold generateFinalReports, mbind, M_bind, KpiEntryModel.find, read.
  destruct (length _ =? 0)%nat.
  - intros [= <- <-]. induction (tbl_kpi_entries db); constructor; auto.
  - match goal with
    | |- context [updateEach ?l db] =>
        destruct (updateEach_Forall2 l db) as (db1 & -> & Hes & _)
    end.
    unfold KpiAuditLogService.create, mret, M_ret. by intros [= <- <-].
Qed.

Lemma update_effect StringToNumber now entryId values updatedBy db db' o :
  updateKpiEntryValues StringToNumber now entryId values updatedBy db = (db', o) →
  db' = db
  ∨ ∃ entry validatedValues,
      List.find (λ e, Nat.eqb (KpiEntry._id e) entryId) (tbl_kpi_entries db)
      = Some entry
      ∧ KpiEntry.status entry ≠ generated
      ∧ tbl_kpi_entries db'
        = fst (KpiEntryModel.updateFirst entryId
                 (λ e, scoredEntry e validatedValues) (tbl_kpi_entries db)).
Proof.
  run_update. intros H.
  repeat (case_match; simplify_eq/=); try (by left).
  all: right; eexists _, _; (split; [done|]); split;
    [by eapply bool_decide_eq_false_1|];
    match goal with
    | H : KpiEntryModel.updateFirst _ _ _ = _ |- _ =>
        unfold scoredEntry; by rewrite H
    end.
Qed.





Lemma Forall2_later (R : KpiEntry.t → KpiEntry.t → Prop) es es' :
  (∀ e e', In e es → R e e' → laterStageOf e e') →
  Forall2 R es es' → Forall2 laterStageOf es es'.
Proof.
  intros HR H. induction H as [|e e' es es' He _ IH]; constructor.
  - apply HR; [by left|done].
  - apply IH. intros x y Hx. apply HR. by right.
Qed.

(** X26. Generation, submission and finalization never remove a stored entry
    and never move one back, whether they return or throw: after the call
    every entry of before is still there, in place, with its id, template,
    member, reference, period and creation date, at the same or a later
    stage ([created], [initiated], [generated]), and the entries added come
    after them, at the stage [created]. *)
Theorem entries_only_advance :
  (∀ now templateId month year generatedBy db db' o,
     generateDefaultKpiEntries now templateId month year generatedBy db
     = (db', o) → advances db db')
  ∧ (∀ StringToNumber now entryId values updatedBy db db' o,
       updateKpiEntryValues StringToNumber now entryId values updatedBy db
       = (db', o) → advances db db')
  ∧ (∀ templateId month year generatedBy db db' o,
       generateFinalReports templateId month year generatedBy db = (db', o) →
       advances db db').
Proof.
  split; [|split].
  - intros now templateId month year generatedBy db db' [ex|r] Hrun.
    + apply generateDefaultKpiEntries_inl in Hrun as [-> _].
      apply advances_refl.
    + destruct (generateDefaultKpiEntries_success _ _ _ _ _ _ _ _ Hrun)
        as (template & _ & Hent & _ & _ & _ & _ & Hdb).
      exists (tbl_kpi_entries db), (GenerateResult.entries r).
      split; [done|]. split; [apply Forall2_refl_later|].
      intros e He. rewrite Hent in He.
      apply storeAll_In in He as (id & d & Hd & ->).
      apply in_flat_map in Hd as (member & _ & Hd).
      by destruct (defaultEntriesFor_In _ _ _ _ _ _ Hd) as (_ & _ & _ & _ & ?).
  - intros StringToNumber now entryId values updatedBy db db' o Hrun.
    destruct (update_effect _ _ _ _ _ _ _ _ Hrun)
      as [->|(entry & vs & Hfind & Hst & Hes)]; [apply advances_refl|].
    destruct (updateFirst_find entryId (λ e, scoredEntry e vs) _ _ Hfind)
      as (earlier & later & Hsplit & _ & Hupd).
    rewrite Hupd in Hes. cbn [fst] in Hes.
    exists (tbl_kpi_entries db'), []. rewrite app_nil_r.
    split; [done|]. split; [|by intros ? []].
    rewrite Hes, Hsplit. apply Forall2_app; [apply Forall2_refl_later|].
    constructor; [|apply Forall2_refl_later].
    unfold laterStageOf, scoredEntry. cbn. repeat (split; [done|]).
    destruct (KpiEntry.status entry); cbn; try lia. done.
  - intros templateId month year generatedBy db db' o Hrun.
    exists (tbl_kpi_entries db'), []. rewrite app_nil_r.
    split; [done|]. split; [|by intros ? []].
    eapply Forall2_later; [|by eapply finalize_effect].
    intros e e' _ [->| ->]; [apply laterStageOf_refl|].
    unfold laterStageOf. cbn. repeat (split; [done|]).
    destruct (KpiEntry.status e); cbn; lia.
Qed.

(** ** The theorems at concrete inputs *)

(** The percentage rule at the worked example: rules 90, 75, 50 and the
    value 80, which reaches the thresholds 75 and 50. *)
Lemma percentage_greatest_threshold_at_80 :
  ∃ best tb,
    List.find (hasThreshold tb) rule90_75_50 = Some best
    ∧ threshold best = Some tb
    ∧ (tb <= 80)%Q
    ∧ (∀ rule' t', In rule' rule90_75_50 → threshold rule' = Some t' →
         (t' <= 80)%Q → (t' <= tb)%Q)
    ∧ calculateScore noStringThreshold (Js.VNumber 80) rule90_75_50 percentage
      = ScoringRule.score best.
Proof.
  refine (proj2 (proj1 (percentage_greatest_threshold noStringThreshold)
                   80%Q rule90_75_50 _)
            (ScoringRule.mk None None (Some (RNumber 75)) 7) 75%Q _ _ _).
  - intros rule s [<-|[<-|[<-|[]]]]; discriminate.
  - right; left; reflexivity.
  - reflexivity.
  - vm_compute; discriminate.
Defined.


(** A finalized entry rejects even a member of the collector's office. *)
Lemma finalized_entry_rejects_the_collector :
  let db := district [entryOf 1 patwariAB (Some "A") generated 7 11 2026] in
  updateKpiEntryValues noStringThreshold nov2 1 [collection 80]
    (Member.userId collector) db
  = (db, inl (Api (mkAPIError 400 "Entry Already Generated"))).
Proof.
  cbv zeta.
  refine (generated_entry_rejects_update noStringThreshold nov2 _ 1
            (entryOf 1 patwariAB (Some "A") generated 7 11 2026)
            [collection 80] (Member.userId collector) _ _).
  - reflexivity.
  - reflexivity.
Defined.

(** The supervising officer submits nothing for a required item: the call
    fails and the store is as before. *)
Lemma missing_value_changes_nothing :
  let db := district [entryOf 1 patwariAB (Some "A") created 0 11 2026] in
  db = db
  ∧ ∃ e, Api (mkAPIError 400 "Missing required values") = Api e
         ∧ In e updateErrors.
Proof.
  cbv zeta.
  refine (failed_update_changes_nothing noStringThreshold nov2 _ _ 1 []
            (Member.userId nodalOfficer)
            (Api (mkAPIError 400 "Missing required values")) _).
  vm_compute. reflexivity.
Defined.

(** Generating November 2026 twice on 2 November 2026. *)
Lemma second_generation_in_november_conflicts :
  ∃ db1 r1,
    generateDefaultKpiEntries nov2 "66aa00000000000000000001" 11 2026 "system"
      (district []) = (db1, inr r1)
    ∧ ∃ e, generateDefaultKpiEntries nov2 "66aa00000000000000000001" 11 2026
             "system" db1 = (db1, inl (Api e))
           ∧ Conflict e ∧ TITLE e = "Entries Already Exist".
Proof.
  eexists _, _. split; [vm_compute; reflexivity|].
  refine (regeneration_conflicts nov2 nov2 "66aa00000000000000000001" 11 2026
            "system" "system" (district []) _ _ _ _ _).
  - vm_compute. reflexivity.
  - vm_compute. lia.
  - split; vm_compute; reflexivity.
Defined.

(** The generation for November 2026 over the two patwaris. *)
Lemma november_generation_fans_out :
  ∃ db' r,
    generateDefaultKpiEntries nov2 "66aa00000000000000000001" 11 2026 "system"
      (district []) = (db', inr r)
    ∧ ∃ template,
        KpiTemplateService.getKpiTemplate "66aa00000000000000000001" (district [])
        = (district [], inr (Some template))
        ∧ map tagOf (GenerateResult.entries r)
          = flat_map fanOut (eligibleMembers (district []) template)
        ∧ tbl_kpi_entries db' = tbl_kpi_entries (district []) ++ GenerateResult.entries r
        ∧ GenerateResult.entriesCount r = length (GenerateResult.entries r).
Proof.
  eexists _, _. split; [vm_compute; reflexivity|].
  refine (proj1 generation_fans_out_by_reference nov2
            "66aa00000000000000000001" 11 2026 "system" (district []) _ _ _).
  vm_compute. reflexivity.
Defined.

(** Asking on 2 November for the month before, whose one entry was never
    finalized. *)
Lemma last_month_not_finalized_is_not_found :
  ∃ e, getKpiEntriesStatisticsByDepartmentAndRoleWithMonthAndYear nov2
         None None None (Some (-1)) None octoberOpen
       = (octoberOpen, inl (Api e))
       ∧ NotFound e ∧ TITLE e = "No Generated Reports Found".
Proof.
  refine (proj1 (generated_required_for_relative_month nov2 None None None None
                   octoberOpen) (-1) _ _ _).
  - lia.
  - vm_compute. discriminate.
  - intros e [<-|[]]. discriminate.
Defined.



(** ** The further properties at concrete inputs *)


(** A patwari submits for the entry of another patwari. *)
Lemma other_patwari_is_denied :
  let entry := entryOf 1 patwariAB (Some "A") created 0 11 2026 in
  let db := district [entry] in
  updateKpiEntryValues noStringThreshold nov2 1 [collection 80]
    (Member.userId patwariNone) db
  = (db, inl (Api (mkAPIError 403 "Permission Denied")))
  ↔ ¬ mayUpdate db (Member.userId patwariNone) entry.
Proof.
  cbv zeta.
  refine (update_denied_exactly_without_permission noStringThreshold nov2 _ 1 _
            [collection 80] (Member.userId patwariNone) _ _ _).
  - reflexivity.
  - discriminate.
  - split; reflexivity.
Defined.

(** The finalization of November 2026, with two submissions received and
    one entry untouched. *)
Lemma november_is_locked :
  ∃ db' n,
    generateFinalReports "66aa00000000000000000001" 11 2026 "system"
      novemberInProgress = (db', inr n)
    ∧ tbl_kpi_entries db'
      = map (finalized "66aa00000000000000000001" 11 2026)
          (tbl_kpi_entries novemberInProgress)
    ∧ (∀ e, In e (tbl_kpi_entries db') →
            ofTemplateAndPeriod "66aa00000000000000000001" 11 2026 e = true →
            KpiEntry.status e = generated)
    ∧ n = length (List.filter
                    (λ e, ofTemplateAndPeriod "66aa00000000000000000001" 11 2026 e
                          && isOpen e)
                    (tbl_kpi_entries novemberInProgress))
    ∧ (0 < n)%nat
    ∧ tbl_kpi_templates db' = tbl_kpi_templates novemberInProgress
    ∧ tbl_members db' = tbl_members novemberInProgress.
Proof.
  eexists _, _. split; [vm_compute; reflexivity|].
  refine (finalization_locks_the_period "66aa00000000000000000001" 11 2026
            "system" novemberInProgress _ _ _ _).
  - unfold uniqueIds. simpl. repeat constructor; simpl; intuition discriminate.
  - vm_compute. reflexivity.
Defined.

(** Finalizing November 2026 a second time. *)
Lemma november_is_finalized_once :
  ∃ db' n,
    generateFinalReports "66aa00000000000000000001" 11 2026 "system"
      novemberInProgress = (db', inr n)
    ∧ generateFinalReports "66aa00000000000000000001" 11 2026
        (Member.userId collector) db'
      = (db', inl (Api (mkAPIError 404 "No Entries Found"))).
Proof.
  eexists _, _. split; [vm_compute; reflexivity|].
  refine (repeated_finalization_finds_nothing "66aa00000000000000000001" 11 2026
            "system" (Member.userId collector) novemberInProgress _ _ _ _).
  - unfold uniqueIds. simpl. repeat constructor; simpl; intuition discriminate.
  - vm_compute. reflexivity.
Defined.

(** The supervising officer submits for the entry that was still untouched
    when November 2026 was finalized. *)
Lemma submission_after_finalization_is_rejected :
  ∃ db' n,
    generateFinalReports "66aa00000000000000000001" 11 2026 "system"
      novemberInProgress = (db', inr n)
    ∧ updateKpiEntryValues noStringThreshold nov2 2 [collection 80]
        (Member.userId nodalOfficer) db'
      = (db', inl (Api (mkAPIError 400 "Entry Already Generated"))).
Proof.
  eexists _, _. split; [vm_compute; reflexivity|].
  refine (finalized_period_rejects_updates noStringThreshold
            "66aa00000000000000000001" 11 2026 "system" novemberInProgress _ _
            nov2 2 (entryOf 2 patwariAB (Some "B") generated 0 11 2026)
            [collection 80] (Member.userId nodalOfficer) _ _ _ _).
  - unfold uniqueIds. simpl. repeat constructor; simpl; intuition discriminate.
  - vm_compute. reflexivity.
  - vm_compute. reflexivity.
  - reflexivity.
Defined.


(** The entries of the generation for November 2026. *)
Lemma november_entries_are_blank :
  ∃ db' r,
    generateDefaultKpiEntries nov2 "66aa00000000000000000001" 11 2026 "system"
      (district []) = (db', inr r)
    ∧ ∀ e, In e (GenerateResult.entries r) →
        KpiEntry.status e = created
        ∧ KpiEntry.values e = []
        ∧ KpiEntry.totalScore e = 0%Q
        ∧ KpiEntry.kpiTemplateId e = "66aa00000000000000000001"
        ∧ KpiEntry.month e = 11 ∧ KpiEntry.year e = 2026
        ∧ KpiEntry.createdBy e = "system"
        ∧ KpiEntry.createdAt e = nov2
        ∧ withinSchema 11 2026
        ∧ (nextObjectId (district []) <= KpiEntry._id e < nextObjectId db')%nat
        ∧ ∃ member,
            In member (tbl_members (district []))
            ∧ KpiEntry.createdFor e = Member.userId member
            ∧ KpiEntry.jurisdiction e = jurisdictionOf member
            ∧ Js.startsWith (Member.role member) "nodalOfficer-" = false
            ∧ Member.departmentSlug member ≠ "collector-office".
Proof.
  eexists _, _. split; [vm_compute; reflexivity|].
  intros e.
  refine (generated_entries_are_blank nov2 "66aa00000000000000000001" 11 2026
            "system" (district []) _ _ e _).
  vm_compute. reflexivity.
Defined.

(** A generation for the month 13 of 2026. *)
Lemma month_13_stores_nothing :
  generateDefaultKpiEntries nov2 "66aa00000000000000000001" 13 2026 "system"
    (district [])
  = (district [], inl MongooseValidationError).
Proof.
  refine (generation_outside_the_schema_stores_nothing nov2
            "66aa00000000000000000001" 13 2026 "system" (district [])
            collectionTemplate _ _ _ _).
  - reflexivity.
  - vm_compute. discriminate.
  - intros e [].
  - unfold withinSchema. lia.
Defined.

(** Asked in March 2026 for the month -3. *)
Lemma three_months_before_march :
  let period := resolvePeriod 3 2026 (Some (- 3)) None in
  1 <= fst period <= 12
  ∧ 12 * snd period + fst period
    = 12 * 2026 + 3 - 3
      + (if (3 - 3 <=? 0) && ((3 - 3) mod 12 =? 0) then 12 else 0).
Proof.
  refine (relative_month_counts_back 3 2026 3 _ _); lia.
Defined.


(** The worked rules at 60 and at 80 percent. *)
Lemma score_at_60_and_at_80 :
  (calculateScore noStringThreshold (Js.VNumber 60) rule90_75_50 percentage
   <= calculateScore noStringThreshold (Js.VNumber 80) rule90_75_50 percentage)%Q.
Proof.
  refine (percentage_score_is_monotone noStringThreshold rule90_75_50 60 80
            _ _ _).
  - intros rule s [<-|[<-|[<-|[]]]]; discriminate.
  - split.
    + intros r1 r2 t1 t2 [<-|[<-|[<-|[]]]] [<-|[<-|[<-|[]]]] [= <-] [= <-];
        vm_compute; intros H; try discriminate; intros H'; apply H; reflexivity.
    + intros r [<-|[<-|[<-|[]]]]; vm_compute; discriminate.
  - vm_compute. discriminate.
Defined.

(** The validation of a collection of 80 percent. *)
Lemma collection_is_validated :
  (∀ item, In item (KpiTemplate.template collectionTemplate) →
           TemplateItem.isDynamic item = false →
           In (TemplateItem.name item) (map ValueInput.name [collection 80]))
  ∧ Forall2
      (λ input v,
         ∃ item, itemNamed (KpiTemplate.template collectionTemplate)
                   (ValueInput.name input) = Some item
                 ∧ scoredFrom noStringThreshold item input v)
      (List.filter
         (λ input, bool_decide (is_Some (itemNamed
                                           (KpiTemplate.template collectionTemplate)
                                           (ValueInput.name input))))
         [collection 80])
      [collection80].
Proof.
  refine (validated_values_follow_the_template noStringThreshold [collection 80]
            (KpiTemplate.template collectionTemplate) [collection80] _).
  vm_compute. reflexivity.
Defined.

(** The three entries of November 2026, two to a page. *)
Lemma november_in_pages_of_two :
  let listing := getKpiEntries (λ _, true) in
  let matching := List.filter (λ _, true) (tbl_kpi_entries novemberInProgress) in
  ∃ r,
    listing 1%positive 2%positive novemberInProgress = (novemberInProgress, inr r)
    ∧ Paginated.total r = length matching
    ∧ (length (Paginated.docs r) <= Pos.to_nat 2)%nat
    ∧ concat (map (pageOf (λ p, listing p 2%positive) novemberInProgress)
                (pagesUpTo (Paginated.totalPages r))) = matching
    ∧ (Paginated.hasNextPage r = true
       ↔ pageOf (λ p, listing p 2%positive) novemberInProgress (1 + 1) ≠ [])
    ∧ (Paginated.hasPreviousPage r = true ↔ 1%positive ≠ 1%positive).
Proof.
  cbv zeta. eexists. split; [vm_compute; reflexivity|].
  refine (entry_pages_tile_the_matches (λ _, true) 2 novemberInProgress
            1%positive _ _).
  vm_compute. reflexivity.
Defined.

(** The reports job of 2 November 2026 on the open October. *)
Lemma reports_job_closes_october :
  ∃ db' month year,
    monthlyReportsJob nov2 octoberOpen = (db', inr tt)
    ∧ 1 <= month <= 12
    ∧ 12 * year + month
      = 12 * Js.getFullYear nov2 + (Js.getMonth nov2 + 1) - 1
    ∧ tbl_kpi_entries db'
      = map (finalizedFor (scheduledTemplates octoberOpen) month year)
          (tbl_kpi_entries octoberOpen)
    ∧ tbl_kpi_templates db' = tbl_kpi_templates octoberOpen
    ∧ tbl_members db' = tbl_members octoberOpen.
Proof.
  refine (reports_job_finalizes_the_month_before nov2 octoberOpen _ _).
  - unfold uniqueIds. simpl. repeat constructor; simpl; intuition discriminate.
  - vm_compute. split; discriminate.
Defined.

(** The entries job run twice on 2 November 2026. *)
Lemma entries_job_twice_in_november :
  ∃ db1 db2,
    monthlyEntriesJob nov2 (district []) = (db1, inr tt)
    ∧ monthlyEntriesJob nov2 db1 = (db2, inr tt)
    ∧ tbl_kpi_entries db2 = tbl_kpi_entries db1.
Proof.
  refine (entries_job_is_idempotent nov2 nov2 (district []) _ _ _).
  - split; vm_compute; reflexivity.
  - reflexivity.
  - reflexivity.
Defined.

(** The November entries of the patwari with two halkas. *)
Lemma november_entries_of_the_patwari :
  ∃ r,
    getKpiEntriesByUser (Some (Member.userId patwariAB)) (Some 11) (Some 2026)
      None None (Some "initiated") 1 10 novemberInProgress
    = (novemberInProgress, inr r)
    ∧ (∀ e, In e (Paginated.docs r) →
         In e (tbl_kpi_entries novemberInProgress)
         ∧ (∀ u, Some (Member.userId patwariAB) = Some u → u ≠ "" →
                 KpiEntry.createdFor e = u)
         ∧ (∀ s, Some "initiated" = Some s → s ≠ "" →
                 statusName (KpiEntry.status e) = s)
         ∧ (∀ j, None = Some j → j ≠ "" → In j (KpiEntry.jurisdiction e))
         ∧ (∀ m, Some 11 = Some m → m ≠ 0 → KpiEntry.month e = m)
         ∧ (∀ y, Some 2026 = Some y → y ≠ 0 → KpiEntry.year e = y)
         ∧ (∀ t, None = Some t → t ≠ "" → KpiEntry.kpiTemplateId e = t))
    ∧ StronglySorted noOlderThan (Paginated.docs r)
    ∧ (length (Paginated.docs r) <= Pos.to_nat 10)%nat.
Proof.
  eexists. split; [vm_compute; reflexivity|].
  refine (user_listing_matches_its_filters (Some (Member.userId patwariAB))
            (Some 11) (Some 2026) None None (Some "initiated") 1 10
            novemberInProgress _ _).
  vm_compute. reflexivity.
Defined.

(** The metadata of a patwari of tehsil T with the halkas A and B, adapted
    twice. *)
Lemma patwari_metadata_adapted_twice :
  ∃ adapted,
    MemberService.validateAndAdaptMetadata "patwari" patwariMetadata = Some adapted
    ∧ MemberService.validateAndAdaptMetadata "patwari" adapted = Some adapted.
Proof.
  eexists. split; [reflexivity|].
  refine (adapting_stored_metadata_changes_nothing "patwari" patwariMetadata _ _).
  reflexivity.
Defined.

(** The two halkas, read back from the adapted metadata. *)
Lemma patwari_halkas_are_read_back :
  ∃ adapted,
    MemberService.validateAndAdaptMetadata "patwari" patwariMetadata = Some adapted
    ∧ let member :=
        MemberDocument.mk "650000000000000000000001" "revenue" "patwari" adapted in
      ∃ refs,
        fieldOf adapted "kpirefs" = Any.array refs
        ∧ fieldOf adapted "isMultipleKPIRef" = Any.boolean (1 <? length refs)%nat
        ∧ getMemberKpiRefs member = refs
        ∧ hasMultipleKpiRefs member = (1 <? length refs)%nat
        ∧ (refs = [] → fieldOf adapted "jurisdiction" = Any.undefined)
        ∧ (refs ≠ [] →
           fieldOf adapted "jurisdiction" = Any.array refs
           ∨ (Any.truthy (fieldOf adapted "tehsil") = true
              ∧ fieldOf adapted "jurisdiction"
                = Any.array (fieldOf adapted "tehsil" :: refs))).
Proof.
  eexists. split; [reflexivity|].
  refine (adapted_references_are_read_back "patwari" patwariMetadata _
            "650000000000000000000001" "revenue" _ _).
  - right; right; left. reflexivity.
  - reflexivity.
Defined.

(** The two halkas, accepted and adopted. *)
Lemma patwari_halkas_are_adopted :
  ∃ items adapted,
    Any.array [Any.str "A"; Any.str "B"] = Any.array items ∧ items ≠ []
    ∧ MemberService.validateAndAdaptMetadata "patwari" patwariMetadata
      = Some adapted
    ∧ fieldOf adapted "kpirefs" = Any.array items
    ∧ fieldOf adapted "halka" = Any.array items
    ∧ ∃ head, fieldOf adapted "jurisdiction" = Any.array (head ++ items).
Proof.
  refine (valid_references_are_adopted "patwari" "halka" patwariMetadata
            (Any.array [Any.str "A"; Any.str "B"])
            (MemberService.RoleValidation.mk true []) _ _ _ _ _).
  - reflexivity.
  - vm_compute. reflexivity.
  - reflexivity.
  - vm_compute. reflexivity.
  - reflexivity.
Defined.

(** The rows of November 2026, in progress. *)
Lemma november_rows :
  ∃ res,
    getKpiEntriesStatisticsByDepartmentAndRoleWithMonthAndYear nov2 None None
      None None None novemberInProgress = (novemberInProgress, inr res)
    ∧ let rows := StatisticsResult.rankings res in
      let kpiEntries := periodEntries novemberInProgress nov2 None None None in
      map (Ranking.setRanking 0) rows
      ≡ₚ map (Ranking.setRanking 0)
           (flat_map (rowsOf kpiEntries) (listedMembers novemberInProgress None None))
      ∧ (∀ r, In r rows →
              ¬ excluded (Ranking.memberRole r) (Ranking.memberDepartment r)
              ∧ ∃ member, In member (tbl_members novemberInProgress)
                          ∧ Ranking.memberId r = Member.userId member).
Proof.
  eexists. split; [vm_compute; reflexivity|].
  refine (listing_has_the_rows_of_the_listed_members nov2 None None None None
            None novemberInProgress novemberInProgress _ _).
  vm_compute. reflexivity.
Defined.

(** October 2026, finalized on 2 November and then asked for as the month
    before. *)
Lemma october_is_reported_once_finalized :
  ∃ db' n,
    generateFinalReports "66aa00000000000000000001" 10 2026 "system" octoberOpen
    = (db', inr n)
    ∧ ∃ res,
        getKpiEntriesStatisticsByDepartmentAndRoleWithMonthAndYear nov2
          (Some "66aa00000000000000000001") None None (Some (-1)) None db'
        = (db', inr res)
        ∧ ∃ e, In e (periodEntries db' nov2 (Some "66aa00000000000000000001")
                       (Some (-1)) None)
               ∧ KpiEntry.status e = generated.
Proof.
  eexists _, _. split; [vm_compute; reflexivity|].
  refine (finalized_month_can_be_reported "66aa00000000000000000001" 10 2026
            "system" octoberOpen _ _ nov2 None None (Some (-1)) None _ _ _).
  - unfold uniqueIds. simpl. repeat constructor; simpl; intuition discriminate.
  - vm_compute. reflexivity.
  - vm_compute. reflexivity.
Defined.

(** The listing of November 2026 right after its generation. *)
Lemma november_right_after_generation :
  ∃ db1 r,
    generateDefaultKpiEntries nov2 "66aa00000000000000000001" 11 2026 "system"
      (district []) = (db1, inr r)
    ∧ ∃ res,
        getKpiEntriesStatisticsByDepartmentAndRoleWithMonthAndYear nov2
          (Some "66aa00000000000000000001")
          (Some (KpiTemplate.departmentSlug collectionTemplate))
          (Some (KpiTemplate.role collectionTemplate)) None None db1
        = (db1, inr res)
        ∧ length (StatisticsResult.rankings res) = GenerateResult.entriesCount r
        ∧ (∀ row, In row (StatisticsResult.rankings res) →
             Ranking.status row = of_entry created
             ∧ Ranking.hasEntry row = false
             ∧ Ranking.totalScore row = 0%Q
             ∧ Ranking.ranking row = 0%nat
             ∧ ∃ e, In e (GenerateResult.entries r)
                    ∧ Ranking.entryId row = Some (KpiEntry._id e))
        ∧ Statistics.rankingsWithEntries (StatisticsResult.statistics res) = 0%nat
        ∧ Statistics.completionRate (StatisticsResult.statistics res) = Some 0.
Proof.
  eexists _, _. split; [vm_compute; reflexivity|].
  refine (fresh_generation_is_listed_unranked nov2 "66aa00000000000000000001"
            "system" (district []) _ _ collectionTemplate _ _ _ _).
  - reflexivity.
  - vm_compute. reflexivity.
  - intros e [].
  - vm_compute. lia.
Defined.


(** The store after the finalization of November 2026. *)
Lemma finalization_only_advances_november :
  ∃ db' o,
    generateFinalReports "66aa00000000000000000001" 11 2026 "system"
      novemberInProgress = (db', o)
    ∧ advances novemberInProgress db'.
Proof.
  eexists _, _. split; [vm_compute; reflexivity|].
  refine (proj2 (proj2 entries_only_advance) "66aa00000000000000000001" 11 2026
            "system" novemberInProgress _ _ _).
  vm_compute. reflexivity.
Defined.
